(** * Lovi firmware: provisioning and control plane

    A shallow embedding of the firmware sources

    - [firmware/lib/captiveportal]            (ConfigManager, CaptivePortal),
    - [firmware/lib/lovi-captive-portal/src]  (CaptivePortal.cpp),
    - [firmware/devices/presence_gen_one]     (main.cpp),
    - [firmware/devices/test_device]          (main.cpp),

    together with the properties the design document states about them.

    Conventions.  A [char] and an EEPROM cell are both 8-bit values and are
    modelled by [ascii]; a [char] buffer is a [list ascii] of the declared
    size; a C string is the run of bytes in front of the first NUL.
    Effectful code runs in a small state monad that also returns the
    sequence of observable actions (radio, DNS, HTTP, delays, restart) in
    the order the code performs them.  Writes to the serial log are not
    observable actions and are left out. *)

From Stdlib Require Import ZArith Ascii String Lia DecimalString.
From stdpp Require Import base list strings.

Set Warnings "-register-all".

Local Open Scope Z_scope.
Local Open Scope list_scope.

(* ===================================================================== *)
(** * C strings and character buffers *)
(* ===================================================================== *)

Module CStr.

(** The terminator ['\0']. *)
Definition NUL : ascii := Ascii.zero.

(** The C string a [const char*] denotes: the bytes before the first NUL. *)
Fixpoint c_str (mem : list ascii) : list ascii :=
  match mem with
  | [] => []
  | c :: rest => if decide (c = NUL) then [] else c :: c_str rest
  end.

(** [strlen(p)]. *)
Definition strlen (mem : list ascii) : nat := length (c_str mem).

(** [strncpy(dst, src, n)]: the first [n] cells of [dst] receive the
    characters of [src], cut after [n] of them and followed by NULs up to
    [n] cells in all; cells from [n] on keep their content.  When [n]
    exceeds the size of [dst] the result is longer than [dst]: that is the
    overflow. *)
Definition strncpy (dst src : list ascii) (n : nat) : list ascii :=
  let s := take n (c_str src) in
  s ++ replicate (n - length s) NUL ++ drop n dst.

End CStr.

(* ===================================================================== *)
(** * The EEPROM library object *)
(* ===================================================================== *)

Module EEPROM.
Import CStr.

(** [EEPROMClass]: a RAM shadow of [size] cells, filled from flash by
    [begin] and written back by [commit]. *)
Record t := mk {
  data  : list ascii;   (* RAM shadow, [EEPROM.begin(512)] makes it 512 cells *)
  flash : list ascii    (* the non-volatile sector *)
}.

(** [EEPROM.begin(size)]: load the sector into the shadow. *)
Definition begin (size : nat) (e : t) : t :=
  {| data := take size (flash e ++ replicate size NUL); flash := flash e |}.

(** [EEPROM.read(address)]: 0 outside the shadow. *)
Definition read (address : nat) (e : t) : ascii :=
  default NUL (data e !! address).

(** [EEPROM.write(address, value)]: ignored outside the shadow. *)
Definition write (address : nat) (value : ascii) (e : t) : t :=
  {| data := <[address := value]> (data e); flash := flash e |}.

(** [EEPROM.commit()]. *)
Definition commit (e : t) : t :=
  {| data := data e; flash := data e |}.

End EEPROM.

(* ===================================================================== *)
(** * lib/captiveportal/ConfigManager *)
(* ===================================================================== *)

Module ConfigManager.
Import CStr.

(** [sizeof(_ssid)] and [sizeof(_password)] (ConfigManager.h). *)
Definition SSID_SIZE : nat := 32.
Definition PASSWORD_SIZE : nat := 64.

Record t := mk {
  _ssid     : list ascii;   (* char _ssid[32] *)
  _password : list ascii    (* char _password[64] *)
}.

(** [for (size_t i = 0; i < n; i++) body(i)]. *)
Definition for_upto {S : Type} (n : nat) (body : nat -> S -> S) (s : S) : S :=
  foldl (fun acc i => body i acc) s (seq 0 n).

(** The constructor writes the first cell of each buffer; [raw] is the
    storage the object is built in. *)
Definition ctor (raw : t) : t :=
  {| _ssid := <[0%nat := NUL]> (_ssid raw);
     _password := <[0%nat := NUL]> (_password raw) |}.

(** [getSSID()] and [getPassword()] return the buffers; what a caller reads
    through the pointer is the C string in the buffer.  (A buffer without
    terminator would be read past its end; every buffer [setSSID] or
    [setPassword] has written ends in NUL.) *)
Definition getSSID (cm : t) : list ascii := c_str (_ssid cm).
Definition getPassword (cm : t) : list ascii := c_str (_password cm).

Definition setSSID (ssid : list ascii) (cm : t) : t :=
  let b := strncpy (_ssid cm) ssid (SSID_SIZE - 1) in
  {| _ssid := <[(SSID_SIZE - 1)%nat := NUL]> b; _password := _password cm |}.

Definition setPassword (password : list ascii) (cm : t) : t :=
  let b := strncpy (_password cm) password (PASSWORD_SIZE - 1) in
  {| _ssid := _ssid cm; _password := <[(PASSWORD_SIZE - 1)%nat := NUL]> b |}.

Definition isConfigured (cm : t) : bool := bool_decide (0 < strlen (_ssid cm))%nat.

Definition _loadFromEEPROM (e : EEPROM.t) (cm : t) : t :=
  let s := for_upto SSID_SIZE
             (fun i buf => <[i := EEPROM.read i e]> buf) (_ssid cm) in
  let p := for_upto PASSWORD_SIZE
             (fun i buf => <[i := EEPROM.read (SSID_SIZE + i) e]> buf) (_password cm) in
  {| _ssid := s; _password := p |}.

Definition _saveToEEPROM (cm : t) (e : EEPROM.t) : EEPROM.t :=
  let e1 := for_upto SSID_SIZE
              (fun i e => EEPROM.write i (default NUL (_ssid cm !! i)) e) e in
  let e2 := for_upto PASSWORD_SIZE
              (fun i e => EEPROM.write (SSID_SIZE + i) (default NUL (_password cm !! i)) e) e1 in
  EEPROM.commit e2.

Definition loadConfig (e : EEPROM.t) (cm : t) : t := _loadFromEEPROM e cm.
Definition saveConfig (cm : t) (e : EEPROM.t) : EEPROM.t := _saveToEEPROM cm e.
Definition begin (e : EEPROM.t) (cm : t) : t := loadConfig e cm.

Definition clearConfig (cm : t) (e : EEPROM.t) : t * EEPROM.t :=
  let cm' := {| _ssid := <[0%nat := NUL]> (_ssid cm);
                _password := <[0%nat := NUL]> (_password cm) |} in
  (cm', _saveToEEPROM cm' e).

(** Both buffers have their declared size. *)
Definition sized (cm : t) : Prop :=
  length (_ssid cm) = SSID_SIZE /\ length (_password cm) = PASSWORD_SIZE.

End ConfigManager.

(* ===================================================================== *)
(** * Library objects the firmware drives: radio, HTTP, JSON, actions *)
(* ===================================================================== *)

Module Arduino.

(** [WiFiMode]: a two-bit mask, station bit 1 and access-point bit 2. *)
Definition WIFI_OFF : Z := 0.
Definition WIFI_STA : Z := 1.
Definition WIFI_AP : Z := 2.
Definition WIFI_AP_STA : Z := 3.

Record IPAddress := IP { oct1 : N; oct2 : N; oct3 : N; oct4 : N }.

Definition dec (n : N) : string := DecimalString.NilZero.string_of_uint (N.to_uint n).

(** [IPAddress::toString()]. *)
Definition toString (a : IPAddress) : string :=
  dec (oct1 a) +:+ "." +:+ dec (oct2 a) +:+ "." +:+ dec (oct3 a) +:+ "." +:+ dec (oct4 a).

(** [HTTPMethod] of ESP8266WebServer. *)
Inductive HTTPMethod :=
| HTTP_ANY | HTTP_GET | HTTP_HEAD | HTTP_POST | HTTP_PUT | HTTP_PATCH
| HTTP_DELETE | HTTP_OPTIONS.

#[global] Instance HTTPMethod_eq_dec : EqDecision HTTPMethod.
Proof. solve_decision. Defined.

(** An HTTP request as the server hands it to a handler: [method()],
    [uri()] and the arguments ([arg], [hasArg]); the body of a POST is the
    argument named [plain]. *)
Record Request := mkRequest {
  method : HTTPMethod;
  uri    : string;
  args   : list (string * string)
}.

Fixpoint lookup_arg (name : string) (l : list (string * string)) : option string :=
  match l with
  | [] => None
  | (k, v) :: rest => if decide (k = name) then Some v else lookup_arg name rest
  end.

Definition hasArg (name : string) (r : Request) : bool :=
  bool_decide (is_Some (lookup_arg name (args r))).

(** [arg(name)]: the empty string when the argument is absent. *)
Definition arg (name : string) (r : Request) : string :=
  default EmptyString (lookup_arg name (args r)).

(** [String::c_str()]: the characters of the string, read as a C string. *)
Definition chars (s : string) : list ascii := list_ascii_of_string s.

(** JSON values held by an ArduinoJson document. *)
Inductive JsonValue :=
| JNull
| JBool (b : bool)
| JInt (n : Z)
| JFloat (thousandths : Z)
| JStr (s : string)
| JArr (items : list JsonValue)
| JObj (members : list (string * JsonValue)).

(** The members of a JSON object, in insertion order. *)
Definition JsonMembers := list (string * JsonValue).

Fixpoint members_get (key : string) (ms : JsonMembers) : option JsonValue :=
  match ms with
  | [] => None
  | (k, v) :: rest => if decide (k = key) then Some v else members_get key rest
  end.

Fixpoint members_set (key : string) (v : JsonValue) (ms : JsonMembers) : JsonMembers :=
  match ms with
  | [] => [(key, v)]
  | (k, old) :: rest =>
      if decide (k = key) then (k, v) :: rest else (k, old) :: members_set key v rest
  end.

(** A [JsonDocument] is its root value.  The root of a document just
    declared ([JsonDocument doc;]) is null; [deserializeJson] leaves
    whatever value the text denotes: an object, but also an array, a
    string, a number, a boolean or null. *)
Definition JsonDocument := JsonValue.
Definition null_document : JsonDocument := JNull.

(** [doc[key]] read: the member of an object root; any other root has no
    members. *)
Definition json_get (key : string) (doc : JsonDocument) : option JsonValue :=
  match doc with
  | JObj ms => members_get key ms
  | _ => None
  end.

(** [doc[key] = v]: a null root is turned into an object first; on an
    object root the member is replaced in place, or appended; on any other
    root (array, string, number, boolean) the assignment does nothing. *)
Definition json_set (key : string) (v : JsonValue) (doc : JsonDocument) : JsonDocument :=
  match doc with
  | JNull => JObj [(key, v)]
  | JObj ms => JObj (members_set key v ms)
  | _ => doc
  end.

(** [doc.isNull() || doc.is<JsonObject>()]: the roots on which a member
    assignment takes effect. *)
Definition accepts_members (doc : JsonDocument) : bool :=
  match doc with
  | JNull | JObj _ => true
  | _ => false
  end.

(** [doc.containsKey(key)]. *)
Definition containsKey (key : string) (doc : JsonDocument) : bool :=
  bool_decide (is_Some (json_get key doc)).

(** [variant.as<bool>()]: a boolean is itself, a number is true when it is
    not zero, null (and an absent member) is false, everything else true. *)
Definition as_bool (v : option JsonValue) : bool :=
  match v with
  | None | Some JNull => false
  | Some (JBool b) => b
  | Some (JInt n) => negb (n =? 0)
  | Some (JFloat x) => negb (x =? 0)
  | Some _ => true
  end.

(** [DeserializationError], the codes other than [Ok]. *)
Inductive DeserializationError :=
| EmptyInput | IncompleteInput | InvalidInput | NoMemory | TooDeep.

(** [error.c_str()]. *)
Definition error_c_str (e : DeserializationError) : string :=
  match e with
  | EmptyInput => "EmptyInput"
  | IncompleteInput => "IncompleteInput"
  | InvalidInput => "InvalidInput"
  | NoMemory => "NoMemory"
  | TooDeep => "TooDeep"
  end.

(** What an HTTP response carries. [BJson d] is the text [serializeJson]
    produces for [d]; [BPage c] is the text of the page constant named [c]
    ([HTML_FORM], [WEB_UI_HTML]). *)
Inductive Body :=
| BText (s : string)
| BJson (d : JsonDocument)
| BPage (name : string).

(** Status-indicator patterns ([LEDPattern]). *)
Inductive LEDPattern := BOOT | WIFI_CONNECT | CONNECTED | AP_MODE | ON | OFF.

(** Calls into the Device Adapter. *)
Inductive DeviceCall :=
| SetDeviceID | DeviceBegin | RegisterAPIRoutes | DeviceUpdate
| OnEnterConfigMode | OnExitConfigMode | OnWiFiConnected | OnWiFiDisconnected
| StartMDNS (port : Z) | StartAPIServer (port : Z) | DeviceRoute (path : string).

(** The observable actions, in the vocabulary of the sources. *)
Inductive Event :=
| WiFi_mode (m : Z)                                   (* WiFi.mode(m) *)
| WiFi_begin (ssid pass : list ascii)                 (* WiFi.begin(ssid, pass): station join *)
| WiFi_softAP (ssid pass : string) (channel : Z)      (* WiFi.softAP(..) *)
| WiFi_softAPConfig (ip gw mask : IPAddress)
| WiFi_softAPdisconnect (wifioff : bool)
| WiFi_setHostname (name : string)
| WiFi_scan
| DNS_begin (ip : IPAddress) (port : Z)               (* redirector start *)
| DNS_stop
| DNS_process
| HTTP_begin                                          (* webServer.begin() *)
| HTTP_sendHeader (name value : string)
| HTTP_send (code : Z) (content_type : string) (body : Body)
| LED_begin
| LED_setPattern (p : LEDPattern)
| LED_setState (on : bool)
| LED_update (presence : bool)
| MDNS_begin (hostname : string)
| MDNS_addService (service proto : string) (port : Z)
| MDNS_addServiceTxt (key value : string)
| MDNS_update
| Config_load
| Config_reset
| EEPROM_commit
| Dev (c : DeviceCall)
| Delay (ms : Z)
| WdtFeed
| Restart.                                            (* ESP.restart() *)

#[global] Instance IPAddress_eq_dec : EqDecision IPAddress.
Proof. solve_decision. Defined.
#[global] Instance LEDPattern_eq_dec : EqDecision LEDPattern.
Proof. solve_decision. Defined.
#[global] Instance DeviceCall_eq_dec : EqDecision DeviceCall.
Proof. solve_decision. Defined.

(** Why a run stops short. *)
Inductive Fault := NullPointerDereference.

(** The result of running a piece of code from a state.  It returns a value
    and a new state after performing [trace]; or it calls [ESP.restart()],
    which does not return: the run ends in the state reached at that point,
    of which only the non-volatile part outlives the reboot; or it faults. *)
Inductive Outcome (W A : Type) :=
| Done (a : A) (w : W) (trace : list Event)
| Rebooted (w : W) (trace : list Event)
| Crash (f : Fault) (trace : list Event).
Arguments Done {W A} a w trace.
Arguments Rebooted {W A} w trace.
Arguments Crash {W A} f trace.

Definition M (W A : Type) : Type := W -> Outcome W A.

Definition ret {W A} (a : A) : M W A := fun w => Done a w [].

Definition bind {W A B} (m : M W A) (k : A -> M W B) : M W B :=
  fun w =>
    match m w with
    | Done a w1 t1 =>
        match k a w1 with
        | Done b w2 t2 => Done b w2 (t1 ++ t2)
        | Rebooted w2 t2 => Rebooted w2 (t1 ++ t2)
        | Crash f t2 => Crash f (t1 ++ t2)
        end
    | Rebooted w1 t1 => Rebooted w1 t1
    | Crash f t1 => Crash f t1
    end.

Definition get {W} : M W W := fun w => Done w w [].
Definition put {W} (w : W) : M W unit := fun _ => Done tt w [].
Definition modify {W} (f : W -> W) : M W unit := fun w => Done tt (f w) [].
Definition emit {W} (e : Event) : M W unit := fun w => Done tt w [e].
Definition fault {W A} (f : Fault) : M W A := fun _ => Crash f [].

(** [ESP.restart()]. *)
Definition restart {W A} : M W A := fun w => Rebooted w [Restart].

(** [p->...] through a pointer that may be null. *)
Definition deref {W A} (p : option A) : M W A :=
  match p with
  | Some a => ret a
  | None => fault NullPointerDereference
  end.

(** [if (c) body]. *)
Definition when {W} (c : bool) (body : M W unit) : M W unit :=
  if c then body else ret tt.

(** The actions of a run, the state it ends in, whether it ends without a
    fault. *)
Definition trace_of {W A} (o : Outcome W A) : list Event :=
  match o with Done _ _ t => t | Rebooted _ t => t | Crash _ t => t end.
Definition state_of {W A} (o : Outcome W A) : option W :=
  match o with Done _ w _ => Some w | Rebooted w _ => Some w | Crash _ _ => None end.
Definition no_fault {W A} (o : Outcome W A) : bool :=
  match o with Crash _ _ => false | _ => true end.

(** How many actions of a trace satisfy [p], and where the first one is. *)
Definition count (p : Event -> bool) (t : list Event) : nat := length (filter (fun e => p e = true) t).

Fixpoint first_index (p : Event -> bool) (t : list Event) : option nat :=
  match t with
  | [] => None
  | e :: rest => if p e then Some 0%nat else S <$> first_index p rest
  end.

(** Some action satisfying [p] happens, and strictly before the first
    action satisfying [q] (if there is one at all). *)
Definition happens_before (p q : Event -> bool) (t : list Event) : bool :=
  match first_index p t, first_index q t with
  | Some i, Some j => bool_decide (i < j)%nat
  | Some _, None => true
  | None, _ => false
  end.

Definition is_restart (e : Event) : bool := match e with Restart => true | _ => false end.
Definition is_send (e : Event) : bool := match e with HTTP_send _ _ _ => true | _ => false end.
Definition is_config_reset (e : Event) : bool := match e with Config_reset => true | _ => false end.
Definition is_sta_begin (e : Event) : bool := match e with WiFi_begin _ _ => true | _ => false end.
Definition is_dns_begin (e : Event) : bool := match e with DNS_begin _ _ => true | _ => false end.
Definition is_dns_stop (e : Event) : bool := match e with DNS_stop => true | _ => false end.
Definition is_ap_off (e : Event) : bool :=
  match e with WiFi_softAPdisconnect true => true | _ => false end.
Definition is_exit_config (e : Event) : bool :=
  match e with Dev OnExitConfigMode => true | _ => false end.

End Arduino.

Declare Scope eff_scope.
Delimit Scope eff_scope with eff.
Notation "x <- m ;; k" := (Arduino.bind m (fun x => k))
  (at level 100, m at next level, right associativity) : eff_scope.
Notation "m ;; k" := (Arduino.bind m (fun _ => k))
  (at level 100, right associativity) : eff_scope.

(* ===================================================================== *)
(** * lib/captiveportal/CaptivePortal (the single-argument portal) *)
(* ===================================================================== *)

Module Legacy.
Import CStr Arduino.
Local Open Scope eff_scope.

(** lib/captiveportal/LEDController. *)
Record LEDController := mkLED { _pin : Z; _isOn : bool }.

(** lib/lovi-core/Device: the two flags its start calls test. *)
Record Device := mkDevice { _mdnsStarted : bool; _apiServerStarted : bool }.

(** The members of [CaptivePortal]; a pointer member is [None] while null. *)
Record CaptivePortal := mkPortal {
  _configManager : option ConfigManager.t;
  _ledController : option LEDController;
  _ledPin        : Z;
  _configMode    : bool;
  _started       : bool;
  _dnsServer     : bool;     (* a DNSServer has been created and started *)
  _webServer     : bool      (* an ESP8266WebServer has been created *)
}.

(** The globals of a firmware image built on this portal, and the hardware
    it drives.  [link t] tells whether the radio reports [WL_CONNECTED] at
    time [t] (milliseconds since boot); [heap] is the content of the memory
    [new ConfigManager()] constructs its object in. *)
Record World := mkWorld {
  portal    : CaptivePortal;
  device    : Device;
  eeprom    : EEPROM.t;
  wifi_mode : Z;
  clock     : Z;
  link      : Z -> bool;
  heap      : ConfigManager.t
}.

Definition with_portal (p : CaptivePortal) (w : World) : World :=
  mkWorld p (device w) (eeprom w) (wifi_mode w) (clock w) (link w) (heap w).
Definition with_device (d : Device) (w : World) : World :=
  mkWorld (portal w) d (eeprom w) (wifi_mode w) (clock w) (link w) (heap w).
Definition with_eeprom (e : EEPROM.t) (w : World) : World :=
  mkWorld (portal w) (device w) e (wifi_mode w) (clock w) (link w) (heap w).
Definition with_wifi_mode (m : Z) (w : World) : World :=
  mkWorld (portal w) (device w) (eeprom w) m (clock w) (link w) (heap w).
Definition with_clock (t : Z) (w : World) : World :=
  mkWorld (portal w) (device w) (eeprom w) (wifi_mode w) t (link w) (heap w).

Definition set_configManager (c : option ConfigManager.t) (p : CaptivePortal) :=
  mkPortal c (_ledController p) (_ledPin p) (_configMode p) (_started p) (_dnsServer p) (_webServer p).
Definition set_ledController (l : option LEDController) (p : CaptivePortal) :=
  mkPortal (_configManager p) l (_ledPin p) (_configMode p) (_started p) (_dnsServer p) (_webServer p).
Definition set_configMode (b : bool) (p : CaptivePortal) :=
  mkPortal (_configManager p) (_ledController p) (_ledPin p) b (_started p) (_dnsServer p) (_webServer p).
Definition set_started (b : bool) (p : CaptivePortal) :=
  mkPortal (_configManager p) (_ledController p) (_ledPin p) (_configMode p) b (_dnsServer p) (_webServer p).
Definition set_dnsServer (b : bool) (p : CaptivePortal) :=
  mkPortal (_configManager p) (_ledController p) (_ledPin p) (_configMode p) (_started p) b (_webServer p).
Definition set_webServer (b : bool) (p : CaptivePortal) :=
  mkPortal (_configManager p) (_ledController p) (_ledPin p) (_configMode p) (_started p) (_dnsServer p) b.

Definition Run := M World.

Definition on_portal (f : CaptivePortal -> CaptivePortal) : Run unit :=
  modify (fun w => with_portal (f (portal w)) w).

(** [CaptivePortal::CaptivePortal(ledPin)]. *)
Definition ctor (ledPin : Z) : CaptivePortal :=
  mkPortal None None ledPin false false false false.

Definition AP_SSID : string := "Lovi-Config".

(** [delay(ms)]. *)
Definition delay (ms : Z) : Run unit :=
  emit (Delay ms) ;; modify (fun w => with_clock (clock w + ms) w).

(** [WiFi.mode(m)]. *)
Definition WiFi_setMode (m : Z) : Run unit :=
  emit (WiFi_mode m) ;; modify (with_wifi_mode m).

(** [WiFi.status() == WL_CONNECTED]. *)
Definition WiFi_connected : Run bool :=
  w <- get ;; ret (link w (clock w)).

(** [new ConfigManager()]. *)
Definition new_ConfigManager : Run ConfigManager.t :=
  w <- get ;; ret (ConfigManager.ctor (heap w)).

(** [new LEDController(pin)] followed by [begin()]. *)
Definition new_LEDController_begun (pin : Z) : Run LEDController :=
  emit LED_begin ;; ret (mkLED pin false).

Definition _setupAP : Run unit :=
  WiFi_setMode WIFI_AP ;;
  emit (WiFi_softAP AP_SSID EmptyString 1).

Definition _setupWebServer : Run unit :=
  on_portal (set_webServer true) ;;
  emit HTTP_begin.

Definition begin : Run unit :=
  w <- get ;;
  if _started (portal w) then ret tt
  else
    cm <- new_ConfigManager ;;
    let cm := ConfigManager.begin (eeprom w) cm in
    let cm := ConfigManager.loadConfig (eeprom w) cm in
    on_portal (set_configManager (Some cm)) ;;
    led <- new_LEDController_begun (_ledPin (portal w)) ;;
    on_portal (set_ledController (Some led)) ;;
    _setupWebServer ;;
    on_portal (set_started true).

(** [enterConfigMode()]; the DNS server is started on [WiFi.softAPIP()],
    the access point's default address. *)
Definition enterConfigMode : Run unit :=
  w <- get ;;
  if _configMode (portal w) then ret tt
  else
    on_portal (set_configMode true) ;;
    cm <- new_ConfigManager ;;
    on_portal (set_configManager (Some cm)) ;;
    led <- new_LEDController_begun (_ledPin (portal w)) ;;
    on_portal (set_ledController (Some led)) ;;
    _setupAP ;;
    _setupWebServer ;;
    on_portal (set_dnsServer true) ;;
    emit (DNS_begin (IP 192 168 4 1) 53).

Definition isInConfigMode (p : CaptivePortal) : bool := _configMode p.
Definition getConfigManager (p : CaptivePortal) : option ConfigManager.t := _configManager p.

Definition _handleRoot : Run unit :=
  emit (HTTP_send 200 "text/html" (BPage "HTML_FORM")).

Definition _handleSave (r : Request) : Run unit :=
  if hasArg "ssid" r && hasArg "password" r then
    let ssid := arg "ssid" r in
    let password := arg "password" r in
    w <- get ;;
    cm <- deref (_configManager (portal w)) ;;
    let cm := ConfigManager.setSSID (chars ssid) cm in
    let cm := ConfigManager.setPassword (chars password) cm in
    on_portal (set_configManager (Some cm)) ;;
    modify (fun w => with_eeprom (ConfigManager.saveConfig cm (eeprom w)) w) ;;
    emit EEPROM_commit ;;
    emit (HTTP_send 200 "text/html"
            (BText "<h1>Settings Saved!</h1><p>Device will restart.</p>")) ;;
    delay 1000 ;;
    restart
  else
    emit (HTTP_send 400 "text/html" (BText "<h1>Invalid Request</h1>")).

Definition _handleNotFound : Run unit :=
  emit (HTTP_sendHeader "Location" "/") ;;
  emit (HTTP_send 302 EmptyString (BText EmptyString)).

(** [_webServer->handleClient()] serving request [r]: the routes of
    [_setupWebServer], registered for every method. *)
Definition handleClient (r : Request) : Run unit :=
  if decide (uri r = "/") then _handleRoot
  else if decide (uri r = "/save") then _handleSave r
  else _handleNotFound.

(** [CaptivePortal::update()]; [pending] is the request waiting, if any. *)
Definition update (pending : option Request) : Run unit :=
  w <- get ;;
  when (_configMode (portal w) && _dnsServer (portal w)) (emit DNS_process) ;;
  when (_webServer (portal w))
    (match pending with Some r => handleClient r | None => ret tt end).


End Legacy.

(* ===================================================================== *)
(** * devices/presence_gen_one/main.cpp *)
(* ===================================================================== *)

Module PresenceGenOne.
Import CStr Arduino Legacy.
Local Open Scope eff_scope.

Definition LED_PIN : Z := 16.
Definition WIFI_TIMEOUT : Z := 30.

(** [Device::startMDNS(port)] and [Device::startAPIServer(port)]. *)
Definition startMDNS (port : Z) : Run unit :=
  w <- get ;;
  when (negb (_mdnsStarted (device w)))
    (emit (Dev (StartMDNS port)) ;;
     modify (fun w => with_device (mkDevice true (_apiServerStarted (device w))) w)).

Definition startAPIServer (port : Z) : Run unit :=
  w <- get ;;
  when (negb (_apiServerStarted (device w)))
    (emit (Dev (StartAPIServer port)) ;;
     modify (fun w => with_device (mkDevice (_mdnsStarted (device w)) true) w)).

(** The polling loop of [connectToWiFi]:
    [while (WiFi.status() != WL_CONNECTED && timeout < WIFI_TIMEOUT)
       { delay(1000); timeout++; }].
    [fuel] bounds the number of tests of the condition; the loop returns
    the final value of [timeout], or nothing when the bound is too small. *)
Fixpoint poll (fuel : nat) (timeout : Z) : Run (option Z) :=
  match fuel with
  | O => ret None
  | S fuel' =>
      up <- WiFi_connected ;;
      if negb up && (timeout <? WIFI_TIMEOUT) then
        delay 1000 ;;
        poll fuel' (timeout + 1)
      else ret (Some timeout)
  end.

(** [connectToWiFi(ssid, password)]; the result tells which branch of the
    final test ran: [true] for the connected branch. *)
Definition connectToWiFi (fuel : nat) (ssid password : list ascii) : Run (option bool) :=
  WiFi_setMode WIFI_STA ;;
  emit (WiFi_begin ssid password) ;;
  t <- poll fuel 0 ;;
  match t with
  | None => ret None
  | Some _ =>
      up <- WiFi_connected ;;
      if up then
        emit (Dev DeviceBegin) ;;
        startMDNS 80 ;;
        startAPIServer 80 ;;
        ret (Some true)
      else ret (Some false)
  end.

(** [setup()]. *)
Definition setup (fuel : nat) : Run unit :=
  delay 1000 ;;
  modify (fun w => with_eeprom (EEPROM.begin 512 (eeprom w)) w) ;;
  w <- get ;;
  let configManager := getConfigManager (portal w) in
  cm <- deref configManager ;;                       (* configManager->loadConfig() *)
  let cm := ConfigManager.loadConfig (eeprom w) cm in
  on_portal (set_configManager (Some cm)) ;;
  let ssid := ConfigManager._ssid cm in
  if decide (strlen ssid = 0%nat) then
    enterConfigMode
  else
    begin ;;
    connectToWiFi fuel (c_str ssid) (ConfigManager.getPassword cm) ;;
    ret tt.

(** The image's globals before [setup()] runs. *)
Definition boot (e : EEPROM.t) (lnk : Z -> bool) (mem : ConfigManager.t) : World :=
  mkWorld (ctor LED_PIN) (mkDevice false false) e WIFI_OFF 0 lnk mem.




End PresenceGenOne.

(* ===================================================================== *)
(** * lib/lovi-captive-portal/src/CaptivePortal.cpp *)
(* ===================================================================== *)

Module Portal.
Import CStr Arduino.
Local Open Scope eff_scope.

(** The Device Adapter as the portal sees it: the values its getters
    return, what its JSON hooks do to a document, and the routes it
    registers.  Calls that concern only the adapter show in the trace as
    [Dev _]. *)
Record Device := mkDevice {
  getDeviceName      : string;
  getDeviceType      : string;
  getModelName       : string;
  getFirmwareVersion : string;
  getDeviceID        : string;
  getPresence        : JsonDocument -> JsonDocument;
  getStatus          : JsonDocument -> bool -> JsonDocument;
  getSensorData      : JsonDocument -> JsonDocument;
  getSettings        : JsonDocument -> JsonDocument;
  updateSettings     : JsonDocument -> bool * JsonDocument;
  apiRoutes          : list (string * HTTPMethod)
}.

(** The handlers routes are bound to. *)
Inductive Handler :=
| handleGenerate204_ | handleHotspotDetect_ | handleNCSI_ | handleConnectTest_
| handleRedirect_ | handleFavicon_ | handleRoot_
| handleConnected_ | handlePresence_ | handleStatus_ | handleData_
| handleDevice_ | handleScan_ | handleNetwork_ | handleSettings_
| handleRestart_ | handleReset_ | handleLED_
| deviceHandler_ (path : string).

Definition Route : Type := string * HTTPMethod * Handler.

(** The members of [CaptivePortal]. *)
Record Members := mkMembers {
  device            : option Device;
  configMode        : bool;
  deviceInitialized : bool;
  presenceDetected  : bool;
  apSSID            : string;
  apPassword        : string;
  apChannel         : Z;
  apIP              : IPAddress
}.

(** The radio ([WiFi]): its mode, and what its queries answer. *)
Record Radio := mkRadio {
  mode       : Z;
  connected  : bool;                 (* WiFi.status() == WL_CONNECTED *)
  localIP    : IPAddress;
  softAPIP   : IPAddress;
  SSID       : string;
  RSSI       : Z;
  channel    : Z;
  macAddress : string;
  networks   : list (string * Z * Z) (* scan results: ssid, rssi, encryption *)
}.

(** The web server: the handlers registered so far, in order. *)
Record Server := mkServer {
  routes      : list Route;
  notFoundSet : bool;
  serving     : bool
}.

(** The Credential Store: the stored SSID and passphrase buffers. *)
Record Store := mkStore { ssid : list ascii; password : list ascii }.

(** States of the Connection Manager. *)
Inductive ConnectionState := IDLE | CONNECTING | LINKED | FAILED.

Record Env := mkEnv { millis : Z; freeHeap : Z; mdns_ok : bool }.

Record World := mkWorld {
  self       : Members;
  radio      : Radio;
  dnsRunning : bool;
  led        : LEDPattern;
  store      : Store;
  conn       : ConnectionState;
  server     : Server;
  env        : Env
}.

Definition with_self (m : Members) (w : World) : World :=
  mkWorld m (radio w) (dnsRunning w) (led w) (store w) (conn w) (server w) (env w).
Definition with_radio (r : Radio) (w : World) : World :=
  mkWorld (self w) r (dnsRunning w) (led w) (store w) (conn w) (server w) (env w).
Definition with_dns (b : bool) (w : World) : World :=
  mkWorld (self w) (radio w) b (led w) (store w) (conn w) (server w) (env w).
Definition with_led (p : LEDPattern) (w : World) : World :=
  mkWorld (self w) (radio w) (dnsRunning w) p (store w) (conn w) (server w) (env w).
Definition with_store (s : Store) (w : World) : World :=
  mkWorld (self w) (radio w) (dnsRunning w) (led w) s (conn w) (server w) (env w).
Definition with_conn (c : ConnectionState) (w : World) : World :=
  mkWorld (self w) (radio w) (dnsRunning w) (led w) (store w) c (server w) (env w).
Definition with_server (s : Server) (w : World) : World :=
  mkWorld (self w) (radio w) (dnsRunning w) (led w) (store w) (conn w) s (env w).
Definition with_env (e : Env) (w : World) : World :=
  mkWorld (self w) (radio w) (dnsRunning w) (led w) (store w) (conn w) (server w) e.

Definition set_configMode (b : bool) (m : Members) : Members :=
  mkMembers (device m) b (deviceInitialized m) (presenceDetected m)
            (apSSID m) (apPassword m) (apChannel m) (apIP m).
Definition set_deviceInitialized (b : bool) (m : Members) : Members :=
  mkMembers (device m) (configMode m) b (presenceDetected m)
            (apSSID m) (apPassword m) (apChannel m) (apIP m).
Definition set_presenceDetected (b : bool) (m : Members) : Members :=
  mkMembers (device m) (configMode m) (deviceInitialized m) b
            (apSSID m) (apPassword m) (apChannel m) (apIP m).

Definition set_mode (md : Z) (r : Radio) : Radio :=
  mkRadio md (connected r) (localIP r) (softAPIP r) (SSID r) (RSSI r) (channel r)
          (macAddress r) (networks r).
Definition set_softAPIP (a : IPAddress) (r : Radio) : Radio :=
  mkRadio (mode r) (connected r) (localIP r) a (SSID r) (RSSI r) (channel r)
          (macAddress r) (networks r).

Definition Run := M World.

Definition on_self (f : Members -> Members) : Run unit :=
  modify (fun w => with_self (f (self w)) w).
Definition on_radio (f : Radio -> Radio) : Run unit :=
  modify (fun w => with_radio (f (radio w)) w).

(** [strncpy(dst, src, size - 1); dst[size - 1] = 0] on a member buffer of
    [size] cells, read back as a string. *)
Definition bounded (size : nat) (src : string) : string :=
  string_of_list_ascii (take (size - 1) (c_str (chars src))).

(** The constructor.  [ssid_size] and [password_size] are the sizes of the
    two member buffers, which the header declares. *)
Definition ctor (ssid_size password_size : nat)
    (dev : option Device) (apSSID_arg : option string) (apPassword_arg : string)
    (apChannel_arg : Z) : Members :=
  let chosen :=
    match apSSID_arg, dev with
    | Some s, _ => if (0 <? strlen (chars s))%nat then s
                   else match dev with Some d => getDeviceName d | None => "Lovi Device" end
    | None, Some d => getDeviceName d
    | None, None => "Lovi Device"
    end in
  mkMembers dev false false false
            (bounded ssid_size chosen) (bounded password_size apPassword_arg)
            apChannel_arg (IP 192 168 4 1).

(** [delay(ms)]. *)
Definition delay (ms : Z) : Run unit :=
  emit (Delay ms) ;;
  modify (fun w => with_env (mkEnv (millis (env w) + ms) (freeHeap (env w)) (mdns_ok (env w))) w).

(** [WiFi.mode(m)]. *)
Definition WiFi_setMode (m : Z) : Run unit :=
  emit (WiFi_mode m) ;; on_radio (set_mode m).

(** [WiFi.softAPdisconnect(wifioff)]: with [wifioff] the access-point bit
    of the mode is cleared. *)
Definition WiFi_softAPdisconnect_ (wifioff : bool) : Run unit :=
  emit (WiFi_softAPdisconnect wifioff) ;;
  when wifioff (on_radio (fun r => set_mode (Z.land (mode r) WIFI_STA) r)).

(** [ledController.setPattern(p)]. *)
Definition setPattern (p : LEDPattern) : Run unit :=
  emit (LED_setPattern p) ;; modify (with_led p).

(** Modelled from the spec: DNSHandler, the DNS Redirector, is not part of
    the sources.  Section 4.2: it is started and stopped, and both
    transitions are idempotent; while started it answers every query with
    the access point's address. *)
Definition dnsHandler_begin (ip : IPAddress) (port : Z) : Run unit :=
  emit (DNS_begin ip port) ;; modify (with_dns true).
Definition dnsHandler_stop : Run unit :=
  emit DNS_stop ;; modify (with_dns false).
Definition dnsHandler_processRequests : Run unit :=
  emit DNS_process.

(** Modelled from the spec: the Credential Store of this portal
    (configManager) is not part of the sources.  Section 6: [clear()]
    empties the stored pair. *)
Definition configManager_resetConfig : Run unit :=
  emit Config_reset ;; modify (with_store (mkStore [NUL] [NUL])).
Definition configManager_loadConfig : Run bool :=
  emit Config_load ;; w <- get ;; ret (0 <? strlen (ssid (store w)))%nat.

(** Modelled from the spec: WiFiManager, the Connection Manager, is not
    part of the sources.  Section 4.1: [connect()] returns false at once,
    with no connection attempted, when no SSID is stored; from IDLE with
    credentials it starts the asynchronous join and returns true; while
    CONNECTING it is a no-op; while CONNECTED it is rejected. *)
Definition wifiManager_connect : Run bool :=
  w <- get ;;
  if decide (strlen (ssid (store w)) = 0%nat) then ret false
  else
    match conn w with
    | IDLE | FAILED =>
        emit (WiFi_begin (c_str (ssid (store w))) (c_str (password (store w)))) ;;
        modify (with_conn CONNECTING) ;;
        ret true
    | CONNECTING => ret true
    | LINKED => ret false
    end.

(** [hostname.replace(" ", "-"); hostname.toLowerCase()]. *)
Definition lower (c : ascii) : ascii :=
  let n := nat_of_ascii c in
  if (65 <=? n)%nat && (n <=? 90)%nat then ascii_of_nat (n + 32) else c.
Definition hostname_of (name : string) : string :=
  string_of_list_ascii
    (map (fun c => lower (if decide (c = " "%char) then "-"%char else c)) (chars name)).

Definition startAccessPoint : Run unit :=
  WiFi_setMode WIFI_AP_STA ;;
  w <- get ;;
  let me := self w in
  emit (WiFi_softAP (apSSID me) (apPassword me) (apChannel me)) ;;
  emit (WiFi_softAPConfig (apIP me) (apIP me) (IP 255 255 255 0)) ;;
  on_radio (set_softAPIP (apIP me)) ;;
  dnsHandler_begin (apIP me) 53.

Definition enterConfigMode : Run unit :=
  on_self (set_configMode true) ;;
  startAccessPoint ;;
  w <- get ;;
  when (bool_decide (is_Some (device (self w)))) (emit (Dev OnEnterConfigMode)).

Definition onWiFiConnected : Run unit :=
  setPattern CONNECTED ;;
  delay 500 ;;
  w <- get ;;
  when (configMode (self w))
    (on_self (set_configMode false) ;;
     dnsHandler_stop ;;
     WiFi_softAPdisconnect_ true ;;
     WiFi_setMode WIFI_STA) ;;
  match device (self w) with
  | Some d =>
      let hostname := hostname_of (getDeviceName d) in
      let mac := macAddress (radio w) in
      emit (MDNS_begin hostname) ;;
      when (mdns_ok (env w))
        (emit (MDNS_addService "lovi" "tcp" 80) ;;
         emit (MDNS_addServiceTxt "mac" mac) ;;
         emit (MDNS_addServiceTxt "device_type" (getDeviceType d)) ;;
         emit (MDNS_addServiceTxt "model" (getModelName d)) ;;
         emit (MDNS_addServiceTxt "firmware_version" "1.0.0") ;;
         emit (MDNS_addServiceTxt "capabilities" "presence,motion")) ;;
      emit (Dev OnWiFiConnected) ;;
      emit (Dev OnExitConfigMode)
  | None => ret tt
  end.

Definition onWiFiDisconnected : Run unit :=
  w <- get ;;
  when (bool_decide (is_Some (device (self w)))) (emit (Dev OnWiFiDisconnected)).

Definition onEnterAPMode : Run unit :=
  setPattern AP_MODE ;;
  on_self (set_configMode true) ;;
  startAccessPoint ;;
  w <- get ;;
  when (bool_decide (is_Some (device (self w)))) (emit (Dev OnEnterConfigMode)).

(** The routes [setupWebServerRoutes] registers, in its order. *)
Definition portal_routes : list Route :=
  [ ("/generate_204", HTTP_GET, handleGenerate204_);
    ("/generate204", HTTP_GET, handleGenerate204_);
    ("/hotspot-detect.html", HTTP_GET, handleHotspotDetect_);
    ("/ncsi.txt", HTTP_GET, handleNCSI_);
    ("/connecttest.txt", HTTP_GET, handleConnectTest_);
    ("/redirect", HTTP_GET, handleRedirect_);
    ("/favicon.ico", HTTP_GET, handleFavicon_);
    ("/", HTTP_GET, handleRoot_);
    ("/connected", HTTP_GET, handleConnected_);
    ("/presence", HTTP_GET, handlePresence_);
    ("/status", HTTP_GET, handleStatus_);
    ("/data", HTTP_GET, handleData_);
    ("/device", HTTP_GET, handleDevice_);
    ("/scan", HTTP_GET, handleScan_);
    ("/network", HTTP_GET, handleNetwork_);
    ("/settings", HTTP_GET, handleSettings_);
    ("/settings", HTTP_POST, handleSettings_);
    ("/restart", HTTP_POST, handleRestart_);
    ("/reset", HTTP_POST, handleReset_);
    ("/led", HTTP_POST, handleLED_);
    ("/api/connected", HTTP_GET, handleConnected_);
    ("/api/presence", HTTP_GET, handlePresence_);
    ("/api/status", HTTP_GET, handleStatus_);
    ("/api/data", HTTP_GET, handleData_);
    ("/api/device", HTTP_GET, handleDevice_);
    ("/api/scan", HTTP_GET, handleScan_);
    ("/api/network", HTTP_GET, handleNetwork_);
    ("/api/settings", HTTP_GET, handleSettings_);
    ("/api/settings", HTTP_POST, handleSettings_);
    ("/api/restart", HTTP_POST, handleRestart_);
    ("/api/reset", HTTP_POST, handleReset_);
    ("/api/led", HTTP_POST, handleLED_) ].


Definition setupWebServerRoutes : Run unit :=
  modify (fun w =>
    with_server (mkServer (routes (server w) ++ portal_routes) true (serving (server w))) w).

Definition webServer_begin : Run unit :=
  emit HTTP_begin ;;
  modify (fun w =>
    with_server (mkServer (routes (server w)) (notFoundSet (server w)) true) w).

(** [device->registerAPIRoutes(&webServer)]. *)
Definition registerAPIRoutes (d : Device) : Run unit :=
  emit (Dev RegisterAPIRoutes) ;;
  modify (fun w =>
    with_server
      (mkServer (routes (server w) ++ map (fun pm => (pm.1, pm.2, deviceHandler_ pm.1)) (apiRoutes d))
                (notFoundSet (server w)) (serving (server w))) w).

(** [begin()].  [EEPROM.begin], [configManager.begin], [wifiManager.begin]
    and the registration of the three callbacks prepare those objects and
    perform nothing observable; the callbacks are what [run_callback]
    below dispatches to. *)
Definition begin : Run unit :=
  emit LED_begin ;;
  setPattern BOOT ;;
  configManager_loadConfig ;;
  w <- get ;;
  match device (self w) with
  | Some d =>
      emit (Dev SetDeviceID) ;;
      emit (WiFi_setHostname (hostname_of (getDeviceName d)))
  | None => ret tt
  end ;;
  setPattern WIFI_CONNECT ;;
  connectInitiated <- wifiManager_connect ;;
  when (negb connectInitiated) enterConfigMode ;;
  setupWebServerRoutes ;;
  webServer_begin ;;
  w <- get ;;
  match device (self w) with
  | Some d =>
      when (negb (deviceInitialized (self w)))
        (emit (Dev DeviceBegin) ;;
         registerAPIRoutes d ;;
         on_self (set_deviceInitialized true) ;;
         emit (Dev OnExitConfigMode))
  | None => ret tt
  end.

(** ** Request handlers *)

Definition send_json (code : Z) (doc : JsonDocument) : Run unit :=
  emit (HTTP_send code "application/json" (BJson doc)).

Definition handleConnected : Run unit :=
  w <- get ;;
  let r := radio w in
  let up := connected r in
  let doc := json_set "connected" (JBool up) null_document in
  let doc := json_set "ip" (JStr (if up then toString (localIP r) else "0.0.0.0")) doc in
  let doc := json_set "ssid" (JStr (if up then SSID r else EmptyString)) doc in
  let doc := json_set "rssi" (JInt (if up then RSSI r else 0)) doc in
  send_json 200 doc.

Definition handlePresence : Run unit :=
  w <- get ;;
  let doc :=
    match device (self w) with
    | Some d => getPresence d null_document
    | None =>
        json_set "distance" (JFloat 0)
          (json_set "motion" (JBool false) (json_set "presence" (JBool false) null_document))
    end in
  send_json 200 doc.

Definition handleStatus (r : Request) : Run unit :=
  let healthCheck := hasArg "health" r in
  w <- get ;;
  let doc :=
    match device (self w) with
    | Some d => getStatus d null_document healthCheck
    | None =>
        json_set "status" (JStr "healthy")
          (json_set "heap" (JInt (freeHeap (env w)))
             (json_set "uptime" (JInt (millis (env w) / 1000)) null_document))
    end in
  send_json 200 doc.

Definition handleData : Run unit :=
  w <- get ;;
  let doc :=
    match device (self w) with
    | Some d => getSensorData d null_document
    | None => json_set "raw" (JStr "No device") null_document
    end in
  send_json 200 doc.

Definition handleDevice : Run unit :=
  w <- get ;;
  let dv := device (self w) in
  let pick (f : Device -> string) (dflt : string) :=
    match dv with Some d => f d | None => dflt end in
  let doc := json_set "name" (JStr (pick getDeviceName "Unknown")) null_document in
  let doc := json_set "version" (JStr (pick getFirmwareVersion "1.0.0")) doc in
  let doc := json_set "id" (JStr (pick getDeviceID "unknown")) doc in
  let doc := json_set "model" (JStr (pick getModelName "Unknown")) doc in
  let doc := json_set "device_type" (JStr (pick getDeviceType "unknown")) doc in
  let doc := json_set "manufacturer" (JStr "Lovi") doc in
  let doc := json_set "mac_address" (JStr (macAddress (radio w))) doc in
  send_json 200 doc.

Definition handleScan : Run unit :=
  emit WiFi_scan ;;
  w <- get ;;
  let item (n : string * Z * Z) :=
    JObj [("ssid", JStr n.1.1); ("rssi", JInt n.1.2); ("encryption", JInt n.2)] in
  send_json 200
    (json_set "networks" (JArr (map item (networks (radio w)))) null_document).

Definition handleNetwork : Run unit :=
  w <- get ;;
  let r := radio w in
  let modeStr :=
    if mode r =? WIFI_AP_STA then "AP_STA"
    else if mode r =? WIFI_STA then "STA"
    else if mode r =? WIFI_AP then "AP"
    else "OFF" in
  let doc := json_set "ap_ip" (JStr (toString (softAPIP r))) null_document in
  let doc := json_set "sta_ip" (JStr (toString (localIP r))) doc in
  let doc := json_set "mode" (JStr modeStr) doc in
  let doc := json_set "ap_ssid" (JStr (apSSID (self w))) doc in
  let doc := json_set "connected" (JBool (connected r)) doc in
  let doc := json_set "ssid" (JStr (SSID r)) doc in
  let doc := json_set "rssi" (JInt (RSSI r)) doc in
  let doc := json_set "channel" (JInt (channel r)) doc in
  send_json 200 doc.

Section Handlers.

(** ArduinoJson's parser: the error it reports, or the document it fills. *)
Variable deserializeJson : string -> DeserializationError + JsonDocument.

(** The error response both JSON-reading handlers send. *)
Definition send_parse_error (error : DeserializationError) : Run unit :=
  let errDoc := json_set "error" (JStr "Invalid JSON") null_document in
  let errDoc := json_set "message" (JStr (error_c_str error)) errDoc in
  send_json 400 errDoc.

Definition handleSettings (r : Request) : Run unit :=
  w <- get ;;
  if decide (method r = HTTP_GET) then
    let doc :=
      match device (self w) with
      | Some d => getSettings d null_document
      | None => json_set "error" (JStr "No device") null_document
      end in
    send_json 200 doc
  else
    let body := arg "plain" r in
    match deserializeJson body with
    | inl error => send_parse_error error
    | inr doc =>
        let '(updated, doc) :=
          match device (self w) with
          | Some d => updateSettings d doc
          | None => (false, doc)
          end in
        let doc :=
          if updated then
            json_set "message" (JStr "Settings updated") (json_set "success" (JBool true) doc)
          else
            json_set "message" (JStr "No settings updated") (json_set "success" (JBool false) doc) in
        send_json 200 doc
    end.

(** Modelled from the spec: [getLEDController()] is declared in the header,
    which is not part of the sources.  The portal owns its status
    indicator (member [ledController]), so the accessor yields it. *)
Definition getLEDController (w : World) : option unit := Some tt.

Definition handleLED (r : Request) : Run unit :=
  if negb (bool_decide (method r = HTTP_POST)) then
    let doc := json_set "error" (JStr "Use POST method") null_document in
    let doc := json_set "message" (JStr "Send JSON with 'state': true/false") doc in
    send_json 405 doc
  else
    let body := arg "plain" r in
    match deserializeJson body with
    | inl error => send_parse_error error
    | inr doc =>
        if containsKey "state" doc then
          let ledState := as_bool (json_get "state" doc) in
          w <- get ;;
          match getLEDController w with
          | Some _ =>
              emit (LED_setState ledState) ;;
              setPattern (if ledState then ON else OFF) ;;
              let response := json_set "success" (JBool true) null_document in
              let response := json_set "led" (JBool ledState) response in
              let response :=
                json_set "message"
                  (JStr (if ledState then "LED turned on" else "LED turned off")) response in
              send_json 200 response
          | None =>
              send_json 500 (json_set "error" (JStr "No LED controller") doc)
          end
        else
          let doc := json_set "error" (JStr "Missing 'state' parameter") doc in
          let doc := json_set "message" (JStr "Send JSON with 'state': true/false") doc in
          send_json 400 doc
    end.

Definition handleRestart : Run unit :=
  let doc := json_set "message" (JStr "Restarting device...") null_document in
  let doc := json_set "success" (JBool true) doc in
  send_json 200 doc ;;
  delay 1000 ;;
  restart.

Definition handleReset : Run unit :=
  let doc := json_set "message" (JStr "Resetting to factory defaults...") null_document in
  let doc := json_set "success" (JBool true) doc in
  send_json 200 doc ;;
  delay 1000 ;;
  configManager_resetConfig ;;
  restart.

Definition getCaptivePortalUrl (w : World) : string :=
  let ip := if negb (Z.land (mode (radio w)) WIFI_AP =? 0)
            then softAPIP (radio w) else localIP (radio w) in
  "http://" +:+ toString ip +:+ "/".

(** The body shared by [handleGenerate204], [handleHotspotDetect],
    [handleNCSI], [handleConnectTest] and [handleRedirect], which differ in
    their log line only. *)
Definition redirect_to_portal : Run unit :=
  w <- get ;;
  let redirectUrl := getCaptivePortalUrl w in
  emit (HTTP_sendHeader "Location" redirectUrl) ;;
  emit (HTTP_send 302 "text/plain" (BText EmptyString)).

Definition handleGenerate204 : Run unit := redirect_to_portal.
Definition handleHotspotDetect : Run unit := redirect_to_portal.
Definition handleNCSI : Run unit := redirect_to_portal.
Definition handleConnectTest : Run unit := redirect_to_portal.
Definition handleRedirect : Run unit := redirect_to_portal.

Definition handleFavicon : Run unit :=
  emit (HTTP_send 204 "image/x-icon" (BText EmptyString)).

Definition handleRoot : Run unit :=
  emit (HTTP_send 200 "text/html" (BPage "WEB_UI_HTML")).

(** The literal [{"error":"Not found"}]. *)
Definition not_found_json : string :=
  let q := String "034"%char EmptyString in
  "{" +:+ q +:+ "error" +:+ q +:+ ":" +:+ q +:+ "Not found" +:+ q +:+ "}".

Definition handleNotFound (r : Request) : Run unit :=
  let u := uri r in
  if String.prefix "/api/" u || String.prefix "/connected" u
     || String.prefix "/presence" u || String.prefix "/status" u
     || String.prefix "/data" u || String.prefix "/settings" u
     || String.prefix "/restart" u || String.prefix "/reset" u
  then emit (HTTP_send 404 "application/json" (BText not_found_json))
  else emit (HTTP_send 200 "text/html" (BPage "WEB_UI_HTML")).

Definition run_handler (h : Handler) (r : Request) : Run unit :=
  match h with
  | handleGenerate204_ => handleGenerate204
  | handleHotspotDetect_ => handleHotspotDetect
  | handleNCSI_ => handleNCSI
  | handleConnectTest_ => handleConnectTest
  | handleRedirect_ => handleRedirect
  | handleFavicon_ => handleFavicon
  | handleRoot_ => handleRoot
  | handleConnected_ => handleConnected
  | handlePresence_ => handlePresence
  | handleStatus_ => handleStatus r
  | handleData_ => handleData
  | handleDevice_ => handleDevice
  | handleScan_ => handleScan
  | handleNetwork_ => handleNetwork
  | handleSettings_ => handleSettings r
  | handleRestart_ => handleRestart
  | handleReset_ => handleReset
  | handleLED_ => handleLED r
  | deviceHandler_ path => emit (Dev (DeviceRoute path))
  end.

(** ESP8266WebServer's choice of handler: the first registered route whose
    method is the request's (or [HTTP_ANY]) and whose path is the
    request's. *)
Definition route_matches (rt : Route) (r : Request) : bool :=
  (bool_decide (rt.1.2 = HTTP_ANY) || bool_decide (rt.1.2 = method r))
  && bool_decide (rt.1.1 = uri r).

Fixpoint find_route (rts : list Route) (r : Request) : option Handler :=
  match rts with
  | [] => None
  | rt :: rest => if route_matches rt r then Some rt.2 else find_route rest r
  end.

(** Serving one request: the matching route's handler, else the not-found
    handler when one is set, else the server's own 404. *)
Definition serve (r : Request) : Run unit :=
  w <- get ;;
  match find_route (routes (server w)) r with
  | Some h => run_handler h r
  | None =>
      if notFoundSet (server w) then handleNotFound r
      else emit (HTTP_send 404 "text/plain" (BText ("Not found: " +:+ uri r)))
  end.

(** [webServer.handleClient()]; [pending] is the request waiting, if any. *)
Definition handleClient (pending : option Request) : Run unit :=
  w <- get ;;
  match pending with
  | Some r => when (serving (server w)) (serve r)
  | None => ret tt
  end.

(** The callbacks [begin] hands to the Connection Manager. *)
Inductive Callback := Connected | Disconnected | EnterAPMode.

Definition run_callback (c : Callback) : Run unit :=
  match c with
  | Connected => onWiFiConnected
  | Disconnected => onWiFiDisconnected
  | EnterAPMode => onEnterAPMode
  end.

Fixpoint run_callbacks (cs : list Callback) : Run unit :=
  match cs with
  | [] => ret tt
  | c :: rest => run_callback c ;; run_callbacks rest
  end.

(** What one pass of [update()] meets: the request waiting at the server,
    the callbacks [wifiManager.update()] invokes during the pass (in
    order), and the presence the device reports. *)
Record Tick := mkTick {
  pending  : option Request;
  fired    : list Callback;
  presence : bool
}.

Definition update (t : Tick) : Run unit :=
  w <- get ;;
  emit (LED_update (presenceDetected (self w))) ;;
  when (configMode (self w) || negb (Z.land (mode (radio w)) WIFI_AP =? 0))
    dnsHandler_processRequests ;;
  handleClient (pending t) ;;
  run_callbacks (fired t) ;;
  w <- get ;;
  (if configMode (self w) then ret tt
   else
     when (bool_decide (is_Some (device (self w))))
       (emit (Dev DeviceUpdate) ;;
        on_self (set_presenceDetected (presence t))) ;;
     when (connected (radio w)) (emit MDNS_update)) ;;
  emit WdtFeed.

End Handlers.

(** The portal object and its collaborators before [begin()] or
    [enterConfigMode()] runs: the redirector not started, the Connection
    Manager idle, no route registered, the server not begun.  The radio is
    in whatever mode [r] gives. *)
Definition fresh (me : Members) (r : Radio) (st : Store) (e : Env) : World :=
  mkWorld me r false BOOT st IDLE (mkServer [] false false) e.

End Portal.

(* ===================================================================== *)
(** * devices/test_device/main.cpp *)
(* ===================================================================== *)

Module TestDevice.
Import CStr Arduino Portal.
Local Open Scope eff_scope.

(** [setup()]: the local [ConfigManager] is loaded from the Credential
    Store and its SSID decides between the two portal entry points. *)
Definition setup : Run unit :=
  delay 1000 ;;
  emit Config_load ;;
  w <- get ;;
  let ssid := ssid (store w) in
  if decide (strlen ssid = 0%nat) then enterConfigMode
  else begin.

End TestDevice.

(* ===================================================================== *)
(** * The states a running portal passes through *)
(* ===================================================================== *)

Module Lifecycle.
Import Arduino Portal.

(** The redirector runs in configuration mode only. *)
Definition redirector_confined (w : World) : Prop :=
  dnsRunning w = true -> configMode (self w) = true.

(** A run keeps a property [P] of the state and performs only actions
    satisfying [Q]: from a state that has [P], the state the run ends in
    (by returning or by restarting) has it too. *)
Definition keeps {A} (P : World -> Prop) (Q : Event -> Prop)
    (m : Run A) : Prop :=
  forall w, P w ->
    match m w with
    | Done _ w' t | Rebooted w' t => P w' /\ Forall Q t
    | Crash _ t => Forall Q t
    end.

(** An action that neither starts nor stops the redirector. *)
Definition leaves_dns (e : Event) : Prop := is_dns_begin e = false /\ is_dns_stop e = false.



Section Reachable.

Variable deserializeJson : string -> DeserializationError + JsonDocument.

(** The states reached from power-up: through [begin()] (or, on the test
    device, through its [setup()]) on a freshly constructed portal, then
    through any number of [update()] passes, each meeting any request and
    any callbacks; between passes the radio's readings (all but its mode)
    and the clock may change on their own. *)
Inductive reachable : World -> Prop :=
| reach_begin (ssid_size password_size : nat) (dev : option Device)
    (ap_ssid : option string) (ap_password : string) (ap_channel : Z)
    (r : Radio) (st : Store) (e : Env) (w : World) (tr : list Event) :
    begin (fresh (ctor ssid_size password_size dev ap_ssid ap_password ap_channel) r st e)
    = Done tt w tr ->
    reachable w
| reach_setup (ssid_size password_size : nat) (dev : option Device)
    (ap_ssid : option string) (ap_password : string) (ap_channel : Z)
    (r : Radio) (st : Store) (e : Env) (w : World) (tr : list Event) :
    TestDevice.setup
      (fresh (ctor ssid_size password_size dev ap_ssid ap_password ap_channel) r st e)
    = Done tt w tr ->
    reachable w
| reach_update (w : World) (t : Tick) (w' : World) (tr : list Event) :
    reachable w ->
    update deserializeJson t w = Done tt w' tr ->
    reachable w'
| reach_readings (w : World) (r : Radio) (e : Env) :
    reachable w ->
    mode r = mode (radio w) ->
    reachable (with_env e (with_radio r w)).

End Reachable.

End Lifecycle.

(* ===================================================================== *)
(** * Concrete data for examples *)
(* ===================================================================== *)

Module Sample.
Import CStr Arduino.

(** A manager object built in memory that held other data before. *)
Definition cm_garbage : ConfigManager.t :=
  ConfigManager.mk (replicate 32 "U"%char) (replicate 64 "U"%char).

(** An EEPROM whose credential area is zeroed (no SSID stored), and one
    as it leaves the factory (every cell 255). *)
Definition eeprom_zeroed : EEPROM.t :=
  EEPROM.mk (replicate 512 NUL) (replicate 512 NUL).
Definition eeprom_factory : EEPROM.t :=
  EEPROM.mk (replicate 512 "255"%char) (replicate 512 "255"%char).

(** A radio that never reports a link. *)
Definition never_up : Z -> bool := fun _ => false.

(** The presence_gen_one image at power-up, and its portal once it is in
    configuration mode. *)
Definition legacy_boot : Legacy.World :=
  PresenceGenOne.boot eeprom_zeroed never_up cm_garbage.
Definition legacy_config : Legacy.World :=
  match Legacy.enterConfigMode legacy_boot with
  | Done _ w _ => w
  | _ => legacy_boot
  end.
(** The same image with the portal begun (credentials present). *)
Definition legacy_begun : Legacy.World :=
  match Legacy.begin (PresenceGenOne.boot eeprom_factory never_up cm_garbage) with
  | Done _ w _ => w
  | _ => legacy_boot
  end.

(** The body [{"state": true}]. *)
Definition state_true_body : string :=
  let q := String "034"%char EmptyString in
  "{" +:+ q +:+ "state" +:+ q +:+ ": true}".

(** A parser that knows four bodies: the empty input, the empty object,
    [{"state": true}] and the array [[1,2]]; it reports everything else as
    invalid. *)
Definition parser (s : string) : DeserializationError + JsonDocument :=
  if decide (s = EmptyString) then inl EmptyInput
  else if decide (s = "{}") then inr (JObj [])
  else if decide (s = state_true_body) then inr (JObj [("state", JBool true)])
  else if decide (s = "[1,2]") then inr (JArr [JInt 1; JInt 2])
  else inl InvalidInput.

Definition radio : Portal.Radio :=
  Portal.mkRadio WIFI_STA false (IP 10 0 0 7) (IP 192 168 4 1)
                 "HomeNet" (-60) 6 "AA:BB:CC:DD:EE:FF" [].
Definition env : Portal.Env := Portal.mkEnv 0 40000 true.

Definition no_credentials : Portal.Store := Portal.mkStore [NUL] [NUL].
Definition credentials : Portal.Store :=
  Portal.mkStore (chars "HomeNet" ++ [NUL]) (chars "correct horse" ++ [NUL]).

Definition adapter : Portal.Device :=
  Portal.mkDevice "Lovi Test" "test_device" "T1" "1.0.0" "lovi-0001"
    (fun d => d) (fun d _ => d) (fun d => d) (fun d => d) (fun d => (false, d)) [].

(** A portal without and with a Device Adapter, before [begin()]. *)
Definition bare : Portal.Members := Portal.ctor 32 64 None None "lovi-setup" 1.
Definition equipped : Portal.Members := Portal.ctor 32 64 (Some adapter) None "lovi-setup" 1.

(** After [begin()] with no stored credentials: configuration mode. *)
Definition config_world (me : Portal.Members) : Portal.World :=
  match Portal.begin (Portal.fresh me radio no_credentials env) with
  | Done _ w _ => w
  | _ => Portal.fresh me radio no_credentials env
  end.
(** After [begin()] with stored credentials: normal mode, join pending. *)
Definition normal_world (me : Portal.Members) : Portal.World :=
  match Portal.begin (Portal.fresh me radio credentials env) with
  | Done _ w _ => w
  | _ => Portal.fresh me radio credentials env
  end.

End Sample.

(* ===================================================================== *)
(** * lib/captiveportal/LEDController, with the pin it drives *)
(* ===================================================================== *)

Module Led.

(** What the controller does to its pin, in order. *)
Inductive PinOp :=
| PinModeOutput                 (* pinMode(_pin, OUTPUT) *)
| DigitalWrite (high : bool)    (* digitalWrite(_pin, HIGH or LOW) *)
| AnalogWrite (duty : Z).       (* analogWrite(_pin, brightness) *)

(** The controller's members and the writes it has made to its pin, the
    latest first. *)
Record t := mk {
  _pin   : Z;
  _isOn  : bool;
  writes : list PinOp
}.

Definition ctor (pin : Z) : t := mk pin false [].

Definition on (l : t) : t := mk (_pin l) true (DigitalWrite false :: writes l).
Definition off (l : t) : t := mk (_pin l) false (DigitalWrite true :: writes l).

Definition begin (l : t) : t :=
  off (mk (_pin l) (_isOn l) (PinModeOutput :: writes l)).

Definition toggle (l : t) : t := if _isOn l then off l else on l.

Definition setBrightness (brightness : Z) (l : t) : t :=
  mk (_pin l) (_isOn l) (AnalogWrite brightness :: writes l).

Definition isOn (l : t) : bool := _isOn l.

(** The calls a user of the controller can make after [begin()]. *)
Inductive Call := On | Off | Toggle | SetBrightness (brightness : Z).

Definition call (c : Call) (l : t) : t :=
  match c with
  | On => on l
  | Off => off l
  | Toggle => toggle l
  | SetBrightness b => setBrightness b l
  end.

(** A sequence of calls, the first of the list first. *)
Definition calls (cs : list Call) (l : t) : t := foldl (fun acc c => call c acc) l cs.

(** The level last written to the pin with [digitalWrite], if any. *)
Fixpoint last_level (ws : list PinOp) : option bool :=
  match ws with
  | [] => None
  | DigitalWrite h :: _ => Some h
  | _ :: rest => last_level rest
  end.

Definition is_brightness (c : Call) : bool :=
  match c with SetBrightness _ => true | _ => false end.

End Led.

(* ===================================================================== *)
(** * lib/lovi-core: types, MDNSAdvertiser, APIServer, Device *)
(* ===================================================================== *)

Module LoviCore.
Import CStr Arduino.
Local Open Scope eff_scope.

(** types.h.  A [float] member is held in thousandths. *)
Inductive DeviceType := PRESENCE_GEN_ONE | TEST_DEVICE | UNKNOWN.

Record Capabilities := mkCaps {
  hasPresence    : bool;
  hasMotion      : bool;
  hasTemperature : bool;
  hasHumidity    : bool;
  hasSensitivity : bool;
  maxDistance    : Z
}.

Record SensorData := mkData {
  presence    : bool;
  motion      : bool;
  distance    : Z;
  sensitivity : Z;
  temperature : Z;
  humidity    : Z;
  uptime      : Z
}.

(** The member initialisers of [SensorData]. *)
Definition SensorData_default : SensorData := mkData false false 0 50 0 0 0.

(** A MAC address: the six bytes [WiFi.macAddress(mac)] fills in. *)
Record MAC := mkMAC { m0 : ascii; m1 : ascii; m2 : ascii; m3 : ascii; m4 : ascii; m5 : ascii }.

(** One hexadecimal digit, upper case, and [%02X] of a byte. *)
Definition hex_digit (n : N) : ascii :=
  if (n <? 10)%N then ascii_of_N (48 + n) else ascii_of_N (55 + n).
Definition hex2 (b : ascii) : list ascii :=
  let n := N_of_ascii b in [hex_digit (n / 16)%N; hex_digit (n mod 16)%N].

(** Reading two hexadecimal digits back as a byte. *)
Definition unhex_digit (c : ascii) : N :=
  let n := N_of_ascii c in if (n <? 58)%N then (n - 48)%N else (n - 55)%N.
Definition unhex2 (hi lo : ascii) : ascii :=
  ascii_of_N (16 * unhex_digit hi + unhex_digit lo).

(** [snprintf(buffer, size, ...)] keeps at most [size - 1] characters. *)
Definition snprintf (size : nat) (text : list ascii) : list ascii := take (size - 1) text.

(** [MDNSAdvertiser::_getMACAddress()]: ["%02X:%02X:%02X:%02X:%02X:%02X"]
    into a buffer of 18. *)
Definition mdns_getMACAddress (a : MAC) : list ascii :=
  snprintf 18
    (hex2 (m0 a) ++ ":"%char :: hex2 (m1 a) ++ ":"%char :: hex2 (m2 a) ++ ":"%char ::
     hex2 (m3 a) ++ ":"%char :: hex2 (m4 a) ++ ":"%char :: hex2 (m5 a)).

(** [APIServer::_getMACAddress()]: ["%02X%02X%02X%02X%02X%02X"] into a
    buffer of 18. *)
Definition api_getMACAddress (a : MAC) : list ascii :=
  snprintf 18
    (hex2 (m0 a) ++ hex2 (m1 a) ++ hex2 (m2 a) ++ hex2 (m3 a) ++ hex2 (m4 a) ++ hex2 (m5 a)).

(** [MDNSAdvertiser]. *)
Record MDNSAdvertiser := mkAdv { adv_started : bool }.

(** [APIServer]: [_server] is [true] while the pointer is not null. *)
Record APIServer := mkApi { _port : Z; _server : bool }.

(** [Device]; a pointer member is [None] while null. *)
Record Device := mkDevice {
  _name             : string;
  _firmwareVersion  : string;
  _type             : DeviceType;
  _capabilities     : Capabilities;
  _sensorData       : SensorData;
  _mdns             : option MDNSAdvertiser;
  _apiServer        : option APIServer;
  _mdnsStarted      : bool;
  _apiServerStarted : bool
}.

(** The device object and what it reads from the platform: the MAC
    address, whether [MDNS.begin] succeeds, and [millis()]. *)
Record World := mkWorld {
  dev     : Device;
  mac     : MAC;
  mdns_ok : bool;
  millis  : Z
}.

Definition Run := M World.

Definition set_mdns (a : option MDNSAdvertiser) (started : bool) (d : Device) : Device :=
  mkDevice (_name d) (_firmwareVersion d) (_type d) (_capabilities d) (_sensorData d)
           a (_apiServer d) started (_apiServerStarted d).
Definition set_apiServer (a : option APIServer) (started : bool) (d : Device) : Device :=
  mkDevice (_name d) (_firmwareVersion d) (_type d) (_capabilities d) (_sensorData d)
           (_mdns d) a (_mdnsStarted d) started.
Definition set_sensorData (s : SensorData) (d : Device) : Device :=
  mkDevice (_name d) (_firmwareVersion d) (_type d) (_capabilities d) s
           (_mdns d) (_apiServer d) (_mdnsStarted d) (_apiServerStarted d).
Definition set_capabilities (c : Capabilities) (d : Device) : Device :=
  mkDevice (_name d) (_firmwareVersion d) (_type d) c (_sensorData d)
           (_mdns d) (_apiServer d) (_mdnsStarted d) (_apiServerStarted d).

Definition on_dev (f : Device -> Device) : Run unit :=
  modify (fun w => mkWorld (f (dev w)) (mac w) (mdns_ok w) (millis w)).

(** [Device::Device(name, type, firmwareVersion)]. *)
Definition Device_ctor (name : string) (type : DeviceType) (firmwareVersion : string) : Device :=
  mkDevice name firmwareVersion type (mkCaps false false false false false 0)
           SensorData_default None None false false.

Definition getTypeString (d : Device) : string :=
  match _type d with
  | PRESENCE_GEN_ONE => "presence_gen_one"
  | TEST_DEVICE => "test_device"
  | UNKNOWN => "unknown"
  end.

(** [MDNSAdvertiser::_setDeviceProperties(firmwareVersion)]. *)
Definition _setDeviceProperties (firmwareVersion : string) : Run unit :=
  w <- get ;;
  let mac := string_of_list_ascii (mdns_getMACAddress (mac w)) in
  emit (MDNS_addServiceTxt "mac" mac) ;;
  emit (MDNS_addServiceTxt "model" "Lovi Device") ;;
  emit (MDNS_addServiceTxt "device_type" "presence_gen_one") ;;
  emit (MDNS_addServiceTxt "firmware_version" firmwareVersion).

(** [MDNSAdvertiser::begin(deviceName, firmwareVersion, port)]; returns the
    advertiser as it is left. *)
Definition MDNSAdvertiser_begin (deviceName firmwareVersion : string) (port : Z)
    (a : MDNSAdvertiser) : Run MDNSAdvertiser :=
  if adv_started a then ret a
  else
    emit (MDNS_begin deviceName) ;;
    w <- get ;;
    if mdns_ok w then
      emit (MDNS_addService "lovi" "tcp" port) ;;
      _setDeviceProperties firmwareVersion ;;
      ret (mkAdv true)
    else ret a.

Definition MDNSAdvertiser_update (a : MDNSAdvertiser) : Run unit :=
  when (adv_started a) (emit MDNS_update).

Definition MDNSAdvertiser_stop (a : MDNSAdvertiser) : MDNSAdvertiser := mkAdv false.

(** [APIServer::_handleDeviceInfo()]. *)
Definition _handleDeviceInfo : Run unit :=
  w <- get ;;
  let d := dev w in
  let caps := _capabilities d in
  let capabilities :=
    [("has_presence", JBool (hasPresence caps));
     ("has_motion", JBool (hasMotion caps));
     ("has_temperature", JBool (hasTemperature caps));
     ("has_humidity", JBool (hasHumidity caps));
     ("has_sensitivity", JBool (hasSensitivity caps));
     ("max_distance", JFloat (maxDistance caps))] in
  let doc := json_set "id" (JStr (string_of_list_ascii (api_getMACAddress (mac w)))) null_document in
  let doc := json_set "name" (JStr (_name d)) doc in
  let doc := json_set "type" (JStr (getTypeString d)) doc in
  let doc := json_set "firmware_version" (JStr (_firmwareVersion d)) doc in
  let doc := json_set "capabilities" (JObj capabilities) doc in
  emit (HTTP_send 200 "application/json" (BJson doc)).

(** [APIServer::_handleData()]. *)
Definition _handleData : Run unit :=
  w <- get ;;
  let data := _sensorData (dev w) in
  let doc := json_set "presence" (JBool (presence data)) null_document in
  let doc := json_set "motion" (JBool (motion data)) doc in
  let doc := json_set "distance" (JFloat (distance data)) doc in
  let doc := json_set "sensitivity" (JInt (sensitivity data)) doc in
  let doc := json_set "temperature" (JFloat (temperature data)) doc in
  let doc := json_set "humidity" (JFloat (humidity data)) doc in
  let doc := json_set "uptime" (JInt (uptime data)) doc in
  emit (HTTP_send 200 "application/json" (BJson doc)).

(** The literal [{"error":"Not found"}]. *)
Definition not_found_json : string :=
  let q := String "034"%char EmptyString in
  "{" +:+ q +:+ "error" +:+ q +:+ ":" +:+ q +:+ "Not found" +:+ q +:+ "}".

Definition _handleNotFound : Run unit :=
  emit (HTTP_send 404 "application/json" (BText not_found_json)).

(** [APIServer::begin()]. *)
Definition APIServer_begin (a : APIServer) : Run APIServer :=
  if _server a then ret a
  else emit HTTP_begin ;; ret (mkApi (_port a) true).

(** [APIServer::update()]: [_server->handleClient()] with the routes of
    [begin()], registered for every method; [pending] is the request
    waiting, if any. *)
Definition APIServer_update (pending : option Request) (a : APIServer) : Run unit :=
  when (_server a)
    (match pending with
     | None => ret tt
     | Some r =>
         if decide (uri r = "/api/device") then _handleDeviceInfo
         else if decide (uri r = "/api/data") then _handleData
         else _handleNotFound
     end).

Definition APIServer_stop (a : APIServer) : APIServer := mkApi (_port a) false.

(** [Device::update()]. *)
Definition Device_update (pending : option Request) : Run unit :=
  w <- get ;;
  match _mdns (dev w) with
  | Some a => when (_mdnsStarted (dev w)) (MDNSAdvertiser_update a)
  | None => ret tt
  end ;;
  match _apiServer (dev w) with
  | Some a => when (_apiServerStarted (dev w)) (APIServer_update pending a)
  | None => ret tt
  end.

Definition startMDNS (port : Z) : Run unit :=
  w <- get ;;
  when (negb (_mdnsStarted (dev w)))
    (a <- MDNSAdvertiser_begin (_name (dev w)) (_firmwareVersion (dev w)) port (mkAdv false) ;;
     on_dev (set_mdns (Some a) true)).

Definition updateMDNS : Run unit :=
  w <- get ;;
  match _mdns (dev w) with
  | Some a => MDNSAdvertiser_update a
  | None => ret tt
  end.

Definition stopMDNS : Run unit := on_dev (set_mdns None false).

Definition startAPIServer (port : Z) : Run unit :=
  w <- get ;;
  when (negb (_apiServerStarted (dev w)))
    (a <- APIServer_begin (mkApi port false) ;;
     on_dev (set_apiServer (Some a) true)).

Definition updateAPIServer (pending : option Request) : Run unit :=
  w <- get ;;
  match _apiServer (dev w) with
  | Some a => APIServer_update pending a
  | None => ret tt
  end.

Definition stopAPIServer : Run unit := on_dev (set_apiServer None false).

(** devices/presence_gen_one/main.cpp: the constructor of
    [PresenceGenOneDevice] and its [update()]. *)
Definition PresenceGenOneDevice_ctor (firmwareVersion : string) : Device :=
  set_capabilities (mkCaps true true true true true 5000)
    (Device_ctor "Lovi-Presence" PRESENCE_GEN_ONE firmwareVersion).

Definition PresenceGenOneDevice_update (pending : option Request) : Run unit :=
  Device_update pending ;;
  w <- get ;;
  on_dev (set_sensorData (mkData false false 0 50 22500 45000 (millis w / 1000))).

(** The calls made on a device from outside, for sequences of them. *)
Inductive Call :=
| StartMDNS (port : Z) | UpdateMDNS | StopMDNS
| StartAPIServer (port : Z) | UpdateAPIServer (pending : option Request) | StopAPIServer
| Update (pending : option Request).

Definition call (c : Call) : Run unit :=
  match c with
  | StartMDNS p => startMDNS p
  | UpdateMDNS => updateMDNS
  | StopMDNS => stopMDNS
  | StartAPIServer p => startAPIServer p
  | UpdateAPIServer r => updateAPIServer r
  | StopAPIServer => stopAPIServer
  | Update r => Device_update r
  end.

Fixpoint calls (cs : list Call) : Run unit :=
  match cs with
  | [] => ret tt
  | c :: rest => call c ;; calls rest
  end.

(** The started flags never outlive their objects. *)
Definition consistent (d : Device) : Prop :=
  (_mdnsStarted d = true -> is_Some (_mdns d))
  /\ (_apiServerStarted d = true ->
      exists a, _apiServer d = Some a /\ _server a = true).

Definition is_mdns_begin (e : Event) : bool :=
  match e with MDNS_begin _ => true | _ => false end.
Definition is_mdns_update (e : Event) : bool :=
  match e with MDNS_update => true | _ => false end.

End LoviCore.


(* ===================================================================== *)
(** * The route table of lovi-captive-portal, by kind of handler *)
(* ===================================================================== *)

Module Routing.
Import Arduino Portal.

(** The control-plane names [setupWebServerRoutes] registers twice: bare
    ("clean paths") and under [/api] ("for compatibility"). *)
Definition api_names : list string :=
  [ "/connected"; "/presence"; "/status"; "/data"; "/device"; "/scan";
    "/network"; "/settings"; "/restart"; "/reset"; "/led" ].

(** Those of them [handleNotFound] does not list among its API prefixes. *)
Definition unlisted_names : list string := [ "/device"; "/scan"; "/network"; "/led" ].

(** The portal's own handlers, as opposed to those a Device Adapter
    registers in [registerAPIRoutes]. *)
Definition own (h : Handler) : bool :=
  match h with deviceHandler_ _ => false | _ => true end.


(** The two answers of [handleNotFound]. *)
Definition not_found_answer : Event :=
  HTTP_send 404 "application/json" (BText not_found_json).
Definition page_answer : Event :=
  HTTP_send 200 "text/html" (BPage "WEB_UI_HTML").

End Routing.

(* ===================================================================== *)
(** * The watchdog in a pass of update() *)
(* ===================================================================== *)

Module Pass.
Import Arduino Portal.

(** [ESP.wdtFeed()] among the actions of a trace. *)
Definition is_wdt_feed (e : Event) : bool :=
  match e with WdtFeed => true | _ => false end.

(** A run that returns, or ends in the restart, without feeding the
    watchdog. *)
Definition quiet {A} (o : Outcome World A) : Prop :=
  match o with
  | Done _ _ tr => count is_wdt_feed tr = 0%nat
  | Rebooted _ tr => count is_wdt_feed tr = 0%nat /\ last tr = Some Restart
  | Crash _ _ => False
  end.

(** A run that returns having fed the watchdog once, as its last action,
    or ends in the restart without having fed it. *)
Definition fed {A} (o : Outcome World A) : Prop :=
  match o with
  | Done _ _ tr => last tr = Some WdtFeed /\ count is_wdt_feed tr = 1%nat
  | Rebooted _ tr => last tr = Some Restart /\ count is_wdt_feed tr = 0%nat
  | Crash _ _ => False
  end.

End Pass.
(* ===================================================================== *)
(** * Properties *)
(* ===================================================================== *)

Import CStr.

Lemma c_str_no_nul mem : NUL ∉ c_str mem.
Proof.
  induction mem as [|c rest IH]; simpl.
  - apply not_elem_of_nil.
  - destruct (decide (c = NUL)) as [->|Hc].
    + apply not_elem_of_nil.
    + rewrite not_elem_of_cons. split; [congruence | exact IH].
Qed.

Lemma c_str_terminated (s rest : list ascii) :
  NUL ∉ s -> c_str (s ++ NUL :: rest) = s.
Proof.
  induction s as [|c s IH]; simpl; intros Hs.
  - destruct (decide (NUL = NUL)); congruence.
  - apply not_elem_of_cons in Hs as [Hc Hs].
    destruct (decide (c = NUL)); [congruence|]. by rewrite IH.
Qed.

Lemma c_str_idemp mem : c_str (c_str mem) = c_str mem.
Proof.
  induction mem as [|c rest IH]; simpl; [done|].
  destruct (decide (c = NUL)) as [|Hc]; simpl; [done|].
  destruct (decide (c = NUL)); [done|]. by rewrite IH.
Qed.

Lemma take_no_nul n (s : list ascii) : NUL ∉ s -> NUL ∉ take n s.
Proof. intros Hs Hin. apply Hs. by apply (subseteq_take n s). Qed.

Lemma strlen_zero_iff c rest : strlen (c :: rest) = 0%nat <-> c = NUL.
Proof.
  unfold strlen. simpl. destruct (decide (c = NUL)); simpl; split; intros; try done; lia.
Qed.

Lemma length_strncpy dst src n :
  (n <= length dst)%nat -> length (strncpy dst src n) = length dst.
Proof.
  intros Hn. unfold strncpy.
  rewrite !length_app, length_replicate, length_drop, length_take. lia.
Qed.



Lemma for_upto_S {S : Type} n (body : nat -> S -> S) s :
  ConfigManager.for_upto (Datatypes.S n) body s = body n (ConfigManager.for_upto n body s).
Proof. unfold ConfigManager.for_upto. rewrite seq_S, foldl_app. reflexivity. Qed.

Lemma load_block n off e (buf : list ascii) :
  (n <= length buf)%nat ->
  ConfigManager.for_upto n (fun i b => <[i := EEPROM.read (off + i) e]> b) buf
  = map (fun i => EEPROM.read (off + i) e) (seq 0 n) ++ drop n buf.
Proof.
  induction n as [|n IH]; intros Hn.
  - reflexivity.
  - rewrite for_upto_S, IH by lia.
    rewrite seq_S, map_app. simpl.
    rewrite insert_app_r_alt by (rewrite length_map, length_seq; lia).
    rewrite length_map, length_seq, Nat.sub_diag.
    destruct (lookup_lt_is_Some_2 buf n ltac:(lia)) as [x Hx].
    rewrite (drop_S _ _ _ Hx). simpl. rewrite <- app_assoc. reflexivity.
Qed.

Lemma save_block n off (src : list ascii) e :
  (off + n <= length (EEPROM.data e))%nat -> (n <= length src)%nat ->
  let e' := ConfigManager.for_upto n
              (fun i e => EEPROM.write (off + i) (default NUL (src !! i)) e) e in
  EEPROM.data e' = take off (EEPROM.data e) ++ take n src ++ drop (off + n) (EEPROM.data e)
  /\ EEPROM.flash e' = EEPROM.flash e.
Proof.
  induction n as [|n IH]; intros Hd Hs; simpl.
  - unfold ConfigManager.for_upto. simpl. rewrite Nat.add_0_r, take_drop. done.
  - rewrite for_upto_S. destruct IH as [IHd IHf]; [lia|lia|].
    split; [|exact IHf].
    unfold EEPROM.write at 1. simpl. rewrite IHd.
    rewrite insert_app_r_alt by (rewrite length_take; lia).
    rewrite length_take, Nat.min_l by lia.
    replace (off + n - off)%nat with n by lia.
    rewrite insert_app_r_alt by (rewrite length_take; lia).
    rewrite length_take, Nat.min_l by lia. rewrite Nat.sub_diag.
    destruct (lookup_lt_is_Some_2 src n ltac:(lia)) as [c Hc].
    rewrite Hc. simpl. rewrite (take_S_r _ _ _ Hc), <- app_assoc. simpl.
    do 2 f_equal.
    destruct (lookup_lt_is_Some_2 (EEPROM.data e) (off + n) ltac:(lia)) as [x Hx].
    rewrite (drop_S _ _ _ Hx). simpl. f_equal. f_equal. lia.
Qed.

Lemma read_block (a b c : list ascii) e :
  EEPROM.data e = a ++ b ++ c ->
  map (fun i => EEPROM.read (length a + i) e) (seq 0 (length b)) = b.
Proof.
  intros He. apply list_eq. intros i.
  rewrite list_lookup_fmap.
  destruct (decide (i < length b)%nat) as [Hi|Hi].
  - rewrite lookup_seq_lt by lia. simpl. unfold EEPROM.read. rewrite He.
    rewrite lookup_app_r by lia. replace (length a + i - length a)%nat with i by lia.
    rewrite lookup_app_l by lia.
    destruct (lookup_lt_is_Some_2 b i Hi) as [x Hx]. rewrite Hx. reflexivity.
  - rewrite lookup_seq_ge by lia. simpl. symmetry. apply lookup_ge_None. lia.
Qed.

(** The image of a string in a buffer of [size] cells after
    [strncpy(buf, s, size - 1); buf[size - 1] = 0]. *)
Lemma store_string (size : nat) (buf s : list ascii) :
  length buf = size -> (0 < size)%nat ->
  <[(size - 1)%nat := NUL]> (strncpy buf s (size - 1))
  = take (size - 1) (c_str s)
    ++ replicate (size - length (take (size - 1) (c_str s))) NUL.
Proof.
  intros Hb Hs. unfold strncpy.
  set (t := take (size - 1) (c_str s)).
  assert (Ht : (length t <= size - 1)%nat) by (subst t; rewrite length_take; lia).
  destruct (lookup_lt_is_Some_2 buf (size - 1) ltac:(lia)) as [x Hx].
  rewrite (drop_S _ _ _ Hx), drop_ge by lia.
  rewrite insert_app_r_alt by lia.
  rewrite insert_app_r_alt by (rewrite length_replicate; lia).
  rewrite length_replicate.
  replace (size - 1 - length t - (size - 1 - length t))%nat with 0%nat by lia.
  simpl. f_equal.
  replace (size - length t)%nat with ((size - 1 - length t) + 1)%nat by lia.
  rewrite replicate_add. reflexivity.
Qed.

Lemma c_str_stored (size : nat) (s : list ascii) :
  (0 < size)%nat ->
  c_str (take (size - 1) (c_str s)
         ++ replicate (size - length (take (size - 1) (c_str s))) NUL)
  = take (size - 1) (c_str s).
Proof.
  intros Hs.
  set (t := take (size - 1) (c_str s)).
  assert (Ht : (length t <= size - 1)%nat) by (subst t; rewrite length_take; lia).
  replace (size - length t)%nat with (Datatypes.S (size - 1 - length t)) by lia.
  simpl. apply c_str_terminated. subst t. apply take_no_nul, c_str_no_nul.
Qed.

Lemma length_stored (size : nat) (s : list ascii) :
  (0 < size)%nat ->
  length (take (size - 1) (c_str s)
          ++ replicate (size - length (take (size - 1) (c_str s))) NUL) = size.
Proof.
  intros Hs. rewrite length_app, length_replicate.
  assert ((length (take (size - 1) (c_str s)) <= size - 1)%nat) by (rewrite length_take; lia).
  lia.
Qed.

(** What [_saveToEEPROM] leaves in the shadow and in flash. *)
Lemma save_two_blocks (ns np : nat) (s p : list ascii) e :
  length s = ns -> length p = np -> (ns + np <= length (EEPROM.data e))%nat ->
  let e1 := ConfigManager.for_upto ns
              (fun i e => EEPROM.write i (default NUL (s !! i)) e) e in
  let e2 := ConfigManager.for_upto np
              (fun i e => EEPROM.write (ns + i) (default NUL (p !! i)) e) e1 in
  EEPROM.data e2 = s ++ p ++ drop (ns + np) (EEPROM.data e).
Proof.
  intros Ls Lp He e1 e2.
  assert (H1 : EEPROM.data e1
               = take 0 (EEPROM.data e) ++ take ns s ++ drop (0 + ns) (EEPROM.data e)).
  { apply (save_block ns 0 s e); lia. }
  assert (H2 : EEPROM.data e2
               = take ns (EEPROM.data e1) ++ take np p ++ drop (ns + np) (EEPROM.data e1)).
  { apply (save_block np ns p e1); [|lia].
    rewrite H1, take_0, length_app, length_app, length_take, length_drop. simpl. lia. }
  rewrite H2, H1, take_0, !app_nil_l, Nat.add_0_l.
  rewrite (take_ge s) by lia. rewrite (take_ge p) by lia.
  rewrite take_app_length' by lia.
  f_equal. f_equal.
  rewrite drop_app_ge by lia. rewrite drop_drop. f_equal. lia.
Qed.

Lemma saveToEEPROM_data cm e :
  ConfigManager.sized cm ->
  (ConfigManager.SSID_SIZE + ConfigManager.PASSWORD_SIZE <= length (EEPROM.data e))%nat ->
  EEPROM.data (ConfigManager._saveToEEPROM cm e)
  = ConfigManager._ssid cm ++ ConfigManager._password cm
    ++ drop (ConfigManager.SSID_SIZE + ConfigManager.PASSWORD_SIZE) (EEPROM.data e)
  /\ EEPROM.flash (ConfigManager._saveToEEPROM cm e)
     = EEPROM.data (ConfigManager._saveToEEPROM cm e).
Proof.
  intros [Hs Hp] He. split; [|reflexivity].
  exact (save_two_blocks _ _ _ _ e Hs Hp He).
Qed.

Lemma load_two_blocks (ns np : nat) (s p rest bs bp : list ascii) e :
  length s = ns -> length p = np -> length bs = ns -> length bp = np ->
  EEPROM.data e = s ++ p ++ rest ->
  ConfigManager.for_upto ns (fun i buf => <[i := EEPROM.read i e]> buf) bs = s
  /\ ConfigManager.for_upto np (fun i buf => <[i := EEPROM.read (ns + i) e]> buf) bp = p.
Proof.
  intros Ls Lp Lbs Lbp He. split.
  - transitivity (map (fun i => EEPROM.read (0 + i) e) (seq 0 ns) ++ drop ns bs).
    { apply (load_block ns 0 e bs). lia. }
    rewrite drop_ge, app_nil_r by lia.
    rewrite <- Ls. apply (read_block [] s (p ++ rest)). exact He.
  - rewrite (load_block np ns) by lia. rewrite drop_ge, app_nil_r by lia.
    rewrite <- Lp, <- Ls. apply (read_block s p rest). exact He.
Qed.

Lemma loadFromEEPROM_of (s p rest : list ascii) cm e :
  ConfigManager.sized cm ->
  length s = ConfigManager.SSID_SIZE -> length p = ConfigManager.PASSWORD_SIZE ->
  EEPROM.data e = s ++ p ++ rest ->
  ConfigManager._loadFromEEPROM e cm = ConfigManager.mk s p.
Proof.
  intros [Hs Hp] Ls Lp He. unfold ConfigManager._loadFromEEPROM.
  destruct (load_two_blocks _ _ s p rest _ _ e Ls Lp Hs Hp He) as [H1 H2].
  cbv zeta. rewrite H1, H2. reflexivity.
Qed.

Lemma setSSID_buffer ssid cm :
  ConfigManager.sized cm ->
  ConfigManager._ssid (ConfigManager.setSSID ssid cm)
  = take 31 (c_str ssid) ++ replicate (32 - length (take 31 (c_str ssid))) NUL
  /\ ConfigManager._password (ConfigManager.setSSID ssid cm) = ConfigManager._password cm.
Proof.
  intros [Hs _]. split; [|reflexivity].
  exact (store_string 32 _ ssid Hs ltac:(lia)).
Qed.

Lemma setPassword_buffer password cm :
  ConfigManager.sized cm ->
  ConfigManager._password (ConfigManager.setPassword password cm)
  = take 63 (c_str password) ++ replicate (64 - length (take 63 (c_str password))) NUL
  /\ ConfigManager._ssid (ConfigManager.setPassword password cm) = ConfigManager._ssid cm.
Proof.
  intros [_ Hp]. split; [|reflexivity].
  exact (store_string 64 _ password Hp ltac:(lia)).
Qed.

Lemma setSSID_sized ssid cm : ConfigManager.sized cm -> ConfigManager.sized (ConfigManager.setSSID ssid cm).
Proof.
  intros H. destruct (setSSID_buffer ssid cm H) as [Hb Hp]. destruct H as [Hs Hq].
  split; [rewrite Hb; exact (length_stored 32 ssid ltac:(lia)) | rewrite Hp; exact Hq].
Qed.

Lemma setPassword_sized password cm :
  ConfigManager.sized cm -> ConfigManager.sized (ConfigManager.setPassword password cm).
Proof.
  intros H. destruct (setPassword_buffer password cm H) as [Hb Hp]. destruct H as [Hs Hq].
  split; [rewrite Hp; exact Hs | rewrite Hb; exact (length_stored 64 password ltac:(lia))].
Qed.

(** The core of the credential round trip: what saving leaves in the
    EEPROM, and what any later load from those cells returns. *)
Lemma saved_image (cm blank : ConfigManager.t) (e : EEPROM.t) (ssid password : list ascii) :
  ConfigManager.sized cm -> ConfigManager.sized blank ->
  (ConfigManager.SSID_SIZE + ConfigManager.PASSWORD_SIZE <= length (EEPROM.data e))%nat ->
  let saved := ConfigManager.setPassword password (ConfigManager.setSSID ssid cm) in
  let e' := ConfigManager.saveConfig saved e in
  ConfigManager.sized saved
  /\ EEPROM.flash e' = EEPROM.data e'
  /\ EEPROM.data e'
     = ConfigManager._ssid saved ++ ConfigManager._password saved
       ++ drop (ConfigManager.SSID_SIZE + ConfigManager.PASSWORD_SIZE) (EEPROM.data e)
  /\ (forall e2, EEPROM.data e2 = EEPROM.data e' ->
        ConfigManager.getSSID (ConfigManager.loadConfig e2 blank) = take 31 (c_str ssid)
        /\ ConfigManager.getPassword (ConfigManager.loadConfig e2 blank)
           = take 63 (c_str password)
        /\ ConfigManager.sized (ConfigManager.loadConfig e2 blank)).
Proof.
  intros Hcm Hblank He saved e'.
  assert (Hsaved : ConfigManager.sized saved)
    by (apply setPassword_sized, setSSID_sized, Hcm).
  destruct (setSSID_buffer ssid cm Hcm) as [Hs1 _].
  destruct (setPassword_buffer password _ (setSSID_sized ssid cm Hcm)) as [Hp2 Hs2].
  fold saved in Hp2, Hs2. rewrite Hs1 in Hs2.
  destruct (saveToEEPROM_data saved e Hsaved He) as [Hd Hf].
  fold (ConfigManager.saveConfig saved e) in Hd, Hf. fold e' in Hd, Hf.
  split; [exact Hsaved|]. split; [exact Hf|]. split; [exact Hd|].
  intros e2 H2. destruct Hsaved as [Ls Lp].
  assert (Hl : ConfigManager.loadConfig e2 blank
               = ConfigManager.mk (ConfigManager._ssid saved) (ConfigManager._password saved)).
  { eapply (loadFromEEPROM_of _ _ _ blank e2 Hblank Ls Lp). rewrite H2. exact Hd. }
  rewrite Hl. split; [|split].
  - change (c_str (ConfigManager._ssid saved) = take 31 (c_str ssid)).
    rewrite Hs2. exact (c_str_stored 32 ssid ltac:(lia)).
  - change (c_str (ConfigManager._password saved) = take 63 (c_str password)).
    rewrite Hp2. exact (c_str_stored 64 password ltac:(lia)).
  - split; assumption.
Qed.

Lemma untouched_beyond (s p d : list ascii) (i : nat) :
  length s = ConfigManager.SSID_SIZE -> length p = ConfigManager.PASSWORD_SIZE ->
  (96 <= i)%nat ->
  (s ++ p ++ drop (ConfigManager.SSID_SIZE + ConfigManager.PASSWORD_SIZE) d) !! i = d !! i.
Proof.
  unfold ConfigManager.SSID_SIZE, ConfigManager.PASSWORD_SIZE. intros Ls Lp Hi.
  rewrite lookup_app_r by lia. rewrite lookup_app_r by lia.
  rewrite lookup_drop. f_equal. lia.
Qed.

(** C6. Saving a pair of credentials and loading them again returns the
    pair, each string cut to what its buffer holds (31 and 63 characters):
    unchanged when within the limits, truncated to a prefix that depends on
    the input alone otherwise.  The buffers keep their 32 and 64 cells, the
    EEPROM keeps its size, and no cell from address 96 on is touched. *)
Theorem credentials_round_trip
    (cm blank : ConfigManager.t) (e : EEPROM.t) (ssid password : list ascii) :
  ConfigManager.sized cm -> ConfigManager.sized blank ->
  (ConfigManager.SSID_SIZE + ConfigManager.PASSWORD_SIZE <= length (EEPROM.data e))%nat ->
  let saved := ConfigManager.setPassword password (ConfigManager.setSSID ssid cm) in
  let e' := ConfigManager.saveConfig saved e in
  let loaded := ConfigManager.loadConfig e' blank in
  ConfigManager.getSSID loaded = take 31 (c_str ssid)
  /\ ConfigManager.getPassword loaded = take 63 (c_str password)
  /\ ((length (c_str ssid) <= 31)%nat -> (length (c_str password) <= 63)%nat ->
      ConfigManager.getSSID loaded = c_str ssid
      /\ ConfigManager.getPassword loaded = c_str password)
  /\ ConfigManager.sized saved /\ ConfigManager.sized loaded
  /\ length (EEPROM.data e') = length (EEPROM.data e)
  /\ (forall i, (96 <= i)%nat -> EEPROM.data e' !! i = EEPROM.data e !! i).
Proof.
  intros Hcm Hblank He saved e' loaded.
  destruct (saved_image cm blank e ssid password Hcm Hblank He)
    as (Hsaved & _ & Hd & Hload).
  fold saved in Hsaved, Hd, Hload. fold e' in Hd, Hload.
  destruct (Hload e' eq_refl) as (HS & HP & Hsz). fold loaded in HS, HP, Hsz.
  split; [exact HS|]. split; [exact HP|].
  split. { intros H1 H2. rewrite HS, HP, !take_ge by lia. done. }
  split; [exact Hsaved|]. split; [exact Hsz|].
  destruct Hsaved as [Ls Lp]. split.
  - rewrite Hd, !length_app, length_drop, Ls, Lp. lia.
  - intros i Hi. rewrite Hd. apply untouched_beyond; assumption.
Qed.

Lemma credentials_round_trip_witness :
  ConfigManager.getSSID
    (ConfigManager.loadConfig
       (ConfigManager.saveConfig
          (ConfigManager.setPassword (Arduino.chars "correct horse")
             (ConfigManager.setSSID (Arduino.chars "HomeNet") Sample.cm_garbage))
          Sample.eeprom_factory)
       Sample.cm_garbage)
  = take 31 (c_str (Arduino.chars "HomeNet")).
Proof.
  refine (proj1 (credentials_round_trip Sample.cm_garbage Sample.cm_garbage Sample.eeprom_factory
                   (Arduino.chars "HomeNet") (Arduino.chars "correct horse") _ _ _)).
  - split; reflexivity.
  - split; reflexivity.
  - vm_compute. lia.
Defined.

(* --------------------------------------------------------------------- *)
(** ** The single-argument portal and the presence_gen_one image *)
(* --------------------------------------------------------------------- *)

Import Arduino.

(** Unfolds the monad and the small-step helpers, leaving the state
    accessors and the ConfigManager operations folded. *)
Lemma count_app (p : Event -> bool) (a b : list Event) :
  count p (a ++ b) = (count p a + count p b)%nat.
Proof. unfold count. rewrite filter_app, length_app. reflexivity. Qed.

Ltac run_legacy :=
  cbv beta iota zeta delta
    [bind ret get put modify emit fault restart deref when app
     Legacy.on_portal Legacy.delay Legacy.WiFi_setMode Legacy.WiFi_connected
     Legacy.new_ConfigManager Legacy.new_LEDController_begun
     Legacy._setupAP Legacy._setupWebServer Legacy.begin Legacy.enterConfigMode
     Legacy._handleRoot Legacy._handleSave Legacy._handleNotFound
     Legacy.handleClient Legacy.update
     PresenceGenOne.startMDNS PresenceGenOne.startAPIServer
     PresenceGenOne.connectToWiFi PresenceGenOne.setup].

Lemma begin_reloads (e : EEPROM.t) :
  length (EEPROM.data e) = 512%nat -> EEPROM.flash e = EEPROM.data e ->
  EEPROM.data (EEPROM.begin 512 e) = EEPROM.data e.
Proof.
  intros Hl Hf. unfold EEPROM.begin. cbn [EEPROM.data]. rewrite Hf.
  rewrite take_app_length' by lia. reflexivity.
Qed.

(** C10. A request to [/save] carrying both [ssid] and [password] stores
    the pair, each cut to its buffer, commits it to flash, answers 200 and
    then restarts; after the reboot the stored pair is what a load returns.
    A request lacking either argument is answered 400 and changes nothing. *)
Theorem save_request_persists
    (w : Legacy.World) (cm blank : ConfigManager.t) (r : Request) :
  Legacy._configManager (Legacy.portal w) = Some cm ->
  ConfigManager.sized cm -> ConfigManager.sized blank ->
  length (EEPROM.data (Legacy.eeprom w)) = 512%nat ->
  uri r = "/save" ->
  (hasArg "ssid" r = true -> hasArg "password" r = true ->
   exists w',
     Legacy.handleClient r w
     = Rebooted w'
         [EEPROM_commit;
          HTTP_send 200 "text/html"
            (BText "<h1>Settings Saved!</h1><p>Device will restart.</p>");
          Delay 1000; Restart]
     /\ EEPROM.flash (Legacy.eeprom w') = EEPROM.data (Legacy.eeprom w')
     /\ length (EEPROM.data (Legacy.eeprom w')) = 512%nat
     /\ (let reloaded :=
           ConfigManager.loadConfig (EEPROM.begin 512 (Legacy.eeprom w')) blank in
         ConfigManager.getSSID reloaded = take 31 (c_str (chars (arg "ssid" r)))
         /\ ConfigManager.getPassword reloaded
            = take 63 (c_str (chars (arg "password" r))))
     /\ (forall i, (96 <= i)%nat ->
          EEPROM.data (Legacy.eeprom w') !! i = EEPROM.data (Legacy.eeprom w) !! i))
  /\ (hasArg "ssid" r && hasArg "password" r = false ->
      Legacy.handleClient r w
      = Done tt w [HTTP_send 400 "text/html" (BText "<h1>Invalid Request</h1>")]).
Proof.
  intros Hptr Hcm Hblank He Huri. split.
  - intros Hs Hp.
    assert (He96 : (ConfigManager.SSID_SIZE + ConfigManager.PASSWORD_SIZE
                    <= length (EEPROM.data (Legacy.eeprom w)))%nat)
      by (rewrite He; unfold ConfigManager.SSID_SIZE, ConfigManager.PASSWORD_SIZE; lia).
    destruct (saved_image cm blank (Legacy.eeprom w)
                (chars (arg "ssid" r)) (chars (arg "password" r)) Hcm Hblank He96)
      as (Hsaved & Hf & Hd & Hload).
    set (saved := ConfigManager.setPassword _ _) in *.
    set (e' := ConfigManager.saveConfig saved (Legacy.eeprom w)) in *.
    assert (Hlen : length (EEPROM.data e') = 512%nat).
    { destruct Hsaved as [Ls Lp]. rewrite Hd, !length_app, length_drop, Ls, Lp, He.
      unfold ConfigManager.SSID_SIZE, ConfigManager.PASSWORD_SIZE. lia. }
    eexists. split.
    { run_legacy. rewrite Huri. simpl. rewrite Hs, Hp. simpl. rewrite Hptr.
      reflexivity. }
    cbn [Legacy.eeprom Legacy.with_clock Legacy.with_eeprom Legacy.with_portal].
    fold saved. fold e'.
    split; [exact Hf|]. split; [exact Hlen|]. split.
    + destruct (Hload (EEPROM.begin 512 e') (begin_reloads e' Hlen Hf)) as (HS & HP & _).
      split; assumption.
    + intros i Hi. rewrite Hd. destruct Hsaved as [Ls Lp].
      apply untouched_beyond; assumption.
  - intros Hmiss. run_legacy. rewrite Huri. simpl. rewrite Hmiss. reflexivity.
Qed.

Lemma save_request_persists_witness :
  exists w',
    Legacy.handleClient
      (mkRequest HTTP_POST "/save" [("ssid", "HomeNet"); ("password", "correct horse")])
      Sample.legacy_config
    = Rebooted w'
        [EEPROM_commit;
         HTTP_send 200 "text/html"
           (BText "<h1>Settings Saved!</h1><p>Device will restart.</p>");
         Delay 1000; Restart]
    /\ ConfigManager.getSSID
         (ConfigManager.loadConfig (EEPROM.begin 512 (Legacy.eeprom w')) Sample.cm_garbage)
       = chars "HomeNet".
Proof.
  destruct (save_request_persists Sample.legacy_config
              (ConfigManager.ctor Sample.cm_garbage) Sample.cm_garbage
              (mkRequest HTTP_POST "/save" [("ssid", "HomeNet"); ("password", "correct horse")])
              eq_refl (conj eq_refl eq_refl) (conj eq_refl eq_refl) eq_refl eq_refl)
    as [Hsave _].
  destruct (Hsave eq_refl eq_refl) as (w' & Hrun & _ & _ & Hload & _).
  exists w'. split; [exact Hrun|]. exact (proj1 Hload).
Defined.

Lemma with_clock_same (w : Legacy.World) : Legacy.with_clock (Legacy.clock w + 1000 * 0) w = w.
Proof. destruct w; unfold Legacy.with_clock; simpl. f_equal. lia. Qed.

Lemma with_clock_twice (w : Legacy.World) (a b : Z) :
  Legacy.with_clock b (Legacy.with_clock a w) = Legacy.with_clock b w.
Proof. reflexivity. Qed.

(** One turn of the polling loop. *)
Lemma poll_step (fuel : nat) (timeout : Z) (w : Legacy.World) :
  PresenceGenOne.poll (S fuel) timeout w
  = if negb (Legacy.link w (Legacy.clock w)) && (timeout <? PresenceGenOne.WIFI_TIMEOUT)
    then
      match PresenceGenOne.poll fuel (timeout + 1)
              (Legacy.with_clock (Legacy.clock w + 1000) w) with
      | Done a w' t => Done a w' (Delay 1000 :: t)
      | Rebooted w' t => Rebooted w' (Delay 1000 :: t)
      | Crash f t => Crash f (Delay 1000 :: t)
      end
    else Done (Some timeout) w [].
Proof.
  cbn [PresenceGenOne.poll].
  cbv beta iota zeta delta [bind ret get modify emit Legacy.WiFi_connected Legacy.delay].
  destruct (Legacy.link w (Legacy.clock w)); cbn [negb andb]; [reflexivity|].
  destruct (timeout <? PresenceGenOne.WIFI_TIMEOUT); [|reflexivity].
  destruct (PresenceGenOne.poll fuel (timeout + 1) _); reflexivity.
Qed.


(** The loop always returns when it may test its condition 31 times. *)
Lemma poll_terminates (n : nat) :
  forall (fuel : nat) (timeout : Z) (w : Legacy.World),
    30 - Z.of_nat n <= timeout -> (n < fuel)%nat ->
    exists t w' tr, PresenceGenOne.poll fuel timeout w = Done (Some t) w' tr.
Proof.
  induction n as [|n IH]; intros fuel timeout w Ht Hf;
    (destruct fuel as [|fuel]; [lia|]); rewrite poll_step;
    destruct (Legacy.link w (Legacy.clock w)); cbn [negb andb]; eauto.
  - assert (Hge : (timeout <? PresenceGenOne.WIFI_TIMEOUT) = false)
      by (apply Z.ltb_ge; unfold PresenceGenOne.WIFI_TIMEOUT; lia).
    rewrite Hge. eauto.
  - destruct (timeout <? PresenceGenOne.WIFI_TIMEOUT); [|eauto].
    destruct (IH fuel (timeout + 1) (Legacy.with_clock (Legacy.clock w + 1000) w))
      as (t & w' & tr & Hp); [lia | lia |].
    rewrite Hp. eauto.
Qed.

(** One pass of the portal's [update()] never changes the mode flag. *)
Lemma legacy_update_keeps_mode (pending : option Request) (w : Legacy.World) :
  match Legacy.update pending w with
  | Done _ w' _ | Rebooted w' _ =>
      Legacy._configMode (Legacy.portal w') = Legacy._configMode (Legacy.portal w)
  | Crash _ _ => True
  end.
Proof.
  run_legacy. destruct w as [p d e m c l h]. destruct p as [cm led pin cfg st dns web].
  cbn. destruct (cfg && dns); cbn; destruct web; cbn; try reflexivity;
    destruct pending as [r|]; cbn; try reflexivity.
  all: destruct (decide (uri r = "/")); cbn; try reflexivity.
  all: destruct (decide (uri r = "/save")); cbn; try reflexivity.
  all: destruct (hasArg "ssid" r && hasArg "password" r); cbn; try reflexivity.
  all: destruct cm; cbn; try reflexivity; exact I.
Qed.

(** C1 (presence_gen_one). [setup()] asks the freshly constructed portal
    for its ConfigManager, gets the null pointer the constructor stored,
    and calls [loadConfig()] through it: the run faults after the initial
    delay, whatever the EEPROM holds, before the SSID is examined. *)
Theorem presence_gen_one_setup_faults
    (e : EEPROM.t) (lnk : Z -> bool) (mem : ConfigManager.t) (fuel : nat) :
  PresenceGenOne.setup fuel (PresenceGenOne.boot e lnk mem)
  = Crash NullPointerDereference [Delay 1000].
Proof. reflexivity. Qed.

(** The branch [setup()] would take on an empty SSID: from a portal that is
    not yet in configuration mode, [enterConfigMode()] sets the mode, starts
    the access point and the DNS server, and begins no station join. *)
Lemma legacy_enterConfigMode_enters (w : Legacy.World) :
  Legacy._configMode (Legacy.portal w) = false ->
  exists w' tr,
    Legacy.enterConfigMode w = Done tt w' tr
    /\ Legacy.isInConfigMode (Legacy.portal w') = true
    /\ Legacy._dnsServer (Legacy.portal w') = true
    /\ Legacy.wifi_mode w' = WIFI_AP
    /\ count is_sta_begin tr = 0%nat.
Proof.
  intros Hm. run_legacy. rewrite Hm. cbn. eauto 10.
Qed.

(** Unfolds the monad and the portal's own steps. *)
Ltac run_portal :=
  cbv beta iota zeta delta
    [bind ret get put modify emit fault restart deref when app
     Portal.on_self Portal.on_radio Portal.delay Portal.WiFi_setMode
     Portal.WiFi_softAPdisconnect_ Portal.setPattern
     Portal.dnsHandler_begin Portal.dnsHandler_stop Portal.dnsHandler_processRequests
     Portal.configManager_resetConfig Portal.configManager_loadConfig
     Portal.wifiManager_connect Portal.startAccessPoint Portal.enterConfigMode
     Portal.onWiFiConnected Portal.onWiFiDisconnected Portal.onEnterAPMode
     Portal.setupWebServerRoutes Portal.webServer_begin Portal.registerAPIRoutes
     Portal.begin Portal.send_json Portal.send_parse_error
     Portal.handleRestart Portal.handleReset Portal.redirect_to_portal
     Portal.handleGenerate204 Portal.handleHotspotDetect Portal.handleNCSI
     Portal.handleConnectTest Portal.handleRedirect Portal.handleFavicon
     Portal.handleRoot Portal.run_callback TestDevice.setup].

(** Full evaluation, keeping the string helpers folded. *)
Ltac eval_portal :=
  lazy beta iota zeta delta
    -[Portal.hostname_of Portal.bounded strlen c_str chars toString String.append
      json_set json_get].

(** Either way into configuration mode sets the flag, puts the radio in
    combined access-point and station mode, starts the DNS redirector once,
    and begins no station join. *)
Lemma onEnterAPMode_enters (w : Portal.World) :
  exists w' tr,
    Portal.onEnterAPMode w = Done tt w' tr
    /\ Portal.configMode (Portal.self w') = true
    /\ Portal.dnsRunning w' = true
    /\ Portal.mode (Portal.radio w') = WIFI_AP_STA
    /\ count is_dns_begin tr = 1%nat
    /\ count is_sta_begin tr = 0%nat.
Proof.
  destruct w as [[dev cfg ini pres ss pw ch ip] r dns l st c sv e].
  destruct dev; (eexists; eexists; split; [reflexivity|]); repeat split.
Qed.

Lemma enterConfigMode_enters (w : Portal.World) :
  exists w' tr,
    Portal.enterConfigMode w = Done tt w' tr
    /\ Portal.configMode (Portal.self w') = true
    /\ Portal.dnsRunning w' = true
    /\ Portal.mode (Portal.radio w') = WIFI_AP_STA
    /\ count is_dns_begin tr = 1%nat
    /\ count is_sta_begin tr = 0%nat.
Proof.
  destruct w as [[dev cfg ini pres ss pw ch ip] r dns l st c sv e].
  destruct dev; (eexists; eexists; split; [reflexivity|]); repeat split.
Qed.

Lemma loaded_ssid_head (e : EEPROM.t) (cm : ConfigManager.t) :
  ConfigManager.sized cm ->
  exists rest,
    ConfigManager._ssid (ConfigManager.loadConfig e cm) = EEPROM.read 0 e :: rest.
Proof.
  intros [Hs _]. unfold ConfigManager.loadConfig, ConfigManager._loadFromEEPROM.
  cbn [ConfigManager._ssid].
  assert (H : ConfigManager.for_upto ConfigManager.SSID_SIZE
                (fun i buf => <[i := EEPROM.read i e]> buf) (ConfigManager._ssid cm)
              = map (fun i => EEPROM.read (0 + i) e) (seq 0 ConfigManager.SSID_SIZE)
                ++ drop ConfigManager.SSID_SIZE (ConfigManager._ssid cm)).
  { apply (load_block ConfigManager.SSID_SIZE 0 e). lia. }
  rewrite H. eexists. reflexivity.
Qed.

(** The test [setup()] makes, on a portal whose manager has been
    allocated: when the first cell of the EEPROM is NUL (empty SSID) it
    calls [enterConfigMode()], which sets the mode and begins no station
    join. *)
Lemma setup_branch_on_empty_ssid (w : Legacy.World) (cm : ConfigManager.t) (fuel : nat) :
  Legacy._configManager (Legacy.portal w) = Some cm ->
  ConfigManager.sized cm ->
  Legacy._configMode (Legacy.portal w) = false ->
  EEPROM.read 0 (EEPROM.begin 512 (Legacy.eeprom w)) = NUL ->
  exists w' tr,
    PresenceGenOne.setup fuel w = Done tt w' tr
    /\ Legacy.isInConfigMode (Legacy.portal w') = true
    /\ count is_sta_begin tr = 0%nat.
Proof.
  intros Hptr Hcm Hmode Hnul.
  destruct (loaded_ssid_head (EEPROM.begin 512 (Legacy.eeprom w)) cm Hcm) as [rest Hl].
  assert (H0 : strlen (ConfigManager._ssid
                         (ConfigManager.loadConfig (EEPROM.begin 512 (Legacy.eeprom w)) cm))
               = 0%nat).
  { rewrite Hl, Hnul. reflexivity. }
  destruct w as [p d e m c l h]. destruct p as [pcm led pin cfg st dns web].
  cbn in Hptr, Hmode, H0. subst pcm cfg.
  unfold PresenceGenOne.setup.
  cbv beta iota zeta delta
    [bind ret get modify emit deref Legacy.delay Legacy.on_portal Legacy.getConfigManager
     Legacy.portal Legacy.eeprom Legacy.with_eeprom Legacy.with_clock Legacy.with_portal
     Legacy._configManager].
  case_decide as Hd; [|exfalso; apply Hd; exact H0].
  eexists. eexists. split; [reflexivity|]. split; reflexivity.
Qed.








(* --------------------------------------------------------------------- *)
(** ** The orchestrating portal: startup, requests, lifecycle *)
(* --------------------------------------------------------------------- *)

(** [begin()] with no SSID in the Credential Store: the Connection Manager
    declines, the portal enters configuration mode, and no station join is
    begun. *)
Lemma begin_without_ssid (w : Portal.World) :
  strlen (Portal.ssid (Portal.store w)) = 0%nat ->
  exists w' tr,
    Portal.begin w = Done tt w' tr
    /\ Portal.configMode (Portal.self w') = true
    /\ Portal.dnsRunning w' = true
    /\ count is_dns_begin tr = 1%nat
    /\ count is_sta_begin tr = 0%nat.
Proof.
  destruct w as [[dev cfg ini pres ss pw ch ip] r dns l st c sv e]. cbn. intros H0.
  destruct dev; [destruct ini|]; run_portal;
    (case_decide as Hd; [|exfalso; apply Hd; exact H0]); eval_portal;
    (eexists; eexists; split; [reflexivity|]); repeat split.
Qed.

(** test_device's [setup()] with no SSID stored. *)
Lemma test_device_setup_without_ssid (w : Portal.World) :
  strlen (Portal.ssid (Portal.store w)) = 0%nat ->
  exists w' tr,
    TestDevice.setup w = Done tt w' tr
    /\ Portal.configMode (Portal.self w') = true
    /\ Portal.dnsRunning w' = true
    /\ count is_dns_begin tr = 1%nat
    /\ count is_sta_begin tr = 0%nat.
Proof.
  destruct w as [[dev cfg ini pres ss pw ch ip] r dns l st c sv e]. cbn. intros H0.
  destruct dev; run_portal;
    (case_decide as Hd; [|exfalso; apply Hd; exact H0]); eval_portal;
    (eexists; eexists; split; [reflexivity|]); repeat split.
Qed.


(** C4, as the code has it.  A "connected" event delivered in
    configuration mode clears the mode, stops the DNS redirector once and
    turns the access point off once, leaving the radio in station mode.
    Delivered again, it stops and turns off nothing.  The Device Adapter's
    exit-configuration notification is not tied to the mode: with an
    adapter attached it is sent on every delivery, the second included;
    with none attached it is never sent. *)
Theorem connected_exits_config_once (w : Portal.World) :
  Portal.configMode (Portal.self w) = true ->
  exists w1 t1 w2 t2,
    Portal.onWiFiConnected w = Done tt w1 t1
    /\ Portal.onWiFiConnected w1 = Done tt w2 t2
    /\ Portal.configMode (Portal.self w1) = false
    /\ Portal.dnsRunning w1 = false
    /\ Portal.mode (Portal.radio w1) = WIFI_STA
    /\ count is_dns_stop t1 = 1%nat /\ count is_ap_off t1 = 1%nat
    /\ count is_dns_stop t2 = 0%nat /\ count is_ap_off t2 = 0%nat
    /\ Portal.configMode (Portal.self w2) = false
    /\ Portal.dnsRunning w2 = false
    /\ count is_exit_config t1
       = match Portal.device (Portal.self w) with Some _ => 1%nat | None => 0%nat end
    /\ count is_exit_config t2
       = match Portal.device (Portal.self w) with Some _ => 1%nat | None => 0%nat end.
Proof.
  destruct w as [[dev cfg ini pres ss pw ch ip] r dns l st c sv [ms hp mok]].
  cbn. intros ->.
  destruct dev; destruct mok;
    (do 4 eexists; split; [reflexivity|]; split; [reflexivity|]); repeat split.
Qed.

Lemma connected_exits_config_once_witness :
  exists w1 t1 w2 t2,
    Portal.onWiFiConnected (Sample.config_world Sample.equipped) = Done tt w1 t1
    /\ Portal.onWiFiConnected w1 = Done tt w2 t2
    /\ count is_dns_stop t1 = 1%nat /\ count is_dns_stop t2 = 0%nat
    /\ count is_exit_config t2 = 1%nat.
Proof.
  destruct (connected_exits_config_once (Sample.config_world Sample.equipped) eq_refl)
    as (w1 & t1 & w2 & t2 & H1 & H2 & _ & _ & _ & H3 & _ & H4 & _ & _ & _ & _ & H5).
  exists w1, t1, w2, t2. repeat split; assumption.
Defined.

(** C4 does not hold as stated: with an adapter attached, a second
    "connected" event, delivered in normal mode, sends the
    exit-configuration notification again. *)
Lemma second_connected_notifies_again :
  match Portal.onWiFiConnected (Sample.config_world Sample.equipped) with
  | Done _ w1 _ =>
      Portal.configMode (Portal.self w1) = false
      /\ count is_exit_config (trace_of (Portal.onWiFiConnected w1)) = 1%nat
  | _ => False
  end.
Proof. vm_compute. split; reflexivity. Qed.

Lemma members_get_set_same (k : string) (v : JsonValue) (ms : JsonMembers) :
  members_get k (members_set k v ms) = Some v.
Proof.
  induction ms as [|[k' v'] ms IH]; simpl.
  - destruct (decide (k = k)); congruence.
  - destruct (decide (k' = k)) as [->|Hne]; simpl.
    + destruct (decide (k = k)); congruence.
    + destruct (decide (k' = k)); [congruence | exact IH].
Qed.

Lemma members_get_set_other (k k' : string) (v : JsonValue) (ms : JsonMembers) :
  k <> k' -> members_get k (members_set k' v ms) = members_get k ms.
Proof.
  intros Hne. induction ms as [|[k0 v0] ms IH]; simpl.
  - destruct (decide (k' = k)); congruence.
  - destruct (decide (k0 = k')) as [->|H0]; simpl.
    + destruct (decide (k' = k)); congruence.
    + destruct (decide (k0 = k)); [reflexivity | exact IH].
Qed.

(** A member assignment is read back from a root that is null or an
    object, and is lost on any other root. *)
Lemma json_get_set_same (k : string) (v : JsonValue) (d : JsonDocument) :
  accepts_members d = true -> json_get k (json_set k v d) = Some v.
Proof.
  destruct d; try discriminate; intros _; cbn.
  - destruct (decide (k = k)); congruence.
  - apply members_get_set_same.
Qed.

Lemma json_get_set_other (k k' : string) (v : JsonValue) (d : JsonDocument) :
  k <> k' -> json_get k (json_set k' v d) = json_get k d.
Proof.
  intros Hne. destruct d; try reflexivity; cbn.
  - destruct (decide (k' = k)); congruence.
  - apply members_get_set_other. exact Hne.
Qed.

Lemma json_set_accepts (k : string) (v : JsonValue) (d : JsonDocument) :
  accepts_members (json_set k v d) = accepts_members d.
Proof. destruct d; reflexivity. Qed.

Lemma json_set_ignored (k : string) (v : JsonValue) (d : JsonDocument) :
  accepts_members d = false -> json_set k v d = d.
Proof. destruct d; try discriminate; reflexivity. Qed.

(** Where the route table sends the control-plane requests used below. *)
Lemma api_routes (extra : list Portal.Route) (a : list (string * string)) :
  Portal.find_route (Portal.portal_routes ++ extra) (mkRequest HTTP_POST "/settings" a)
  = Some Portal.handleSettings_
  /\ Portal.find_route (Portal.portal_routes ++ extra) (mkRequest HTTP_POST "/led" a)
     = Some Portal.handleLED_
  /\ Portal.find_route (Portal.portal_routes ++ extra) (mkRequest HTTP_POST "/restart" a)
     = Some Portal.handleRestart_
  /\ Portal.find_route (Portal.portal_routes ++ extra) (mkRequest HTTP_POST "/reset" a)
     = Some Portal.handleReset_.
Proof. repeat split. Qed.

(** A request falls through the portal's own routes when its path and
    method match none of them. *)
Lemma led_get_unrouted (a : list (string * string)) :
  Portal.find_route Portal.portal_routes (mkRequest HTTP_GET "/led" a) = None.
Proof. reflexivity. Qed.

(** What [handleLED] does once it is invoked.  With a body that parses to
    a document whose [state] is true it switches the indicator on and
    answers 200 with [success] and [led] both true; with a body that does
    not parse (the empty body among them, for a parser reporting
    [EmptyInput]) or a document without [state] it answers 400; invoked for
    a method other than POST it answers 405. *)
Lemma handleLED_cases
    (parse : string -> DeserializationError + JsonDocument) (w : Portal.World) (r : Request) :
  (method r = HTTP_POST ->
   (forall doc, parse (arg "plain" r) = inr doc ->
      json_get "state" doc = Some (JBool true) ->
      exists w' payload,
        Portal.handleLED parse r w
        = Done tt w' [LED_setState true; LED_setPattern ON;
                      HTTP_send 200 "application/json" (BJson payload)]
        /\ json_get "success" payload = Some (JBool true)
        /\ json_get "led" payload = Some (JBool true))
   /\ (forall err, parse (arg "plain" r) = inl err ->
         exists payload,
           Portal.handleLED parse r w
           = Done tt w [HTTP_send 400 "application/json" (BJson payload)])
   /\ (forall doc, parse (arg "plain" r) = inr doc -> json_get "state" doc = None ->
         exists payload,
           Portal.handleLED parse r w
           = Done tt w [HTTP_send 400 "application/json" (BJson payload)]))
  /\ (method r <> HTTP_POST ->
      exists payload,
        Portal.handleLED parse r w
        = Done tt w [HTTP_send 405 "application/json" (BJson payload)]).
Proof.
  split.
  - intros Hm. unfold Portal.handleLED. rewrite Hm. cbn [bool_decide negb].
    rewrite bool_decide_eq_true_2 by reflexivity. cbn [negb].
    split; [|split].
    + intros doc Hp Hs. rewrite Hp. unfold containsKey. rewrite Hs. cbn.
      eexists. eexists. split; [reflexivity|]. split; reflexivity.
    + intros err Hp. rewrite Hp. eexists. reflexivity.
    + intros doc Hp Hs. rewrite Hp. unfold containsKey. rewrite Hs. cbn.
      eexists. reflexivity.
  - intros Hm. unfold Portal.handleLED.
    rewrite bool_decide_eq_false_2 by exact Hm. cbn. eexists. reflexivity.
Qed.

(** C7 (the 405 part fails).  [/led] is registered for POST alone, so a GET
    for it reaches no handler of its own: the server hands it to the
    not-found handler, which, [/led] being none of the API prefixes it
    knows, answers 200 with the provisioning page.  The 405 answer of
    [handleLED] is never sent.  This is so in any state of a portal serving
    the routes of [setupWebServerRoutes], and in particular right after
    [begin()] on a portal without Device Adapter. *)
Theorem led_get_is_served_the_page
    (parse : string -> DeserializationError + JsonDocument)
    (w0 : Portal.World) (a : list (string * string))
    (ssid_size password_size : nat) (ap_ssid : option string) (ap_password : string)
    (ap_channel : Z) (r : Portal.Radio) (e : Portal.Env) :
  (let w := Portal.with_server (Portal.mkServer Portal.portal_routes true true) w0 in
   Portal.handleClient parse (Some (mkRequest HTTP_GET "/led" a)) w
   = Done tt w [HTTP_send 200 "text/html" (BPage "WEB_UI_HTML")])
  /\ (let me := Portal.ctor ssid_size password_size None ap_ssid ap_password ap_channel in
      exists w tr,
        Portal.begin (Portal.fresh me r Sample.no_credentials e) = Done tt w tr
        /\ Portal.handleClient parse (Some (mkRequest HTTP_GET "/led" a)) w
           = Done tt w [HTTP_send 200 "text/html" (BPage "WEB_UI_HTML")]).
Proof.
  split.
  - destruct w0 as [me0 r0 dns l st0 c sv e0]. reflexivity.
  - intros me. subst me. eval_portal.
    eexists. eexists. split; [reflexivity|]. eval_portal. reflexivity.
Qed.

(** C8 (the second half fails).  A POST to [/settings] never faults, and
    when the body does not parse the answer is 400 with a JSON payload
    whose [error] member is ["Invalid JSON"].  When the body parses and no
    Device Adapter is attached, the handler assigns [success] and
    [message] to the parsed document and answers 200 with it.  On a
    document whose root is an object (or null) the answer then carries
    [success] false and [message] ["No settings updated"].  On a document
    whose root is an array, a string, a number or a boolean the two
    assignments do nothing: the answer is the body's own value, with
    nothing in it that says no settings were updated. *)
Theorem settings_post
    (parse : string -> DeserializationError + JsonDocument)
    (w : Portal.World) (extra : list Portal.Route) (a : list (string * string)) :
  Portal.routes (Portal.server w) = Portal.portal_routes ++ extra ->
  let r := mkRequest HTTP_POST "/settings" a in
  no_fault (Portal.serve parse r w) = true
  /\ (forall err, parse (arg "plain" r) = inl err ->
        exists payload,
          Portal.serve parse r w
          = Done tt w [HTTP_send 400 "application/json" (BJson payload)]
          /\ json_get "error" payload = Some (JStr "Invalid JSON"))
  /\ (forall doc, parse (arg "plain" r) = inr doc ->
        Portal.device (Portal.self w) = None ->
        exists payload,
          Portal.serve parse r w
          = Done tt w [HTTP_send 200 "application/json" (BJson payload)]
          /\ (accepts_members doc = true ->
              json_get "success" payload = Some (JBool false)
              /\ json_get "message" payload = Some (JStr "No settings updated"))
          /\ (accepts_members doc = false ->
              payload = doc
              /\ json_get "success" payload = None
              /\ json_get "message" payload = None)).
Proof.
  intros Hr r. destruct (api_routes extra a) as (Hf & _).
  assert (Hs : Portal.serve parse r w = Portal.handleSettings parse r w).
  { unfold Portal.serve. unfold bind at 1. unfold get. rewrite Hr. subst r. rewrite Hf.
    cbn [Portal.run_handler]. destruct (Portal.handleSettings parse _ w); cbn [app]; reflexivity. }
  rewrite Hs. unfold Portal.handleSettings.
  cbv beta iota zeta delta [bind get Portal.send_parse_error Portal.send_json emit].
  destruct (decide (method r = HTTP_GET)) as [Hm|_]; [discriminate Hm|].
  split; [|split].
  - destruct (parse (arg "plain" r)) as [err|doc]; [reflexivity|].
    destruct (Portal.device (Portal.self w)) as [d|]; [|reflexivity].
    destruct (Portal.updateSettings d doc) as [[|] doc']; reflexivity.
  - intros err Hp. rewrite Hp. eexists. split; [reflexivity|]. reflexivity.
  - intros doc Hp Hd. rewrite Hp, Hd. eexists. split; [reflexivity|].
    split.
    + intros Hacc. split.
      * rewrite json_get_set_other by discriminate. apply json_get_set_same. exact Hacc.
      * apply json_get_set_same. rewrite json_set_accepts. exact Hacc.
    + intros Hacc. rewrite (json_set_ignored "success" _ doc Hacc).
      rewrite (json_set_ignored "message" _ doc Hacc).
      split; [reflexivity|]. destruct doc; try discriminate Hacc; split; reflexivity.
Qed.

(** The body [[1,2]], which is valid JSON, sent to a portal without Device
    Adapter: the answer is 200 with the array, and neither [success] nor
    [message]. *)
Lemma settings_post_witness :
  Portal.serve Sample.parser (mkRequest HTTP_POST "/settings" [("plain", "[1,2]")])
    (Sample.config_world Sample.bare)
  = Done tt (Sample.config_world Sample.bare)
      [HTTP_send 200 "application/json" (BJson (JArr [JInt 1; JInt 2]))]
  /\ json_get "success" (JArr [JInt 1; JInt 2]) = None
  /\ json_get "message" (JArr [JInt 1; JInt 2]) = None.
Proof.
  destruct (settings_post Sample.parser (Sample.config_world Sample.bare) []
              [("plain", "[1,2]")] eq_refl) as (_ & _ & Hok).
  destruct (Hok (JArr [JInt 1; JInt 2]) eq_refl eq_refl) as (payload & Hrun & _ & Harr).
  destruct (Harr eq_refl) as (-> & Hs & Hm).
  split; [exact Hrun | split; [exact Hs | exact Hm]].
Defined.

(** C9. Both lifecycle handlers send their acknowledgment first.
    [handleRestart] answers 200, waits a second, restarts.  [handleReset]
    answers 200, waits a second, clears the stored credentials, restarts.
    In either run the response precedes every disruptive action. *)
Theorem acknowledgment_precedes_disruption (w : Portal.World) :
  (exists w' ack,
     Portal.handleRestart w
     = Rebooted w' [HTTP_send 200 "application/json" (BJson ack); Delay 1000; Restart]
     /\ json_get "success" ack = Some (JBool true)
     /\ Portal.store w' = Portal.store w
     /\ happens_before is_send is_restart (trace_of (Portal.handleRestart w)) = true)
  /\ (exists w' ack,
        Portal.handleReset w
        = Rebooted w' [HTTP_send 200 "application/json" (BJson ack); Delay 1000;
                       Config_reset; Restart]
        /\ json_get "success" ack = Some (JBool true)
        /\ strlen (Portal.ssid (Portal.store w')) = 0%nat
        /\ happens_before is_send is_config_reset (trace_of (Portal.handleReset w)) = true
        /\ happens_before is_send is_restart (trace_of (Portal.handleReset w)) = true).
Proof.
  split; eexists; eexists; (split; [reflexivity|]); repeat split.
Qed.

(* --------------------------------------------------------------------- *)
(** ** The DNS redirector and the mode *)
(* --------------------------------------------------------------------- *)

Import Lifecycle.

Lemma keeps_ret {A} P Q (a : A) : keeps P Q (ret a).
Proof. intros w H. split; [exact H | constructor]. Qed.

Lemma keeps_emit P (Q : Event -> Prop) (e : Event) : Q e -> keeps P Q (emit e).
Proof. intros He w H. split; [exact H | repeat constructor; exact He]. Qed.

Lemma keeps_restart {A} P (Q : Event -> Prop) :
  Q Restart -> keeps P Q (@restart Portal.World A).
Proof. intros He w H. split; [exact H | repeat constructor; exact He]. Qed.

Lemma keeps_modify P Q (f : Portal.World -> Portal.World) :
  (forall w, P w -> P (f w)) -> keeps P Q (modify f).
Proof. intros Hf w H. split; [exact (Hf w H) | constructor]. Qed.

Lemma keeps_bind {A B} P Q (m : Portal.Run A) (k : A -> Portal.Run B) :
  keeps P Q m -> (forall a, keeps P Q (k a)) -> keeps P Q (bind m k).
Proof.
  intros Hm Hk w H. unfold bind. specialize (Hm w H).
  destruct (m w) as [a w1 t1 | w1 t1 | f t1]; [|exact Hm|exact Hm].
  destruct Hm as [H1 Ht1]. specialize (Hk a w1 H1).
  destruct (k a w1) as [b w2 t2 | w2 t2 | f t2];
    [destruct Hk as [H2 Ht2]; split; [exact H2|] | destruct Hk as [H2 Ht2]; split; [exact H2|] | ];
    apply Forall_app; split; assumption.
Qed.

Lemma keeps_get {B} P Q (k : Portal.World -> Portal.Run B) :
  (forall w0, keeps P Q (k w0)) -> keeps P Q (bind get k).
Proof.
  intros Hk. apply keeps_bind; [|exact Hk].
  intros w H. split; [exact H | constructor].
Qed.

Lemma keeps_when P Q (c : bool) (m : Portal.Run unit) : keeps P Q m -> keeps P Q (when c m).
Proof. intros Hm. destruct c; [exact Hm | apply keeps_ret]. Qed.

Lemma keeps_weaken {A} P (Q Q' : Event -> Prop) (m : Portal.Run A) :
  (forall e, Q e -> Q' e) -> keeps P Q m -> keeps P Q' m.
Proof.
  intros HQ Hm w H. specialize (Hm w H).
  destruct (m w); [destruct Hm; split; [assumption|] | destruct Hm; split; [assumption|] | ];
    eapply Forall_impl; eauto.
Qed.

(** Steps that touch neither the mode flag nor the redirector. *)
Ltac keeps_step :=
  lazymatch goal with
  | |- keeps _ _ (ret _) => apply keeps_ret
  | |- keeps _ _ (emit _) => apply keeps_emit; first [exact Logic.I | split; reflexivity]
  | |- keeps _ _ restart => apply keeps_restart; first [exact Logic.I | split; reflexivity]
  | |- keeps _ _ (when _ _) => apply keeps_when
  | |- keeps _ _ (bind get _) => apply keeps_get; intros ?
  | |- keeps _ _ (bind _ _) => apply keeps_bind; [|intros ?]
  | |- keeps _ _ (modify _) => apply keeps_modify; intros ? ?; assumption
  end.

Ltac keeps_auto := repeat keeps_step.

Lemma keeps_delay Q ms : Q (Delay ms) -> keeps redirector_confined Q (Portal.delay ms).
Proof.
  intros HQ. unfold Portal.delay.
  apply keeps_bind; [apply keeps_emit; exact HQ | intros _; keeps_auto].
Qed.

Lemma keeps_send_json code doc :
  keeps redirector_confined leaves_dns (Portal.send_json code doc).
Proof. unfold Portal.send_json. keeps_auto. Qed.

Lemma keeps_setPattern Q p :
  Q (LED_setPattern p) -> keeps redirector_confined Q (Portal.setPattern p).
Proof.
  intros HQ. unfold Portal.setPattern.
  apply keeps_bind; [apply keeps_emit; exact HQ | intros _; keeps_auto].
Qed.

(** No request handler changes the mode flag, or starts or stops the
    redirector. *)
Lemma keeps_run_handler parse h r :
  keeps redirector_confined leaves_dns (Portal.run_handler parse h r).
Proof.
  destruct h; cbn [Portal.run_handler];
    unfold Portal.handleGenerate204, Portal.handleHotspotDetect, Portal.handleNCSI,
      Portal.handleConnectTest, Portal.handleRedirect, Portal.redirect_to_portal,
      Portal.handleFavicon, Portal.handleRoot, Portal.handleConnected,
      Portal.handlePresence, Portal.handleStatus, Portal.handleData,
      Portal.handleDevice, Portal.handleScan, Portal.handleNetwork,
      Portal.handleRestart, Portal.handleReset, Portal.configManager_resetConfig;
    try (keeps_auto;
         first [apply keeps_send_json | apply keeps_delay; split; reflexivity]).
  - (* handleSettings *)
    unfold Portal.handleSettings. apply keeps_get; intros w0.
    destruct (decide (method r = HTTP_GET)); [apply keeps_send_json|].
    destruct (parse (arg "plain" r)); [unfold Portal.send_parse_error; apply keeps_send_json|].
    destruct (match Portal.device (Portal.self w0) with
              | Some d => Portal.updateSettings d j | None => (false, j) end) as [u doc].
    apply keeps_send_json.
  - (* handleLED *)
    unfold Portal.handleLED.
    destruct (negb (bool_decide (method r = HTTP_POST))); [apply keeps_send_json|].
    destruct (parse (arg "plain" r)); [unfold Portal.send_parse_error; apply keeps_send_json|].
    destruct (containsKey "state" j); [|apply keeps_send_json].
    apply keeps_get; intros w0. cbn [Portal.getLEDController].
    keeps_auto; first [apply keeps_setPattern; split; reflexivity | apply keeps_send_json].
Qed.

Lemma keeps_handleClient parse pending :
  keeps redirector_confined leaves_dns (Portal.handleClient parse pending).
Proof.
  unfold Portal.handleClient. apply keeps_get; intros w0.
  destruct pending as [r|]; [|apply keeps_ret].
  apply keeps_when. unfold Portal.serve. apply keeps_get; intros w1.
  destruct (Portal.find_route _ r); [apply keeps_run_handler|].
  destruct (Portal.notFoundSet _); [|keeps_auto].
  unfold Portal.handleNotFound. destruct (_ || _); keeps_auto.
Qed.

(** Each callback leaves the redirector confined to configuration mode:
    entering the mode starts it with the flag set; a connection stops it
    when the flag was set, and finds it stopped otherwise. *)
Lemma keeps_run_callback c :
  keeps redirector_confined (fun _ => True) (Portal.run_callback c).
Proof.
  intros w H. destruct c; cbn [Portal.run_callback].
  - destruct w as [[dev cfg ini pres ss pw ch ip] r dns l st cn sv [ms hp mok]].
    unfold redirector_confined in *. cbn in H.
    destruct cfg.
    + destruct dev; destruct mok; cbn; (split; [discriminate | repeat constructor]).
    + destruct dns; [discriminate (H eq_refl)|].
      destruct dev; destruct mok; cbn; (split; [discriminate | repeat constructor]).
  - destruct w as [[dev cfg ini pres ss pw ch ip] r dns l st cn sv e].
    destruct dev; (split; [exact H | repeat constructor]).
  - destruct (onEnterAPMode_enters w) as (w' & tr & -> & Hc & _).
    split; [intros _; exact Hc | apply Forall_forall; intros; exact Logic.I].
Qed.

Lemma keeps_run_callbacks cs :
  keeps redirector_confined (fun _ => True) (Portal.run_callbacks cs).
Proof.
  induction cs as [|c cs IH]; cbn [Portal.run_callbacks].
  - apply keeps_ret.
  - apply keeps_bind; [apply keeps_run_callback | intros _; exact IH].
Qed.

Lemma keeps_update parse t :
  keeps redirector_confined (fun _ => True) (Portal.update parse t).
Proof.
  unfold Portal.update, Portal.dnsHandler_processRequests, Portal.on_self.
  apply keeps_get; intros w0.
  apply keeps_bind; [keeps_auto | intros _].
  apply keeps_bind; [keeps_auto | intros _].
  apply keeps_bind;
    [apply (keeps_weaken _ leaves_dns); [intros; exact Logic.I | apply keeps_handleClient]
    | intros _].
  apply keeps_bind; [apply keeps_run_callbacks | intros _].
  apply keeps_get; intros w1.
  apply keeps_bind; [|intros _; keeps_auto].
  destruct (Portal.configMode (Portal.self w1)); keeps_auto.
Qed.

Lemma keeps_enterConfigMode :
  keeps redirector_confined (fun _ => True) Portal.enterConfigMode.
Proof.
  intros w _. destruct (enterConfigMode_enters w) as (w' & tr & -> & Hc & _).
  split; [intros _; exact Hc | apply Forall_forall; intros; exact Logic.I].
Qed.

Lemma keeps_begin : keeps redirector_confined (fun _ => True) Portal.begin.
Proof.
  unfold Portal.begin, Portal.configManager_loadConfig, Portal.setupWebServerRoutes,
    Portal.webServer_begin, Portal.registerAPIRoutes, Portal.on_self.
  apply keeps_bind; [keeps_auto | intros _].
  apply keeps_bind; [apply keeps_setPattern; exact Logic.I | intros _].
  apply keeps_bind; [keeps_auto | intros _].
  apply keeps_get; intros w0.
  apply keeps_bind; [destruct (Portal.device _); keeps_auto | intros _].
  apply keeps_bind; [apply keeps_setPattern; exact Logic.I | intros _].
  apply keeps_bind.
  { unfold Portal.wifiManager_connect. apply keeps_get; intros w1.
    destruct (decide _); [apply keeps_ret|].
    destruct (Portal.conn w1); keeps_auto. }
  intros ci.
  apply keeps_bind; [apply keeps_when, keeps_enterConfigMode | intros _].
  apply keeps_bind; [keeps_auto | intros _].
  apply keeps_bind; [keeps_auto | intros _].
  apply keeps_get; intros w1.
  destruct (Portal.device _); keeps_auto.
Qed.

Lemma keeps_setup : keeps redirector_confined (fun _ => True) TestDevice.setup.
Proof.
  unfold TestDevice.setup.
  apply keeps_bind; [apply keeps_delay; exact Logic.I | intros _].
  apply keeps_bind; [keeps_auto | intros _].
  apply keeps_get; intros w0.
  destruct (decide _); [apply keeps_enterConfigMode | apply keeps_begin].
Qed.

Lemma fresh_confined me r st e : redirector_confined (Portal.fresh me r st e).
Proof. intros H. discriminate H. Qed.

Lemma reachable_confined parse w : reachable parse w -> redirector_confined w.
Proof.
  induction 1 as [sz pz dev s p ch r st e w tr Hb
                 | sz pz dev s p ch r st e w tr Hs
                 | w t w' tr Hw IH Hu
                 | w r e Hw IH Hm].
  - pose proof (keeps_begin _ (fresh_confined
                  (Portal.ctor sz pz dev s p ch) r st e)) as H.
    rewrite Hb in H. exact (proj1 H).
  - pose proof (keeps_setup _ (fresh_confined (Portal.ctor sz pz dev s p ch) r st e)) as H.
    rewrite Hs in H. exact (proj1 H).
  - pose proof (keeps_update parse t w IH) as H. rewrite Hu in H. exact (proj1 H).
  - exact IH.
Qed.

(** C5. In every state the running portal reaches, the DNS redirector runs
    in configuration mode only: once the mode is NORMAL it is not running.
    It is started, exactly once, by each of the two ways into
    configuration mode, and entering again leaves it running; a
    "connected" event leaves the mode NORMAL and the redirector stopped,
    stopping it once when the mode was CONFIG, and a repeated event stops
    nothing; serving a request neither starts nor stops it.  Starting a
    started redirector and stopping a stopped one change nothing. *)
Theorem redirector_stopped_in_normal_mode
    (parse : string -> DeserializationError + JsonDocument) (w : Portal.World) :
  reachable parse w ->
  (Portal.configMode (Portal.self w) = false -> Portal.dnsRunning w = false)
  /\ (forall enter, enter = Portal.enterConfigMode \/ enter = Portal.onEnterAPMode ->
        exists w1 t1 w2 t2,
          enter w = Done tt w1 t1 /\ enter w1 = Done tt w2 t2
          /\ Portal.configMode (Portal.self w1) = true /\ Portal.dnsRunning w1 = true
          /\ count is_dns_begin t1 = 1%nat
          /\ Portal.configMode (Portal.self w2) = true /\ Portal.dnsRunning w2 = true)
  /\ (exists w1 t1 w2 t2,
        Portal.onWiFiConnected w = Done tt w1 t1
        /\ Portal.onWiFiConnected w1 = Done tt w2 t2
        /\ Portal.configMode (Portal.self w1) = false /\ Portal.dnsRunning w1 = false
        /\ count is_dns_stop t1 = (if Portal.configMode (Portal.self w) then 1%nat else 0%nat)
        /\ count is_dns_begin t1 = 0%nat
        /\ Portal.configMode (Portal.self w2) = false /\ Portal.dnsRunning w2 = false
        /\ count is_dns_stop t2 = 0%nat)
  /\ (forall pending,
        Forall leaves_dns (trace_of (Portal.handleClient parse pending w)))
  /\ (forall ip port,
        state_of ((Portal.dnsHandler_begin ip port ;; Portal.dnsHandler_begin ip port)%eff w)
        = state_of (Portal.dnsHandler_begin ip port w)
        /\ state_of ((Portal.dnsHandler_stop ;; Portal.dnsHandler_stop)%eff w)
           = state_of (Portal.dnsHandler_stop w)).
Proof.
  intros Hr. pose proof (reachable_confined parse w Hr) as Hinv.
  split; [|split; [|split; [|split]]].
  - intros Hc. destruct (Portal.dnsRunning w) eqn:Hd; [|reflexivity].
    rewrite (Hinv Hd) in Hc. discriminate Hc.
  - intros enter [-> | ->].
    + destruct (enterConfigMode_enters w) as (w1 & t1 & H1 & Hc1 & Hd1 & _ & Hn1 & _).
      destruct (enterConfigMode_enters w1) as (w2 & t2 & H2 & Hc2 & Hd2 & _).
      exists w1, t1, w2, t2. auto 10.
    + destruct (onEnterAPMode_enters w) as (w1 & t1 & H1 & Hc1 & Hd1 & _ & Hn1 & _).
      destruct (onEnterAPMode_enters w1) as (w2 & t2 & H2 & Hc2 & Hd2 & _).
      exists w1, t1, w2, t2. auto 10.
  - destruct w as [[dev cfg ini pres ss pw ch ip] r dns l st cn sv [ms hp mok]].
    unfold redirector_confined in Hinv. cbn in Hinv.
    destruct cfg.
    + destruct dev; destruct mok;
        (do 4 eexists; split; [reflexivity|]; split; [reflexivity|]); repeat split.
    + destruct dns; [discriminate (Hinv eq_refl)|].
      destruct dev; destruct mok;
        (do 4 eexists; split; [reflexivity|]; split; [reflexivity|]); repeat split.
  - intros pending. pose proof (keeps_handleClient parse pending w Hinv) as H.
    destruct (Portal.handleClient parse pending w); cbn [trace_of]; tauto.
  - intros ip port. destruct w; split; reflexivity.
Qed.

Lemma redirector_stopped_in_normal_mode_witness :
  Portal.configMode (Portal.self (Sample.normal_world Sample.equipped)) = false
  /\ Portal.dnsRunning (Sample.normal_world Sample.equipped) = false.
Proof.
  assert (Hr : reachable Sample.parser (Sample.normal_world Sample.equipped)).
  { eapply (reach_begin Sample.parser 32 64 (Some Sample.adapter) None "lovi-setup" 1
              Sample.radio Sample.credentials Sample.env).
    vm_compute. reflexivity. }
  split; [reflexivity|].
  exact (proj1 (redirector_stopped_in_normal_mode Sample.parser _ Hr) eq_refl).
Defined.

(* --------------------------------------------------------------------- *)
(** ** The probe paths, in every state the portal reaches *)
(* --------------------------------------------------------------------- *)













(* --------------------------------------------------------------------- *)
(** ** More on ConfigManager *)
(* --------------------------------------------------------------------- *)

Lemma isConfigured_head (c : ascii) (rest : list ascii) (p : list ascii) :
  ConfigManager.isConfigured (ConfigManager.mk (c :: rest) p)
  = negb (bool_decide (c = NUL)).
Proof.
  unfold ConfigManager.isConfigured, strlen. cbn [ConfigManager._ssid c_str].
  destruct (decide (c = NUL)) as [->|Hc].
  - rewrite (bool_decide_eq_true_2 (NUL = NUL)) by reflexivity. reflexivity.
  - rewrite (bool_decide_eq_false_2 (c = NUL)) by exact Hc. cbn.
    apply bool_decide_eq_true_2. lia.
Qed.

(** X1. Saving and loading are inverse to each other on the whole buffers,
    not only on the strings in them: a load from what a save wrote gives
    back the manager, cell for cell; a save of what a load read leaves the
    EEPROM shadow as it was, and commits it. *)
Theorem save_and_load_are_inverse (cm blank : ConfigManager.t) (e : EEPROM.t) :
  ConfigManager.sized cm -> ConfigManager.sized blank ->
  (ConfigManager.SSID_SIZE + ConfigManager.PASSWORD_SIZE <= length (EEPROM.data e))%nat ->
  ConfigManager.loadConfig (ConfigManager.saveConfig cm e) blank = cm
  /\ EEPROM.data (ConfigManager.saveConfig (ConfigManager.loadConfig e blank) e)
     = EEPROM.data e
  /\ EEPROM.flash (ConfigManager.saveConfig (ConfigManager.loadConfig e blank) e)
     = EEPROM.data e.
Proof.
  intros Hcm Hblank He.
  unfold ConfigManager.loadConfig, ConfigManager.saveConfig.
  assert (Hload : ConfigManager._loadFromEEPROM e blank
                  = ConfigManager.mk (take ConfigManager.SSID_SIZE (EEPROM.data e))
                      (take ConfigManager.PASSWORD_SIZE
                         (drop ConfigManager.SSID_SIZE (EEPROM.data e)))).
  { eapply (loadFromEEPROM_of _ _ (drop (ConfigManager.SSID_SIZE + ConfigManager.PASSWORD_SIZE)
                                     (EEPROM.data e)) blank e Hblank).
    - rewrite length_take. lia.
    - rewrite length_take, length_drop. lia.
    - rewrite <- drop_drop, !take_drop. reflexivity. }
  split; [|].
  - destruct (saveToEEPROM_data cm e Hcm He) as [Hd _]. destruct Hcm as [Ls Lp].
    rewrite (loadFromEEPROM_of _ _ _ blank _ Hblank Ls Lp Hd). destruct cm; reflexivity.
  - assert (Hsz : ConfigManager.sized (ConfigManager._loadFromEEPROM e blank)).
    { rewrite Hload. split; cbn [ConfigManager._ssid ConfigManager._password].
      - rewrite length_take. lia.
      - rewrite length_take, length_drop. lia. }
    destruct (saveToEEPROM_data _ e Hsz He) as [Hd Hf].
    assert (Hsame : EEPROM.data (ConfigManager._saveToEEPROM
                                   (ConfigManager._loadFromEEPROM e blank) e)
                    = EEPROM.data e).
    { rewrite Hd, Hload. cbn [ConfigManager._ssid ConfigManager._password].
      rewrite <- drop_drop, !take_drop. reflexivity. }
    split; [exact Hsame | rewrite Hf; exact Hsame].
Qed.

Lemma save_and_load_are_inverse_witness :
  ConfigManager.loadConfig
    (ConfigManager.saveConfig (ConfigManager.setSSID (Arduino.chars "HomeNet") Sample.cm_garbage)
       Sample.eeprom_factory)
    Sample.cm_garbage
  = ConfigManager.setSSID (Arduino.chars "HomeNet") Sample.cm_garbage.
Proof.
  refine (proj1 (save_and_load_are_inverse
                   (ConfigManager.setSSID (Arduino.chars "HomeNet") Sample.cm_garbage)
                   Sample.cm_garbage Sample.eeprom_factory _ _ _)).
  - split; reflexivity.
  - split; reflexivity.
  - vm_compute. lia.
Defined.

(** X2. After a load, whether the manager counts as configured is decided
    by the first EEPROM cell alone: configured exactly when that cell is not
    NUL.  An EEPROM that was never written (every cell 255) therefore loads
    as configured. *)
Theorem configured_iff_first_cell (e : EEPROM.t) (cm : ConfigManager.t) :
  ConfigManager.sized cm ->
  ConfigManager.isConfigured (ConfigManager.loadConfig e cm)
  = negb (bool_decide (EEPROM.read 0 e = NUL)).
Proof.
  intros Hcm. destruct (loaded_ssid_head e cm Hcm) as [rest Hl].
  destruct (ConfigManager.loadConfig e cm) as [s p]. cbn in Hl. subst s.
  apply isConfigured_head.
Qed.

Lemma configured_iff_first_cell_witness :
  ConfigManager.isConfigured (ConfigManager.loadConfig Sample.eeprom_factory Sample.cm_garbage)
  = true
  /\ ConfigManager.isConfigured (ConfigManager.loadConfig Sample.eeprom_zeroed Sample.cm_garbage)
     = false.
Proof.
  split.
  - rewrite (configured_iff_first_cell Sample.eeprom_factory Sample.cm_garbage
               (conj eq_refl eq_refl)). reflexivity.
  - rewrite (configured_iff_first_cell Sample.eeprom_zeroed Sample.cm_garbage
               (conj eq_refl eq_refl)). reflexivity.
Defined.

(** X3. [clearConfig()] empties both strings and commits: the manager is
    no longer configured and a later load returns the cleared manager.  It
    zeroes the first cell of each buffer only: every other cell of the
    credential area keeps the byte the buffer held, so the characters of the
    old SSID and passphrase after the first stay in the EEPROM. *)
Theorem clearConfig_clears_first_cells_only
    (cm blank : ConfigManager.t) (e : EEPROM.t) :
  ConfigManager.sized cm -> ConfigManager.sized blank ->
  (ConfigManager.SSID_SIZE + ConfigManager.PASSWORD_SIZE <= length (EEPROM.data e))%nat ->
  let cm' := (ConfigManager.clearConfig cm e).1 in
  let e' := (ConfigManager.clearConfig cm e).2 in
  ConfigManager.getSSID cm' = [] /\ ConfigManager.getPassword cm' = []
  /\ ConfigManager.isConfigured cm' = false
  /\ EEPROM.flash e' = EEPROM.data e'
  /\ ConfigManager.loadConfig e' blank = cm'
  /\ (forall i, (0 < i < 32)%nat ->
        EEPROM.data e' !! i = ConfigManager._ssid cm !! i)
  /\ (forall j, (0 < j < 64)%nat ->
        EEPROM.data e' !! (32 + j)%nat = ConfigManager._password cm !! j).
Proof.
  intros [Ls Lp] Hblank He cm' e'.
  destruct cm as [s p]. cbn [ConfigManager._ssid ConfigManager._password] in Ls, Lp.
  destruct s as [|c s]; [discriminate Ls|]. destruct p as [|d p]; [discriminate Lp|].
  assert (Hcm' : cm' = ConfigManager.mk (NUL :: s) (NUL :: p)) by reflexivity.
  assert (Hsz : ConfigManager.sized cm').
  { rewrite Hcm'. split; cbn [ConfigManager._ssid ConfigManager._password length] in *; lia. }
  assert (He' : e' = ConfigManager._saveToEEPROM cm' e) by reflexivity.
  destruct (saveToEEPROM_data cm' e Hsz He) as [Hd Hf]. rewrite <- He' in Hd, Hf.
  rewrite Hcm' in Hd. cbn [ConfigManager._ssid ConfigManager._password] in Hd.
  split; [rewrite Hcm'; reflexivity|]. split; [rewrite Hcm'; reflexivity|].
  split; [rewrite Hcm'; reflexivity|]. split; [exact Hf|].
  split.
  { rewrite Hcm'. destruct Hsz as [L1 L2]. rewrite Hcm' in L1, L2.
    exact (loadFromEEPROM_of _ _ _ blank e' Hblank L1 L2 Hd). }
  cbn [length] in Ls, Lp. unfold ConfigManager.SSID_SIZE in Ls.
  unfold ConfigManager.PASSWORD_SIZE in Lp.
  split.
  - intros i Hi. rewrite Hd. rewrite lookup_app_l by (cbn [length]; lia).
    destruct i as [|i]; [lia|]. reflexivity.
  - intros j Hj. rewrite Hd. rewrite lookup_app_r by (cbn [length]; lia).
    cbn [length]. replace (32 + j - S (length s))%nat with j by lia.
    rewrite lookup_app_l by (cbn [length]; lia).
    destruct j as [|j]; [lia|]. reflexivity.
Qed.

Lemma clearConfig_clears_first_cells_only_witness :
  let cm := ConfigManager.setPassword (Arduino.chars "correct horse")
              (ConfigManager.setSSID (Arduino.chars "HomeNet") Sample.cm_garbage) in
  ConfigManager.isConfigured (ConfigManager.clearConfig cm Sample.eeprom_factory).1 = false
  /\ EEPROM.data (ConfigManager.clearConfig cm Sample.eeprom_factory).2 !! 1%nat
     = Some "o"%char.
Proof.
  intros cm.
  destruct (clearConfig_clears_first_cells_only cm Sample.cm_garbage Sample.eeprom_factory
              (conj eq_refl eq_refl) (conj eq_refl eq_refl) ltac:(vm_compute; lia))
    as (_ & _ & Hc & _ & _ & Hs & _).
  split; [exact Hc|]. rewrite (Hs 1%nat ltac:(lia)). reflexivity.
Defined.

(** X4. The two setters do not interfere: each leaves the other buffer
    alone and they commute.  Read back without any EEPROM, the SSID is the
    first 31 characters of the string set, and the manager counts as
    configured exactly when that string is not empty. *)
Theorem setters_are_independent (cm : ConfigManager.t) (ssid password : list ascii) :
  ConfigManager.sized cm ->
  ConfigManager.setSSID ssid (ConfigManager.setPassword password cm)
  = ConfigManager.setPassword password (ConfigManager.setSSID ssid cm)
  /\ ConfigManager.getPassword (ConfigManager.setSSID ssid cm) = ConfigManager.getPassword cm
  /\ ConfigManager.getSSID (ConfigManager.setPassword password cm) = ConfigManager.getSSID cm
  /\ ConfigManager.getSSID (ConfigManager.setSSID ssid cm) = take 31 (c_str ssid)
  /\ ConfigManager.getPassword (ConfigManager.setPassword password cm)
     = take 63 (c_str password)
  /\ ConfigManager.isConfigured (ConfigManager.setSSID ssid cm)
     = negb (bool_decide (c_str ssid = [])).
Proof.
  intros Hcm. destruct (setSSID_buffer ssid cm Hcm) as [Hs _].
  destruct (setPassword_buffer password cm Hcm) as [Hp _].
  assert (HS : ConfigManager.getSSID (ConfigManager.setSSID ssid cm) = take 31 (c_str ssid)).
  { unfold ConfigManager.getSSID. rewrite Hs. exact (c_str_stored 32 ssid ltac:(lia)). }
  split; [reflexivity|]. split; [reflexivity|]. split; [reflexivity|].
  split; [exact HS|]. split.
  - unfold ConfigManager.getPassword. rewrite Hp. exact (c_str_stored 64 password ltac:(lia)).
  - unfold ConfigManager.isConfigured, strlen.
    change (c_str (ConfigManager._ssid (ConfigManager.setSSID ssid cm)))
      with (ConfigManager.getSSID (ConfigManager.setSSID ssid cm)).
    rewrite HS. destruct (c_str ssid) as [|c r]; reflexivity.
Qed.

Lemma setters_are_independent_witness :
  ConfigManager.getSSID (ConfigManager.setSSID (Arduino.chars "HomeNet") Sample.cm_garbage)
  = Arduino.chars "HomeNet".
Proof.
  exact (proj1 (proj2 (proj2 (proj2 (setters_are_independent Sample.cm_garbage
           (Arduino.chars "HomeNet") [] (conj eq_refl eq_refl)))))).
Defined.

(* --------------------------------------------------------------------- *)
(** ** LEDController *)
(* --------------------------------------------------------------------- *)

Lemma led_call_level (c : Led.Call) (l : Led.t) :
  Led.last_level (Led.writes l) = Some (negb (Led.isOn l)) ->
  Led.last_level (Led.writes (Led.call c l)) = Some (negb (Led.isOn (Led.call c l)))
  /\ Led._pin (Led.call c l) = Led._pin l.
Proof.
  intros H. destruct c; cbn; try (split; reflexivity).
  - unfold Led.toggle. destruct (Led._isOn l); split; reflexivity.
  - split; [exact H | reflexivity].
Qed.

(** X5. The indicator is wired active-low and the flag tracks the pin:
    after [begin()] the LED is off, and after any sequence of [on], [off],
    [toggle] and [setBrightness] calls the level last written with
    [digitalWrite] is HIGH exactly when [isOn()] is false.  The pin number
    never changes. *)
Theorem led_flag_tracks_pin (pin : Z) (cs : list Led.Call) :
  let l := Led.calls cs (Led.begin (Led.ctor pin)) in
  Led.isOn (Led.begin (Led.ctor pin)) = false
  /\ Led.last_level (Led.writes l) = Some (negb (Led.isOn l))
  /\ Led._pin l = pin.
Proof.
  intros l. split; [reflexivity|]. subst l.
  assert (H : forall l0,
             Led.last_level (Led.writes l0) = Some (negb (Led.isOn l0)) ->
             Led.last_level (Led.writes (Led.calls cs l0))
             = Some (negb (Led.isOn (Led.calls cs l0)))
             /\ Led._pin (Led.calls cs l0) = Led._pin l0).
  { induction cs as [|c cs IH]; intros l0 H0; [split; [exact H0 | reflexivity]|].
    unfold Led.calls. cbn [foldl]. fold (Led.calls cs (Led.call c l0)).
    destruct (led_call_level c l0 H0) as [H1 H2].
    destruct (IH _ H1) as [H3 H4]. split; [exact H3 | rewrite H4; exact H2]. }
  exact (H (Led.begin (Led.ctor pin)) eq_refl).
Qed.

Lemma led_isOn_depends_on_flag (cs : list Led.Call) :
  forall l l', Led._isOn l = Led._isOn l' ->
               Led.isOn (Led.calls cs l) = Led.isOn (Led.calls cs l').
Proof.
  induction cs as [|c cs IH]; intros l l' H; [exact H|].
  unfold Led.calls. cbn [foldl]. fold (Led.calls cs (Led.call c l)).
  fold (Led.calls cs (Led.call c l')). apply IH.
  destruct c; cbn; try reflexivity; [|exact H].
  unfold Led.toggle. rewrite H. destruct (Led._isOn l'); reflexivity.
Qed.

(** X6. [setBrightness] never reaches the flag: what [isOn()] answers after
    a sequence of calls is what it answers after the same sequence with the
    [setBrightness] calls left out (so a LED dimmed to zero still reports
    on, and one lit by a brightness write still reports off); and two
    [toggle] calls in a row give the flag back. *)
Theorem led_isOn_ignores_brightness (cs : list Led.Call) (l : Led.t) :
  Led.isOn (Led.calls cs l)
  = Led.isOn (Led.calls (filter (fun c => Led.is_brightness c = false) cs) l)
  /\ Led.isOn (Led.toggle (Led.toggle l)) = Led.isOn l
  /\ forall b, Led.isOn (Led.setBrightness b l) = Led.isOn l.
Proof.
  split; [|split; [unfold Led.toggle; destruct l as [p [] w]; reflexivity | reflexivity]].
  revert l. induction cs as [|c cs IH]; intros l; [reflexivity|].
  destruct c; rewrite ?filter_cons_True by reflexivity;
    try (unfold Led.calls; cbn [foldl]; apply IH).
  rewrite filter_cons_False by (cbn; discriminate).
  unfold Led.calls at 1. cbn [foldl]. fold (Led.calls cs (Led.call (Led.SetBrightness brightness) l)).
  rewrite <- IH. apply led_isOn_depends_on_flag. reflexivity.
Qed.

(* --------------------------------------------------------------------- *)
(** ** lovi-core: identifiers, mDNS advertisement, API server, Device *)
(* --------------------------------------------------------------------- *)

Ltac run_core :=
  cbv beta iota zeta delta
    [bind ret get put modify emit fault restart deref when app
     LoviCore.on_dev LoviCore._setDeviceProperties LoviCore.MDNSAdvertiser_begin
     LoviCore.MDNSAdvertiser_update LoviCore._handleDeviceInfo LoviCore._handleData
     LoviCore._handleNotFound LoviCore.APIServer_begin LoviCore.APIServer_update
     LoviCore.Device_update LoviCore.startMDNS LoviCore.updateMDNS LoviCore.stopMDNS
     LoviCore.startAPIServer LoviCore.updateAPIServer LoviCore.stopAPIServer
     LoviCore.PresenceGenOneDevice_update LoviCore.call].

Lemma unhex2_hex2 (b : ascii) :
  exists x y, LoviCore.hex2 b = [x; y] /\ LoviCore.unhex2 x y = b.
Proof.
  destruct b as [[] [] [] [] [] [] [] []]; eexists; eexists; split; reflexivity.
Qed.

Lemma hex2_inj (a b : ascii) : LoviCore.hex2 a = LoviCore.hex2 b -> a = b.
Proof.
  intros H. destruct (unhex2_hex2 a) as (x & y & Ha & Hx).
  destruct (unhex2_hex2 b) as (x' & y' & Hb & Hx').
  rewrite Ha, Hb in H. injection H as -> ->. congruence.
Qed.

(** X7. The two MAC renderings ([%02X] per byte, with and without colons)
    are always 17 and 12 characters long, so the 18-byte buffer never cuts
    them, and they identify the address: different addresses give different
    strings. *)
Theorem mac_strings_identify_address (a b : LoviCore.MAC) :
  length (LoviCore.api_getMACAddress a) = 12%nat
  /\ length (LoviCore.mdns_getMACAddress a) = 17%nat
  /\ (LoviCore.api_getMACAddress a = LoviCore.api_getMACAddress b -> a = b)
  /\ (LoviCore.mdns_getMACAddress a = LoviCore.mdns_getMACAddress b -> a = b).
Proof.
  destruct a as [a0 a1 a2 a3 a4 a5], b as [b0 b1 b2 b3 b4 b5].
  split; [reflexivity|]. split; [reflexivity|].
  split; intros H; cbn in H;
    injection H as H0 H0' H1 H1' H2 H2' H3 H3' H4 H4' H5 H5';
    rewrite (hex2_inj a0 b0), (hex2_inj a1 b1), (hex2_inj a2 b2),
            (hex2_inj a3 b3), (hex2_inj a4 b4), (hex2_inj a5 b5);
    try reflexivity; unfold LoviCore.hex2; congruence.
Qed.

(** X8. [startMDNS] on a device whose flag is clear calls [MDNS.begin] with
    the device's name.  When that succeeds it advertises the service
    [lovi]/[tcp] on the given port with four TXT records, of which [model]
    and [device_type] are the fixed strings ["Lovi Device"] and
    ["presence_gen_one"] whatever the device's own type; when it fails
    nothing is advertised.  Either way the device's flag is set. *)
Theorem startMDNS_advertises (w : LoviCore.World) (port : Z) :
  LoviCore._mdnsStarted (LoviCore.dev w) = false ->
  exists w',
    LoviCore.startMDNS port w
    = Done tt w'
        (MDNS_begin (LoviCore._name (LoviCore.dev w)) ::
         if LoviCore.mdns_ok w then
           [MDNS_addService "lovi" "tcp" port;
            MDNS_addServiceTxt "mac"
              (string_of_list_ascii (LoviCore.mdns_getMACAddress (LoviCore.mac w)));
            MDNS_addServiceTxt "model" "Lovi Device";
            MDNS_addServiceTxt "device_type" "presence_gen_one";
            MDNS_addServiceTxt "firmware_version"
              (LoviCore._firmwareVersion (LoviCore.dev w))]
         else [])
    /\ LoviCore._mdnsStarted (LoviCore.dev w') = true
    /\ LoviCore._mdns (LoviCore.dev w') = Some (LoviCore.mkAdv (LoviCore.mdns_ok w))
    /\ LoviCore._type (LoviCore.dev w') = LoviCore._type (LoviCore.dev w).
Proof.
  destruct w as [[n f t c s m a ms as_] mc ok ml]. cbn. intros ->.
  destruct ok; eexists; (split; [reflexivity|]); repeat split.
Qed.

Lemma startMDNS_advertises_witness :
  exists w',
    LoviCore.startMDNS 80
      (LoviCore.mkWorld (LoviCore.Device_ctor "Lovi-Test" LoviCore.TEST_DEVICE "1.0.0")
         (LoviCore.mkMAC "222"%char "173"%char "190"%char "239"%char "000"%char "001"%char)
         true 0)
    = Done tt w'
        [MDNS_begin "Lovi-Test"; MDNS_addService "lovi" "tcp" 80;
         MDNS_addServiceTxt "mac" "DE:AD:BE:EF:00:01";
         MDNS_addServiceTxt "model" "Lovi Device";
         MDNS_addServiceTxt "device_type" "presence_gen_one";
         MDNS_addServiceTxt "firmware_version" "1.0.0"].
Proof.
  destruct (startMDNS_advertises
              (LoviCore.mkWorld (LoviCore.Device_ctor "Lovi-Test" LoviCore.TEST_DEVICE "1.0.0")
                 (LoviCore.mkMAC "222"%char "173"%char "190"%char "239"%char "000"%char "001"%char)
                 true 0) 80 eq_refl) as (w' & H & _).
  exists w'. exact H.
Defined.

(** X9. A second [startMDNS] does nothing, whatever port it names, and this
    is so even when the first [MDNS.begin] failed: the device's flag was
    set all the same, so the start is never tried again, and [update()]
    then never calls [MDNS.update]. *)
Theorem startMDNS_is_not_retried (w : LoviCore.World) (port port' : Z) :
  LoviCore._mdnsStarted (LoviCore.dev w) = false ->
  exists w1 t1,
    LoviCore.startMDNS port w = Done tt w1 t1
    /\ LoviCore.startMDNS port' w1 = Done tt w1 []
    /\ (LoviCore.mdns_ok w = false ->
        count LoviCore.is_mdns_update (trace_of (LoviCore.Device_update None w1)) = 0%nat
        /\ count LoviCore.is_mdns_update (trace_of (LoviCore.updateMDNS w1)) = 0%nat)
    /\ (LoviCore.mdns_ok w = true ->
        count LoviCore.is_mdns_update (trace_of (LoviCore.Device_update None w1)) = 1%nat).
Proof.
  destruct w as [[n f t c s m a ms as_] mc ok ml]. cbn. intros ->.
  destruct ok; (eexists; eexists; split; [reflexivity|]; split; [reflexivity|]);
    (split; intros H; try discriminate H).
  - destruct a as [[p []]|]; destruct as_; reflexivity.
  - destruct a as [[p []]|]; destruct as_; split; reflexivity.
Qed.

Lemma startMDNS_is_not_retried_witness :
  exists w1 t1,
    LoviCore.startMDNS 80
      (LoviCore.mkWorld (LoviCore.Device_ctor "Lovi-Test" LoviCore.TEST_DEVICE "1.0.0")
         (LoviCore.mkMAC "222"%char "173"%char "190"%char "239"%char "000"%char "001"%char)
         false 0)
    = Done tt w1 t1
    /\ LoviCore.startMDNS 8080 w1 = Done tt w1 [].
Proof.
  destruct (startMDNS_is_not_retried
              (LoviCore.mkWorld (LoviCore.Device_ctor "Lovi-Test" LoviCore.TEST_DEVICE "1.0.0")
                 (LoviCore.mkMAC "222"%char "173"%char "190"%char "239"%char "000"%char "001"%char)
                 false 0) 80 8080 eq_refl) as (w1 & t1 & H1 & H2 & _).
  exists w1, t1. split; assumption.
Defined.

(** X10. [stopMDNS] tells the mDNS responder nothing: it clears the flag
    and drops the advertiser, and performs no action.  Afterwards no update
    reaches [MDNS.update], and a new [startMDNS] calls [MDNS.begin] again. *)
Theorem stopMDNS_is_silent (w : LoviCore.World) (port : Z) :
  exists w1,
    LoviCore.stopMDNS w = Done tt w1 []
    /\ LoviCore._mdnsStarted (LoviCore.dev w1) = false
    /\ LoviCore._mdns (LoviCore.dev w1) = None
    /\ count LoviCore.is_mdns_update (trace_of (LoviCore.updateMDNS w1)) = 0%nat
    /\ count LoviCore.is_mdns_update (trace_of (LoviCore.Device_update None w1)) = 0%nat
    /\ count LoviCore.is_mdns_begin (trace_of (LoviCore.startMDNS port w1)) = 1%nat.
Proof.
  destruct w as [[n f t c s m a ms as_] mc ok ml].
  eexists. split; [reflexivity|]. cbn.
  repeat split; try (destruct a as [[p []]|]; destruct as_; reflexivity).
  destruct ok; reflexivity.
Qed.
Ltac core_decide :=
  repeat match goal with
         | |- context [decide (?a = ?b)] => destruct (decide (a = b))
         end.
Ltac core_done :=
  eexists; eexists; (split; [reflexivity|]); cbn;
  repeat match goal with
         | |- _ /\ _ => split
         | |- _ -> _ => intro
         end;
  eauto; try discriminate.

Lemma core_call_consistent (c : LoviCore.Call) (w : LoviCore.World) :
  LoviCore.consistent (LoviCore.dev w) ->
  exists w' tr,
    LoviCore.call c w = Done tt w' tr
    /\ LoviCore.consistent (LoviCore.dev w')
    /\ LoviCore.mac w' = LoviCore.mac w
    /\ LoviCore._name (LoviCore.dev w') = LoviCore._name (LoviCore.dev w)
    /\ LoviCore._type (LoviCore.dev w') = LoviCore._type (LoviCore.dev w).
Proof.
  destruct w as [[n f t cp s m a ms as_] mc ok ml].
  unfold LoviCore.consistent. cbn. intros [Hm Ha].
  destruct c as [p | | | p | r | | r]; run_core; cbn.
  - destruct ms; [|destruct ok]; cbn; core_done.
  - destruct m as [[[]]|]; core_done.
  - core_done.
  - destruct as_; cbn; core_done.
  - destruct a as [[p []]|]; cbn; [destruct r as [r|] | | ]; core_decide; core_done.
  - core_done.
  - destruct m as [[[]]|]; destruct ms; cbn;
      (destruct a as [[p []]|]; destruct as_; cbn; [destruct r as [r|] | .. ]);
      core_decide; core_done.
Qed.

(** X11. Whatever sequence of start, stop and update calls is made on a
    device, every call returns, and the started flags never outlive their
    objects: while the mDNS flag is set the advertiser exists, and while the
    API-server flag is set the server exists and is listening.  The device's
    name, type and MAC address are never changed by these calls. *)
Theorem device_calls_keep_flags_consistent (cs : list LoviCore.Call) (w : LoviCore.World) :
  LoviCore.consistent (LoviCore.dev w) ->
  exists w' tr,
    LoviCore.calls cs w = Done tt w' tr
    /\ LoviCore.consistent (LoviCore.dev w')
    /\ LoviCore.mac w' = LoviCore.mac w
    /\ LoviCore._name (LoviCore.dev w') = LoviCore._name (LoviCore.dev w)
    /\ LoviCore._type (LoviCore.dev w') = LoviCore._type (LoviCore.dev w).
Proof.
  revert w. induction cs as [|c cs IH]; intros w H.
  - exists w, []. split; [reflexivity|]. split; [exact H|]. repeat split.
  - destruct (core_call_consistent c w H) as (w1 & t1 & H1 & C1 & M1 & N1 & T1).
    destruct (IH w1 C1) as (w2 & t2 & H2 & C2 & M2 & N2 & T2).
    exists w2, (t1 ++ t2). split.
    + cbn [LoviCore.calls]. unfold bind. rewrite H1, H2. reflexivity.
    + split; [exact C2|]. repeat split; congruence.
Qed.

Lemma device_calls_keep_flags_consistent_witness :
  exists w' tr,
    LoviCore.calls
      [LoviCore.StartMDNS 80; LoviCore.StartAPIServer 80; LoviCore.StopMDNS;
       LoviCore.Update (Some (mkRequest HTTP_GET "/api/data" []))]
      (LoviCore.mkWorld (LoviCore.PresenceGenOneDevice_ctor "1.0.0")
         (LoviCore.mkMAC "222"%char "173"%char "190"%char "239"%char "000"%char "001"%char)
         true 0)
    = Done tt w' tr
    /\ LoviCore.consistent (LoviCore.dev w').
Proof.
  destruct (device_calls_keep_flags_consistent
              [LoviCore.StartMDNS 80; LoviCore.StartAPIServer 80; LoviCore.StopMDNS;
               LoviCore.Update (Some (mkRequest HTTP_GET "/api/data" []))]
              (LoviCore.mkWorld (LoviCore.PresenceGenOneDevice_ctor "1.0.0")
                 (LoviCore.mkMAC "222"%char "173"%char "190"%char "239"%char "000"%char "001"%char)
                 true 0))
    as (w' & tr & H & C & _).
  - split; intros H; discriminate H.
  - exists w', tr. split; assumption.
Defined.

(** X12. A listening API server answers every request exactly once, always
    as [application/json] and for every method: 200 for the paths
    [/api/device] and [/api/data], and 404 with the error document for any
    other path.  Serving a request changes nothing in the device.  A
    stopped server answers nothing. *)
Theorem api_server_answers (r : Request) (a : LoviCore.APIServer) (w : LoviCore.World) :
  (LoviCore._server a = true ->
   exists code body,
     LoviCore.APIServer_update (Some r) a w
     = Done tt w [HTTP_send code "application/json" body]
     /\ (uri r = "/api/device" \/ uri r = "/api/data" -> code = 200)
     /\ (uri r <> "/api/device" -> uri r <> "/api/data" ->
         code = 404 /\ body = BText LoviCore.not_found_json))
  /\ (LoviCore._server a = false ->
      LoviCore.APIServer_update (Some r) a w = Done tt w []).
Proof.
  split; intros Hs; unfold LoviCore.APIServer_update; rewrite Hs; cbn [when]; [|reflexivity].
  destruct (decide (uri r = "/api/device")) as [H1|H1];
    [|destruct (decide (uri r = "/api/data")) as [H2|H2]];
    (eexists; eexists; split; [reflexivity|]); split;
    try (intros; reflexivity); try (intros A B; contradiction).
  - intros [A|A]; contradiction.
  - intros _ _. split; reflexivity.
Qed.

Lemma api_server_answers_witness :
  exists code body,
    LoviCore.APIServer_update (Some (mkRequest HTTP_POST "/api/nothing" []))
      (LoviCore.mkApi 80 true)
      (LoviCore.mkWorld (LoviCore.PresenceGenOneDevice_ctor "1.0.0")
         (LoviCore.mkMAC "222"%char "173"%char "190"%char "239"%char "000"%char "001"%char)
         true 0)
    = Done tt
        (LoviCore.mkWorld (LoviCore.PresenceGenOneDevice_ctor "1.0.0")
           (LoviCore.mkMAC "222"%char "173"%char "190"%char "239"%char "000"%char "001"%char)
           true 0)
        [HTTP_send code "application/json" body]
    /\ code = 404.
Proof.
  destruct (proj1 (api_server_answers (mkRequest HTTP_POST "/api/nothing" [])
                     (LoviCore.mkApi 80 true)
                     (LoviCore.mkWorld (LoviCore.PresenceGenOneDevice_ctor "1.0.0")
                        (LoviCore.mkMAC "222"%char "173"%char "190"%char "239"%char
                                        "000"%char "001"%char)
                        true 0)) eq_refl)
    as (code & body & H & _ & H404).
  exists code, body. split; [exact H|].
  apply H404; cbn; discriminate.
Defined.

(** X13. What [/api/data] reports on the presence_gen_one image: its
    [update()] overwrites the sensor data on every pass with the time since
    boot in whole seconds and fixed readings, so a request served on the
    next pass always reports presence and motion false, whatever was stored
    before. *)
Theorem presence_gen_one_reports_fixed_readings (w : LoviCore.World) :
  exists w',
    LoviCore.PresenceGenOneDevice_update None w = Done tt w' (trace_of
      (LoviCore.Device_update None w))
    /\ LoviCore._sensorData (LoviCore.dev w')
       = LoviCore.mkData false false 0 50 22500 45000 (LoviCore.millis w / 1000)
    /\ exists doc,
         LoviCore._handleData w' = Done tt w' [HTTP_send 200 "application/json" (BJson doc)]
         /\ json_get "presence" doc = Some (JBool false)
         /\ json_get "motion" doc = Some (JBool false)
         /\ json_get "uptime" doc = Some (JInt (LoviCore.millis w / 1000)).
Proof.
  destruct w as [[n f t cp s m a ms as_] mc ok ml].
  destruct m as [[[]]|]; destruct ms; destruct a as [[p []]|]; destruct as_;
    (eexists; split; [reflexivity|]; split; [reflexivity|];
     eexists; split; [reflexivity|]; repeat split).
Qed.

(* --------------------------------------------------------------------- *)
(** ** presence_gen_one: a connection attempt that succeeds *)
(* --------------------------------------------------------------------- *)

(** The polling loop when the radio first reports the link at its test
    number [k] (counting from 0): [k] delays of a second, then it leaves
    with the count it has reached. *)
Lemma poll_until (k : nat) :
  forall (fuel : nat) (timeout : Z) (w : Legacy.World),
    timeout + Z.of_nat k <= 30 -> (k < fuel)%nat ->
    (forall j : nat, (j < k)%nat ->
       Legacy.link w (Legacy.clock w + 1000 * Z.of_nat j) = false) ->
    Legacy.link w (Legacy.clock w + 1000 * Z.of_nat k) = true ->
    PresenceGenOne.poll fuel timeout w
    = Done (Some (timeout + Z.of_nat k))
           (Legacy.with_clock (Legacy.clock w + 1000 * Z.of_nat k) w)
           (replicate k (Delay 1000)).
Proof.
  induction k as [|k IH]; intros fuel timeout w Ht Hf Hdown Hup;
    (destruct fuel as [|fuel]; [lia|]); rewrite poll_step.
  - change (Z.of_nat 0) with 0 in *. rewrite Z.mul_0_r, Z.add_0_r in Hup.
    rewrite Hup. cbn [negb andb]. rewrite with_clock_same, Z.add_0_r. reflexivity.
  - pose proof (Hdown 0%nat ltac:(lia)) as H0.
    change (Z.of_nat 0) with 0 in H0. rewrite Z.mul_0_r, Z.add_0_r in H0.
    rewrite H0. cbn [negb andb].
    assert (Hlt : (timeout <? PresenceGenOne.WIFI_TIMEOUT) = true)
      by (apply Z.ltb_lt; unfold PresenceGenOne.WIFI_TIMEOUT; lia).
    rewrite Hlt.
    set (w1 := Legacy.with_clock (Legacy.clock w + 1000) w).
    rewrite (IH fuel (timeout + 1) w1); [| lia | lia | |].
    + cbn [replicate]. subst w1. rewrite with_clock_twice.
      f_equal; [f_equal; lia|]. destruct w; simpl. f_equal. lia.
    + intros j Hj. subst w1. destruct w; simpl in *.
      specialize (Hdown (S j) ltac:(lia)).
      rewrite <- Hdown. f_equal. lia.
    + subst w1. destruct w; simpl in *. rewrite <- Hup. f_equal. lia.
Qed.

(** X14. A connection attempt succeeds when the radio reports the link at
    one of the loop's tests: if the link is first up at test number [k],
    for any [k] from 0 to the timeout of 30 inclusive, [connectToWiFi]
    waits exactly [k] seconds, takes the connected branch and starts the
    device, then mDNS and the API server on port 80 (each unless already
    started).  A link that comes up at the very moment the timeout
    expires still counts.  The portal and the stored credentials are left
    alone. *)
Theorem connect_succeeds_when_link_comes_up
    (k fuel : nat) (ssid password : list ascii) (w : Legacy.World) :
  (k <= 30)%nat -> (k < fuel)%nat ->
  (forall j : nat, (j < k)%nat ->
     Legacy.link w (Legacy.clock w + 1000 * Z.of_nat j) = false) ->
  Legacy.link w (Legacy.clock w + 1000 * Z.of_nat k) = true ->
  exists w',
    PresenceGenOne.connectToWiFi fuel ssid password w
    = Done (Some true) w'
        ([WiFi_mode WIFI_STA; WiFi_begin ssid password]
         ++ replicate k (Delay 1000)
         ++ Dev DeviceBegin
            :: (if Legacy._mdnsStarted (Legacy.device w) then []
                else [Dev (StartMDNS 80)])
            ++ (if Legacy._apiServerStarted (Legacy.device w) then []
                else [Dev (StartAPIServer 80)]))
    /\ Legacy.clock w' = Legacy.clock w + 1000 * Z.of_nat k
    /\ Legacy.wifi_mode w' = WIFI_STA
    /\ Legacy.device w' = Legacy.mkDevice true true
    /\ Legacy.portal w' = Legacy.portal w
    /\ Legacy.eeprom w' = Legacy.eeprom w.
Proof.
  intros Hk Hf Hdown Hup.
  pose proof (poll_until k fuel 0 (Legacy.with_wifi_mode WIFI_STA w)
                ltac:(lia) Hf) as Hpoll.
  destruct w as [p [ms as_] e m c l h]. cbn in Hdown, Hup, Hpoll.
  specialize (Hpoll Hdown Hup).
  run_legacy. cbn [Legacy.with_wifi_mode Legacy.portal Legacy.device Legacy.eeprom
                   Legacy.clock Legacy.link Legacy.heap Legacy.wifi_mode] in *.
  rewrite Hpoll. cbn. rewrite Hup.
  destruct ms, as_; cbn; (eexists; split; [reflexivity|]); cbn; repeat split.
Qed.

Lemma connect_succeeds_when_link_comes_up_witness :
  exists w',
    PresenceGenOne.connectToWiFi 31 (chars "home") (chars "secret")
      (PresenceGenOne.boot Sample.eeprom_zeroed (fun t => 2000 <=? t) Sample.cm_garbage)
    = Done (Some true) w'
        [WiFi_mode WIFI_STA; WiFi_begin (chars "home") (chars "secret");
         Delay 1000; Delay 1000;
         Dev DeviceBegin; Dev (StartMDNS 80); Dev (StartAPIServer 80)]
    /\ Legacy.clock w' = 2000.
Proof.
  destruct (connect_succeeds_when_link_comes_up 2 31 (chars "home") (chars "secret")
              (PresenceGenOne.boot Sample.eeprom_zeroed (fun t => 2000 <=? t)
                 Sample.cm_garbage))
    as (w' & H & Hc & _).
  - lia.
  - lia.
  - intros j Hj. destruct j as [|[|j]]; [reflexivity | reflexivity | lia].
  - reflexivity.
  - exists w'. split; [exact H | exact Hc].
Defined.

(* --------------------------------------------------------------------- *)
(** ** The single-argument portal: begin, enterConfigMode, update *)
(* --------------------------------------------------------------------- *)

Lemma ctor_is_blank (raw : ConfigManager.t) :
  ConfigManager.getSSID (ConfigManager.ctor raw) = []
  /\ ConfigManager.getPassword (ConfigManager.ctor raw) = []
  /\ ConfigManager.isConfigured (ConfigManager.ctor raw) = false.
Proof.
  destruct raw as [[|a s] [|b p]]; repeat split.
Qed.

Lemma ctor_sized (raw : ConfigManager.t) :
  ConfigManager.sized raw -> ConfigManager.sized (ConfigManager.ctor raw).
Proof.
  intros [Hs Hp]. split; cbn [ConfigManager.ctor ConfigManager._ssid ConfigManager._password];
    rewrite length_insert; assumption.
Qed.

(** X15. Entering configuration mode starts from a blank credential
    manager: whatever credentials the portal had loaded before, the manager
    it holds afterwards is a new one with an empty SSID and passphrase (not
    configured), while the EEPROM is not touched.  The entry brings up the
    LED, the open access point [Lovi-Config], the web server and the DNS
    server on 192.168.4.1:53, in this order, and asking for it again while
    in configuration mode does nothing. *)
Theorem enterConfigMode_starts_afresh (w : Legacy.World) :
  Legacy._configMode (Legacy.portal w) = false ->
  exists w' cm,
    Legacy.enterConfigMode w
    = Done tt w'
        [LED_begin; WiFi_mode WIFI_AP; WiFi_softAP "Lovi-Config" EmptyString 1;
         HTTP_begin; DNS_begin (IP 192 168 4 1) 53]
    /\ Legacy._configManager (Legacy.portal w') = Some cm
    /\ ConfigManager.getSSID cm = []
    /\ ConfigManager.getPassword cm = []
    /\ ConfigManager.isConfigured cm = false
    /\ Legacy.eeprom w' = Legacy.eeprom w
    /\ Legacy.enterConfigMode w' = Done tt w' [].
Proof.
  intros Hm. destruct w as [[cm led pin cfg st dns web] d e m c l h].
  cbn in Hm. subst cfg.
  destruct (ctor_is_blank h) as (Hs & Hp & Hc).
  run_legacy. cbn.
  eexists. exists (ConfigManager.ctor h).
  split; [reflexivity|]. cbn. repeat split; assumption.
Qed.

Lemma enterConfigMode_starts_afresh_witness :
  exists w' cm,
    Legacy.enterConfigMode Sample.legacy_begun
    = Done tt w'
        [LED_begin; WiFi_mode WIFI_AP; WiFi_softAP "Lovi-Config" EmptyString 1;
         HTTP_begin; DNS_begin (IP 192 168 4 1) 53]
    /\ Legacy._configManager (Legacy.portal w') = Some cm
    /\ ConfigManager.getSSID cm = [].
Proof.
  destruct (enterConfigMode_starts_afresh Sample.legacy_begun)
    as (w' & cm & H & Hcm & Hs & _).
  - reflexivity.
  - exists w', cm. split; [exact H|]. split; [exact Hcm | exact Hs].
Defined.

(** X16. [begin()] on a portal not yet started creates the LED and the web
    server and nothing else observable: it does not touch the radio, the
    mode or the EEPROM.  The manager it leaves holds exactly the two
    credential blocks of the EEPROM (cells 0..31 and 32..95).  A second
    [begin()] does nothing. *)
Theorem legacy_begin_runs_once (w : Legacy.World) (s p rest : list ascii) :
  Legacy._started (Legacy.portal w) = false ->
  ConfigManager.sized (Legacy.heap w) ->
  length s = ConfigManager.SSID_SIZE -> length p = ConfigManager.PASSWORD_SIZE ->
  EEPROM.data (Legacy.eeprom w) = s ++ p ++ rest ->
  exists w',
    Legacy.begin w = Done tt w' [LED_begin; HTTP_begin]
    /\ Legacy._configManager (Legacy.portal w') = Some (ConfigManager.mk s p)
    /\ Legacy._configMode (Legacy.portal w') = Legacy._configMode (Legacy.portal w)
    /\ Legacy.wifi_mode w' = Legacy.wifi_mode w
    /\ Legacy.eeprom w' = Legacy.eeprom w
    /\ Legacy.begin w' = Done tt w' [].
Proof.
  intros Hst Hh Ls Lp He. destruct w as [[cm led pin cfg st dns web] d e m c l h].
  cbn in Hst, Hh, He. subst st.
  assert (H1 : ConfigManager.begin e (ConfigManager.ctor h) = ConfigManager.mk s p).
  { unfold ConfigManager.begin, ConfigManager.loadConfig.
    eapply loadFromEEPROM_of; eauto using ctor_sized. }
  assert (H2 : ConfigManager.loadConfig e (ConfigManager.mk s p) = ConfigManager.mk s p).
  { unfold ConfigManager.loadConfig.
    eapply loadFromEEPROM_of; eauto. split; assumption. }
  run_legacy. cbn [Legacy.portal Legacy._started Legacy.eeprom Legacy.heap Legacy._ledPin
                   Legacy.with_portal Legacy.set_configManager Legacy.set_ledController
                   Legacy.set_webServer Legacy.set_started Legacy.device Legacy.wifi_mode
                   Legacy.clock Legacy.link Legacy._configManager Legacy._ledController
                   Legacy._configMode Legacy._dnsServer Legacy._webServer].
  rewrite H1, H2.
  eexists. split; [reflexivity|]. cbn. repeat split.
Qed.

Lemma legacy_begin_runs_once_witness :
  exists w',
    Legacy.begin (PresenceGenOne.boot Sample.eeprom_factory Sample.never_up Sample.cm_garbage)
    = Done tt w' [LED_begin; HTTP_begin]
    /\ Legacy._configManager (Legacy.portal w')
       = Some (ConfigManager.mk (replicate 32 "255"%char) (replicate 64 "255"%char)).
Proof.
  destruct (legacy_begin_runs_once
              (PresenceGenOne.boot Sample.eeprom_factory Sample.never_up Sample.cm_garbage)
              (replicate 32 "255"%char) (replicate 64 "255"%char)
              (replicate 416 "255"%char))
    as (w' & H & Hcm & _).
  - reflexivity.
  - split; reflexivity.
  - reflexivity.
  - reflexivity.
  - reflexivity.
  - exists w'. split; [exact H | exact Hcm].
Defined.

(** X17. The portal's web server, once created, answers every request
    exactly once and without changing any state unless the path is
    [/save]: the form (200) for [/], and for every other path, whatever
    the method, a 302 whose Location is [/].  The DNS server is polled
    first, and only in configuration mode.  Before [begin()] or
    [enterConfigMode()] has created the server, [update()] answers
    nothing. *)
Theorem legacy_update_answers (r : Request) (w : Legacy.World) :
  (Legacy._webServer (Legacy.portal w) = true ->
   uri r <> "/save" ->
   exists answer,
     Legacy.update (Some r) w
     = Done tt w
         ((if Legacy._configMode (Legacy.portal w) && Legacy._dnsServer (Legacy.portal w)
           then [DNS_process] else []) ++ answer)
     /\ (uri r = "/" ->
         answer = [HTTP_send 200 "text/html" (BPage "HTML_FORM")])
     /\ (uri r <> "/" ->
         answer = [HTTP_sendHeader "Location" "/";
                   HTTP_send 302 EmptyString (BText EmptyString)]))
  /\ (Legacy._webServer (Legacy.portal w) = false ->
      count is_send (trace_of (Legacy.update (Some r) w)) = 0%nat).
Proof.
  destruct w as [[cm led pin cfg st dns web] d e m c l h]. cbn.
  split.
  - intros -> Hsave. run_legacy. cbn.
    destruct (decide (uri r = "/")) as [Hr|Hr];
      [|destruct (decide (uri r = "/save")) as [Hs|Hs]; [contradiction|]];
      destruct (cfg && dns); cbn;
      (eexists; split; [reflexivity|]); split; intros; try reflexivity; contradiction.
  - intros ->. run_legacy. cbn. destruct (cfg && dns); reflexivity.
Qed.

Lemma legacy_update_answers_witness :
  exists answer,
    Legacy.update (Some (mkRequest HTTP_POST "/generate_204" [])) Sample.legacy_config
    = Done tt Sample.legacy_config (DNS_process :: answer)
    /\ answer = [HTTP_sendHeader "Location" "/";
                 HTTP_send 302 EmptyString (BText EmptyString)].
Proof.
  destruct (proj1 (legacy_update_answers (mkRequest HTTP_POST "/generate_204" [])
                     Sample.legacy_config) eq_refl)
    as (answer & H & _ & Hn).
  - cbn. discriminate.
  - exists answer. split; [exact H|]. apply Hn. cbn. discriminate.
Defined.

(* --------------------------------------------------------------------- *)
(** ** The control-plane server: routing as a whole *)
(* --------------------------------------------------------------------- *)

(** A handler the server picks belongs to a registered route that matches
    the request. *)
Lemma find_route_Some (rts : list Portal.Route) (r : Request) (h : Portal.Handler) :
  Portal.find_route rts r = Some h ->
  exists rt, rt ∈ rts /\ Portal.route_matches rt r = true /\ rt.2 = h.
Proof.
  induction rts as [|rt rts IH]; cbn [Portal.find_route]; [discriminate|].
  destruct (Portal.route_matches rt r) eqn:Hm.
  - intros [= <-]. exists rt. split; [left | split; [exact Hm | reflexivity]].
  - intros H. destruct (IH H) as (rt' & Hin & Hm' & Hh).
    exists rt'. split; [right; exact Hin | split; assumption].
Qed.


(** Every handler of the portal sends exactly one response and returns or
    restarts. *)
Lemma own_handler_answers_once
    (parse : string -> DeserializationError + JsonDocument)
    (h : Portal.Handler) (r : Request) (w : Portal.World) :
  Routing.own h = true ->
  count is_send (trace_of (Portal.run_handler parse h r w)) = 1%nat
  /\ no_fault (Portal.run_handler parse h r w) = true.
Proof.
  intros Hown. destruct w as [[dev cfg ini pres ss pw ch ip] rd dns l st c sv e].
  destruct h; try discriminate Hown; cbn [Portal.run_handler];
    try (split; reflexivity).
  - unfold Portal.handleSettings. run_portal. cbn.
    destruct (decide (method r = HTTP_GET)); [split; reflexivity|].
    destruct (parse (arg "plain" r)) as [err|doc]; [split; reflexivity|].
    destruct dev as [d|]; [destruct (Portal.updateSettings d doc) as [[] doc']|];
      split; reflexivity.
  - unfold Portal.handleLED. run_portal. cbn.
    destruct (bool_decide (method r = HTTP_POST)); cbn; [|split; reflexivity].
    destruct (parse (arg "plain" r)) as [err|doc]; [split; reflexivity|].
    destruct (containsKey "state" doc); [|split; reflexivity].
    destruct (as_bool (json_get "state" doc)); split; reflexivity.
Qed.

(** X18. A server that has begun answers every request exactly once,
    whatever its method, path and body and whatever the parser makes of
    the body, and never faults: one [send] by the handler of the matching
    route, by [handleNotFound], or by the server's own 404 when no
    not-found handler is set.  (Routes registered by a Device Adapter are
    answered by the adapter and are excluded.) *)
Theorem every_request_is_answered_once
    (parse : string -> DeserializationError + JsonDocument)
    (r : Request) (w : Portal.World) :
  Portal.serving (Portal.server w) = true ->
  Forall (fun rt : Portal.Route => Routing.own rt.2 = true) (Portal.routes (Portal.server w)) ->
  count is_send (trace_of (Portal.handleClient parse (Some r) w)) = 1%nat
  /\ no_fault (Portal.handleClient parse (Some r) w) = true.
Proof.
  intros Hs Hown.
  unfold Portal.handleClient, Portal.serve. cbv beta iota zeta delta [bind get when].
  rewrite Hs.
  destruct (Portal.find_route (Portal.routes (Portal.server w)) r) as [h|] eqn:Hf.
  - destruct (find_route_Some _ _ _ Hf) as (rt & Hin & _ & <-).
    rewrite Forall_forall in Hown. specialize (Hown rt Hin).
    destruct (own_handler_answers_once parse rt.2 r w Hown) as [H1 H2].
    destruct (Portal.run_handler parse rt.2 r w); cbn in *;
      rewrite ?app_nil_r; split; assumption.
  - destruct (Portal.notFoundSet (Portal.server w)); [|split; reflexivity].
    unfold Portal.handleNotFound.
    match goal with |- context [if ?c then _ else _] => destruct c end;
      split; reflexivity.
Qed.

Lemma every_request_is_answered_once_witness :
  count is_send
    (trace_of (Portal.handleClient Sample.parser
                 (Some (mkRequest HTTP_DELETE "/nowhere" []))
                 (Sample.config_world Sample.bare))) = 1%nat
  /\ no_fault (Portal.handleClient Sample.parser
                 (Some (mkRequest HTTP_DELETE "/nowhere" []))
                 (Sample.config_world Sample.bare)) = true.
Proof.
  apply (every_request_is_answered_once Sample.parser
           (mkRequest HTTP_DELETE "/nowhere" []) (Sample.config_world Sample.bare)).
  - reflexivity.
  - vm_compute. repeat constructor.
Defined.





Ltac in_list := repeat first [apply list_elem_of_here | apply list_elem_of_further].
Ltac not_in_list H :=
  repeat (apply elem_of_cons in H as [H|H]; [discriminate H|]);
  apply elem_of_nil in H; exact H.

(** X20. The [/api] prefix is an alias.  For each control-plane name the
    route table sends [/api/name] and [/name] to the same handler for the
    same methods, and the two requests are answered identically.  The one
    exception is a request whose method no route accepts, for the names
    [handleNotFound] does not list ([/device], [/scan], [/network],
    [/led]): under [/api] it is answered 404 in JSON, bare it is answered
    200 with the provisioning page. *)
Theorem api_prefix_is_an_alias
    (parse : string -> DeserializationError + JsonDocument)
    (p : string) (m : HTTPMethod) (a : list (string * string)) (w : Portal.World) :
  p ∈ Routing.api_names ->
  Portal.routes (Portal.server w) = Portal.portal_routes ->
  Portal.notFoundSet (Portal.server w) = true ->
  Portal.find_route Portal.portal_routes (mkRequest m ("/api" +:+ p) a)
  = Portal.find_route Portal.portal_routes (mkRequest m p a)
  /\ (is_Some (Portal.find_route Portal.portal_routes (mkRequest m p a))
      \/ p ∉ Routing.unlisted_names ->
      Portal.serve parse (mkRequest m ("/api" +:+ p) a) w
      = Portal.serve parse (mkRequest m p a) w)
  /\ (Portal.find_route Portal.portal_routes (mkRequest m p a) = None ->
      p ∈ Routing.unlisted_names ->
      Portal.serve parse (mkRequest m ("/api" +:+ p) a) w
      = Done tt w [Routing.not_found_answer]
      /\ Portal.serve parse (mkRequest m p a) w = Done tt w [Routing.page_answer]).
Proof.
  intros Hp Hr Hn. destruct w as [me rd dns l st c [rts nf sv] e].
  cbn in Hr, Hn. subst rts nf.
  unfold Routing.api_names in Hp. unfold Routing.unlisted_names.
  repeat (apply elem_of_cons in Hp as [->|Hp]); [.. | by apply elem_of_nil in Hp];
    destruct m; (split; [reflexivity|]); split;
    first
      [ intros _; reflexivity
      | intros [[h Hh]|Hnot]; [discriminate Hh | exfalso; apply Hnot; in_list]
      | intros H; discriminate H
      | intros _ Hin; exfalso; not_in_list Hin
      | intros _ _; split; reflexivity ].
Qed.

Lemma api_prefix_is_an_alias_witness :
  Portal.serve Sample.parser (mkRequest HTTP_GET "/api/led" []) (Sample.config_world Sample.bare)
  = Done tt (Sample.config_world Sample.bare) [Routing.not_found_answer]
  /\ Portal.serve Sample.parser (mkRequest HTTP_GET "/led" []) (Sample.config_world Sample.bare)
     = Done tt (Sample.config_world Sample.bare) [Routing.page_answer].
Proof.
  apply (api_prefix_is_an_alias Sample.parser "/led" HTTP_GET []
           (Sample.config_world Sample.bare)).
  - unfold Routing.api_names. in_list.
  - reflexivity.
  - reflexivity.
  - reflexivity.
  - unfold Routing.unlisted_names. in_list.
Defined.

(* --------------------------------------------------------------------- *)
(** ** The host name derived from the device name *)
(* --------------------------------------------------------------------- *)

Lemma hostname_char (c : ascii) :
  let c' := Portal.lower (if decide (c = " "%char) then "-"%char else c) in
  c' <> " "%char
  /\ ((65 <=? nat_of_ascii c')%nat && (nat_of_ascii c' <=? 90)%nat) = false
  /\ Portal.lower (if decide (c' = " "%char) then "-"%char else c') = c'.
Proof.
  destruct c as [[] [] [] [] [] [] [] []]; vm_compute;
    (split; [discriminate | split; reflexivity]).
Qed.

Lemma hostname_of_cons (c : ascii) (s : string) :
  Portal.hostname_of (String c s)
  = String (Portal.lower (if decide (c = " "%char) then "-"%char else c))
           (Portal.hostname_of s).
Proof. reflexivity. Qed.

(** X21. The host name the portal gives the radio and the mDNS responder
    is the device name with every space replaced by a hyphen and every
    upper-case ASCII letter by its lower-case one: it has the length of
    the name, holds no space and no upper-case ASCII letter, and
    normalising it again changes nothing.  All other characters are kept
    as they are. *)
Theorem hostname_is_normalised (name : string) :
  String.length (Portal.hostname_of name) = String.length name
  /\ Forall (fun c => c <> " "%char
                      /\ ((nat_of_ascii c < 65)%nat \/ (90 < nat_of_ascii c)%nat))
            (chars (Portal.hostname_of name))
  /\ Portal.hostname_of (Portal.hostname_of name) = Portal.hostname_of name
  /\ (Forall (fun c => c <> " "%char
                       /\ ((nat_of_ascii c < 65)%nat \/ (90 < nat_of_ascii c)%nat))
             (chars name) ->
      Portal.hostname_of name = name).
Proof.
  induction name as [|c s (IHl & IHf & IHi & IHk)].
  - repeat split; constructor.
  - rewrite hostname_of_cons.
    destruct (hostname_char c) as (Hsp & Hup & Hid). cbv zeta in Hsp, Hup, Hid.
    set (c' := Portal.lower (if decide (c = " "%char) then "-"%char else c)) in *.
    split; [cbn; f_equal; exact IHl|].
    split.
    { cbn. constructor; [|exact IHf]. split; [exact Hsp|].
      apply andb_false_iff in Hup as [H|H];
        [left; apply Nat.leb_gt in H; lia | right; apply Nat.leb_gt in H; lia]. }
    split.
    { rewrite hostname_of_cons. fold c'. rewrite Hid, IHi. reflexivity. }
    intros Hall. cbn in Hall. apply Forall_cons in Hall as [[Hc1 Hc2] Hall].
    rewrite (IHk Hall). f_equal. subst c'.
    destruct (decide (c = " "%char)); [contradiction|].
    unfold Portal.lower.
    destruct ((65 <=? nat_of_ascii c)%nat && (nat_of_ascii c <=? 90)%nat) eqn:E;
      [|reflexivity].
    apply andb_prop in E as [E1 E2].
    apply Nat.leb_le in E1. apply Nat.leb_le in E2. lia.
Qed.

Lemma hostname_is_normalised_witness :
  Portal.hostname_of "lovi-test" = "lovi-test"%string.
Proof.
  apply (hostname_is_normalised "lovi-test").
  repeat (apply Forall_cons; split;
          [split; [discriminate
                  | first [left; apply Nat.ltb_lt; vm_compute; reflexivity
                          | right; apply Nat.ltb_lt; vm_compute; reflexivity]]|]).
  constructor.
Defined.

(* --------------------------------------------------------------------- *)
(** ** One pass of update() *)
(* --------------------------------------------------------------------- *)

Import Pass.

Lemma quiet_bind {A B} (m : Portal.Run A) (k : A -> Portal.Run B) (w : Portal.World) :
  quiet (m w) -> (forall a w1, quiet (k a w1)) -> quiet (bind m k w).
Proof.
  unfold bind. intros Hm Hk.
  destruct (m w) as [a w1 t1 | w1 t1 | f t1]; [|exact Hm|exact Hm].
  specialize (Hk a w1). cbn in Hm.
  destruct (k a w1) as [b w2 t2 | w2 t2 | f t2]; cbn in *; [| |exact Hk].
  - rewrite count_app, Hm, Hk. reflexivity.
  - destruct Hk as [Hc Hl]. rewrite count_app, Hm, Hc, last_app, Hl. split; reflexivity.
Qed.

Lemma fed_bind {A B} (m : Portal.Run A) (k : A -> Portal.Run B) (w : Portal.World) :
  quiet (m w) -> (forall a w1, fed (k a w1)) -> fed (bind m k w).
Proof.
  unfold bind. intros Hm Hk.
  destruct (m w) as [a w1 t1 | w1 t1 | f t1]; cbn in Hm;
    [|destruct Hm; split; assumption|exact Hm].
  specialize (Hk a w1).
  destruct (k a w1) as [b w2 t2 | w2 t2 | f t2]; cbn in *; [| |exact Hk];
    destruct Hk as [Hl Hc]; rewrite count_app, Hm, Hc, last_app, Hl; split; reflexivity.
Qed.

Lemma bind_get {B} (k : Portal.World -> Portal.Run B) (w : Portal.World) :
  bind get k w = k w w.
Proof. unfold bind, get. destruct (k w w); reflexivity. Qed.

(** Serving a request returns or ends in the restart; it does not fault
    and does not feed the watchdog. *)
Lemma handleClient_quiet
    (parse : string -> DeserializationError + JsonDocument)
    (p : option Request) (w : Portal.World) :
  quiet (Portal.handleClient parse p w).
Proof.
  destruct p as [r|]; [|reflexivity].
  unfold Portal.handleClient, Portal.serve. cbv beta iota zeta delta [bind get when].
  destruct (Portal.serving (Portal.server w)); [|reflexivity].
  destruct (Portal.find_route (Portal.routes (Portal.server w)) r) as [h|].
  - destruct w as [[dev cfg ini pres ss pw ch ip] rd dns l st c sv e].
    destruct h; cbn [Portal.run_handler]; try reflexivity; try (split; reflexivity).
    + unfold Portal.handleSettings. run_portal. cbn.
      destruct (decide (method r = HTTP_GET)); [reflexivity|].
      destruct (parse (arg "plain" r)) as [err|doc]; [reflexivity|].
      destruct dev as [d|]; [destruct (Portal.updateSettings d doc) as [[] doc']|];
        reflexivity.
    + unfold Portal.handleLED. run_portal. cbn.
      destruct (bool_decide (method r = HTTP_POST)); cbn; [|reflexivity].
      destruct (parse (arg "plain" r)) as [err|doc]; [reflexivity|].
      destruct (containsKey "state" doc); [|reflexivity].
      destruct (as_bool (json_get "state" doc)); reflexivity.
  - destruct (Portal.notFoundSet (Portal.server w)); [|reflexivity].
    unfold Portal.handleNotFound.
    match goal with |- context [if ?c then _ else _] => destruct c end; reflexivity.
Qed.

(** The callbacks of the Connection Manager always return, and do not feed
    the watchdog. *)
Lemma run_callbacks_quiet (cs : list Portal.Callback) (w : Portal.World) :
  quiet (Portal.run_callbacks cs w).
Proof.
  revert w. induction cs as [|c cs IH]; intros w; [reflexivity|].
  cbn [Portal.run_callbacks]. apply quiet_bind; [|intros _ w1; apply IH].
  destruct w as [[dev cfg ini pres ss pw ch ip] rd dns l st cn sv [ml fh ok]].
  destruct c, dev as [d|], cfg, ok; reflexivity.
Qed.

(** X22. Every pass of [update()] feeds the watchdog: whatever request is
    waiting, whatever callbacks the Connection Manager fires and whatever
    the mode, the pass never faults; if it returns, it began by updating
    the LED with the presence recorded on the pass before and its last
    action, and only that one, is [ESP.wdtFeed()].  The only other way a
    pass ends is in the restart a handler asked for, and then the watchdog
    was not fed. *)
Theorem every_pass_feeds_the_watchdog
    (parse : string -> DeserializationError + JsonDocument)
    (t : Portal.Tick) (w : Portal.World) :
  match Portal.update parse t w with
  | Done _ _ tr =>
      head tr = Some (LED_update (Portal.presenceDetected (Portal.self w)))
      /\ last tr = Some WdtFeed
      /\ count is_wdt_feed tr = 1%nat
  | Rebooted _ tr =>
      head tr = Some (LED_update (Portal.presenceDetected (Portal.self w)))
      /\ last tr = Some Restart
      /\ count is_wdt_feed tr = 0%nat
  | Crash _ _ => False
  end.
Proof.
  unfold Portal.update. rewrite bind_get.
  match goal with
  | |- context [bind (emit ?e) ?k w] =>
      assert (Hrest : fed (k tt w)); [|unfold bind at 1, emit at 1; destruct (k tt w) as [? w' tr | w' tr | f tr]]
  end.
  - cbv beta. apply fed_bind.
    { unfold when, Portal.dnsHandler_processRequests.
      match goal with |- context [if ?c then _ else _] => destruct c end; reflexivity. }
    intros _ w1. apply fed_bind; [apply handleClient_quiet|].
    intros _ w2. apply fed_bind; [apply run_callbacks_quiet|].
    intros _ w3. rewrite bind_get. apply fed_bind; [|intros; split; reflexivity].
    destruct (Portal.configMode (Portal.self w3)); [reflexivity|].
    destruct w3 as [[dev cfg ini pres ss pw ch ip] [md up lip sip sd rs chn mac nets]
                      dns l st cn sv e].
    destruct dev, up; reflexivity.
  - destruct Hrest as [Hl Hc]. cbn [app head]. split; [reflexivity|].
    destruct tr as [|e tr]; [discriminate Hl|]. split; [exact Hl | exact Hc].
  - destruct Hrest as [Hl Hc]. cbn [app head]. split; [reflexivity|].
    destruct tr as [|e tr]; [discriminate Hl|]. split; [exact Hl | exact Hc].
  - exact Hrest.
Qed.
